(** * eulumies: the IESNA LM-63 reader and writer, the keyword rules and the
    converter

    A shallow embedding of [ies.go], [filereader.go], [conversion.go] and
    of the structure and the symmetry methods of [eulumdat.go].

    Conventions of the embedding.
    - A Go [string] is a byte string: Rocq's [string], one [ascii] per byte,
      so that Go's [len] is [String.length].
    - A Go [int] is a 64-bit integer, modelled as a [Z] in the int64 range;
      the one product the parser computes is wrapped explicitly.
    - A [map[string]string] value is either nil or a table:
      [option (gmap string string)]. Reading a nil map is reading an empty
      one; assigning to an entry of a nil map panics.
    - A [*bufio.Scanner] over the input file is the current token together
      with the physical lines not yet delivered (what [bufio.ScanLines]
      produces); read errors of the underlying file are not modelled.
    - A call either returns, returns an [error], or panics at run time
      (index out of range, negative [make] length, assignment to an entry
      of a nil map, nil pointer dereference): type [result].
    - [float64] values are kept abstract: the development is parametric in
      the type of floats, in [strconv.ParseFloat] and in the two
      functions that print a float.
    - [Export] is modelled by the strings it passes to [WriteString], in
      order; the file is taken to be created and written without error.
      One of its loops need not end: the model takes fuel, and [None]
      stands for a call that is still running when the fuel is used up. *)

From Stdlib Require Import ZArith Ascii String List Lia Bool DecimalString.
From stdpp Require Import base option list gmap strings fin_maps.

Open Scope string_scope.
Open Scope Z_scope.

(** ** Outcomes of a call *)

Inductive error : Type :=
  | ErrUnexpectedEOF
  | ErrLineTooLong (line : string)
  | ErrInvalidFormat (line : string)
  | ErrKeywordNotAllowed (keyword format : string)
  | ErrUnexpectedBlock
  | ErrMoreBeforeKeyword
  | ErrExtraBeforeKeyword
  | ErrRequiredKeywordsMissing
  | ErrExpectedKeywordOrTilt (line : string)
  | ErrTiltFromFile
  | ErrNoInteger
  | ErrAtoi (word : string)
  | ErrParseFloat (word : string)
  | ErrValidate (msg : string).

Inductive panic : Type :=
  | IndexOutOfRange (index : Z) (len : Z)
  | MakeLenOutOfRange (len : Z)
  | AssignToNilMap
  | NilDereference.

Inductive result (A : Type) : Type :=
  | Ok (a : A)
  | Err (e : error)
  | Panic (p : panic).

Arguments Ok {A} a.
Arguments Err {A} e.
Arguments Panic {A} p.

#[global] Instance result_ret : MRet result := fun A a => Ok a.

#[global] Instance result_bind : MBind result := fun A B k r =>
  match r with
  | Ok a => k a
  | Err e => Err e
  | Panic p => Panic p
  end.

Definition isOk {A : Type} (r : result A) : bool :=
  match r with Ok _ => true | _ => false end.

Definition isErr {A : Type} (r : result A) : bool :=
  match r with Err _ => true | _ => false end.

Definition isPanic {A : Type} (r : result A) : bool :=
  match r with Panic _ => true | _ => false end.

(** ** Byte strings *)

Module Bytes.

Definition code (c : ascii) : N := N_of_ascii c.

Definition isDigit (c : ascii) : bool :=
  ((48 <=? code c) && (code c <=? 57))%N.

Definition isUpper (c : ascii) : bool :=
  ((65 <=? code c) && (code c <=? 90))%N.

Definition isLower (c : ascii) : bool :=
  ((97 <=? code c) && (code c <=? 122))%N.

(** [\w] of Go's regexp: [0-9A-Za-z_]. *)
Definition isWord (c : ascii) : bool :=
  isDigit c || isUpper c || isLower c || (code c =? 95)%N.

(** [\s] of Go's regexp: [\t\n\f\r ] (no vertical tab). *)
Definition isRegexpSpace (c : ascii) : bool :=
  ((code c =? 9) || (code c =? 10) || (code c =? 12) || (code c =? 13)
   || (code c =? 32))%N.

(** ASCII white space of [unicode.IsSpace]: [\t\n\v\f\r ]. *)
Definition isAsciiSpace (c : ascii) : bool :=
  (((9 <=? code c) && (code c <=? 13)) || (code c =? 32))%N.

Definition newline : ascii := ascii_of_N 10.

(** Longest prefix whose bytes satisfy [p], and the rest. *)
Fixpoint span (p : ascii -> bool) (s : string) : string * string :=
  match s with
  | EmptyString => (EmptyString, EmptyString)
  | String c r =>
      if p c then let '(a, b) := span p r in (String c a, b)
      else (EmptyString, s)
  end.

Fixpoint contains (c : ascii) (s : string) : bool :=
  match s with
  | EmptyString => false
  | String d r => Ascii.eqb c d || contains c r
  end.

Fixpoint rev_onto (s acc : string) : string :=
  match s with
  | EmptyString => acc
  | String c r => rev_onto r (String c acc)
  end.

Definition rev (s : string) : string := rev_onto s EmptyString.

Fixpoint stripPrefix (p s : string) : option string :=
  match p, s with
  | EmptyString, _ => Some s
  | String a p', String b s' =>
      if Ascii.eqb a b then stripPrefix p' s' else None
  | String _ _, EmptyString => None
  end.

(** The UTF-8 encodings of the white-space runes above U+007F that
    [unicode.IsSpace] and [bufio]'s [isSpace] accept: U+0085, U+00A0,
    U+1680, U+2000..U+200A, U+2028, U+2029, U+202F, U+205F, U+3000.
    Each starts with a lead byte, so it is found at a rune boundary only. *)
Definition wideSpaceWidth (s : string) : nat :=
  match s with
  | String a (String b r) =>
      let a := code a in
      let b := code b in
      if ((a =? 194) && ((b =? 133) || (b =? 160)))%N then 2%nat
      else
        match r with
        | String c _ =>
            let c := code c in
            if ((a =? 225) && (b =? 154) && (c =? 128))%N then 3%nat
            else if ((a =? 226) && (b =? 128)
                     && (((128 <=? c) && (c <=? 138)) || (c =? 168)
                         || (c =? 169) || (c =? 175)))%N then 3%nat
            else if ((a =? 226) && (b =? 129) && (c =? 159))%N then 3%nat
            else if ((a =? 227) && (b =? 128) && (c =? 128))%N then 3%nat
            else 0%nat
        | EmptyString => 0%nat
        end
  | _ => 0%nat
  end.

(** Width in bytes of the white-space rune at the head of [s], 0 if the
    head is not white space. *)
Definition spaceWidth (s : string) : nat :=
  match s with
  | EmptyString => 0%nat
  | String c _ => if isAsciiSpace c then 1%nat else wideSpaceWidth s
  end.

Fixpoint dropBytes (n : nat) (s : string) : string :=
  match n, s with
  | O, _ => s
  | S n', String _ r => dropBytes n' r
  | S _, EmptyString => EmptyString
  end.

(** Drop leading white-space runes. The fuel is the length of the
    string; every step drops at least one byte. *)
Fixpoint trimLeftFuel (fuel : nat) (s : string) : string :=
  match fuel with
  | O => s
  | S fuel' =>
      match spaceWidth s with
      | O => s
      | w => trimLeftFuel fuel' (dropBytes w s)
      end
  end.

Definition trimLeft (s : string) : string := trimLeftFuel (String.length s) s.

(** The same test on the reversed string, for the trailing runes: the
    encodings are looked for back to front. *)
Definition spaceWidthRev (r : string) : nat :=
  match r with
  | EmptyString => 0%nat
  | String c _ =>
      if isAsciiSpace c then 1%nat
      else
        match r with
        | String b (String a _) =>
            if (wideSpaceWidth (String a (String b EmptyString)) =? 2)%nat
            then 2%nat
            else
              match r with
              | String c3 (String c2 (String c1 _)) =>
                  if (wideSpaceWidth
                        (String c1 (String c2 (String c3 EmptyString)))
                      =? 3)%nat
                  then 3%nat else 0%nat
              | _ => 0%nat
              end
        | _ => 0%nat
        end
  end.

Fixpoint trimRevFuel (fuel : nat) (r : string) : string :=
  match fuel with
  | O => r
  | S fuel' =>
      match spaceWidthRev r with
      | O => r
      | w => trimRevFuel fuel' (dropBytes w r)
      end
  end.

Definition trimRight (s : string) : string :=
  rev (trimRevFuel (String.length s) (rev s)).

(** [strings.TrimSpace]. *)
Definition TrimSpace (s : string) : string := trimRight (trimLeft s).

(** [strings.ReplaceAll s (one byte) ""]. *)
Fixpoint removeByte (c : ascii) (s : string) : string :=
  match s with
  | EmptyString => EmptyString
  | String d r =>
      if Ascii.eqb c d then removeByte c r else String d (removeByte c r)
  end.

(** The tokens of [bufio.ScanWords] over [s]: maximal runs of bytes
    between white-space runes. [cur] is the word being read, reversed. *)
Fixpoint wordsFuel (fuel : nat) (cur : string) (s : string) : list string :=
  match fuel with
  | O => if String.eqb cur EmptyString then [] else [rev cur]
  | S fuel' =>
      match s with
      | EmptyString => if String.eqb cur EmptyString then [] else [rev cur]
      | String c r =>
          match spaceWidth s with
          | O => wordsFuel fuel' (String c cur) r
          | w =>
              let tl := wordsFuel fuel' EmptyString (dropBytes w s) in
              if String.eqb cur EmptyString then tl else rev cur :: tl
          end
      end
  end.

Definition ScanWords (s : string) : list string :=
  wordsFuel (S (String.length s)) EmptyString s.

End Bytes.

(** ** The three line shapes ([regexp.MustCompile] in [ies.go])

    Go's regexp engine returns the leftmost match and prefers, among those,
    the one a backtracking engine finds first; every pattern here is
    anchored at both ends and its repetitions are greedy, so the match is
    the one that gives each repetition its longest run. [.] matches any
    byte but a newline. *)

Module Regexp.
Import Bytes.

(** [keywordRegex]: an opening bracket, the keyword (underscores, then
    word bytes: together a run of word bytes), a closing bracket, at
    least one white-space byte, and the value up to the end of the line. *)
Definition keywordRegex (line : string) : option (string * string) :=
  match line with
  | String c r =>
      if Ascii.eqb c "["%char then
        let '(keyword, r1) := span isWord r in
        match r1 with
        | String d r2 =>
            if Ascii.eqb d "]"%char then
              let '(ws, value) := span isRegexpSpace r2 in
              if String.eqb ws EmptyString then None
              else if contains newline value then None
              else Some (keyword, value)
            else None
        | EmptyString => None
        end
      else None
  | EmptyString => None
  end.

(** [keywordExtraRegex]: at least one white-space byte, then the
    continuation text up to the end of the line. *)
Definition keywordExtraRegex (line : string) : option string :=
  let '(ws, value) := span isRegexpSpace line in
  if String.eqb ws EmptyString then None
  else if contains newline value then None
  else Some value.

(** [tiltRegex]: the word TILT, an equals sign with optional white space
    on both sides, then the tilt value up to the end of the line. *)
Definition tiltRegex (line : string) : option string :=
  match stripPrefix "TILT" line with
  | Some r =>
      let '(_, r1) := span isRegexpSpace r in
      match r1 with
      | String c r2 =>
          if Ascii.eqb c "="%char then
            let '(_, value) := span isRegexpSpace r2 in
            if contains newline value then None else Some value
          else None
      | EmptyString => None
      end
  | None => None
  end.

End Regexp.

(** ** [strconv.Atoi] *)

Module Strconv.
Import Bytes.

Definition minInt64 : Z := - 2 ^ 63.
Definition maxInt64 : Z := 2 ^ 63 - 1.

Definition inInt64 (z : Z) : bool := (minInt64 <=? z) && (z <=? maxInt64).

(** Two's-complement wrap-around of a 64-bit [int]. *)
Definition wrap64 (z : Z) : Z := (z + 2 ^ 63) mod 2 ^ 64 - 2 ^ 63.

(** Value of a string of decimal digits read after [acc]; [None] on any
    other byte. *)
Fixpoint digits (acc : Z) (s : string) : option Z :=
  match s with
  | EmptyString => Some acc
  | String c r =>
      if isDigit c then digits (acc * 10 + (Z.of_N (code c) - 48)) r
      else None
  end.

(** An optional sign, then at least one digit, nothing else; a value
    outside the int64 range is a range error. [None] stands for either
    error of [Atoi]. *)
Definition Atoi (s : string) : option Z :=
  match s with
  | EmptyString => None
  | String c r =>
      let body := if Ascii.eqb c "-"%char || Ascii.eqb c "+"%char
                  then r else s in
      match body with
      | EmptyString => None
      | _ =>
          match digits 0 body with
          | Some n =>
              let v := if Ascii.eqb c "-"%char then - n else n in
              if inInt64 v then Some v else None
          | None => None
          end
      end
  end.

End Strconv.

(** ** The scanner and [filereader.go] *)

Record Scanner : Type := mkScanner {
  Text : string;            (* the token of the last successful Scan *)
  pending : list string     (* the lines a further Scan will deliver *)
}.

Definition NewScanner (lines : list string) : Scanner :=
  {| Text := EmptyString; pending := lines |}.

(** [scanner.Scan()]: [None] when it returns false. *)
Definition Scan (sc : Scanner) : option Scanner :=
  match pending sc with
  | [] => None
  | l :: rest => Some {| Text := l; pending := rest |}
  end.

Definition len (s : string) : Z := Z.of_nat (String.length s).

(** What [log.Printf] receives from [validateStringFromLine]. *)
Inductive warning : Type :=
  | WarnLineTooLong (length maxLength : Z) (line : string).

Definition validateStringFromLine (sc : Scanner) (maxLength : Z) (strict : bool)
  : list warning * result (string * Scanner) :=
  match Scan sc with
  | None => ([], Err ErrUnexpectedEOF)
  | Some sc' =>
      let cleanLine := Bytes.TrimSpace (Text sc') in
      if (maxLength <? len cleanLine) && strict then
        ([], Err (ErrLineTooLong cleanLine))
      else if (maxLength <? len cleanLine) && negb strict then
        ([WarnLineTooLong (len cleanLine) maxLength cleanLine],
         Ok (cleanLine, sc'))
      else ([], Ok (cleanLine, sc'))
  end.

(** ** Go maps *)

(** The entries of a map value; none for the nil map. *)
Definition entries (m : option (gmap string string)) : gmap string string :=
  default ∅ m.

(** [m[k] = v]. *)
Definition mapAssign (m : option (gmap string string)) (k v : string)
  : result (option (gmap string string)) :=
  match m with
  | Some table => Ok (Some (<[k := v]> table))
  | None => Panic AssignToNilMap
  end.

(** [delete(m, k)]; a no-op on the nil map. *)
Definition mapDelete (m : option (gmap string string)) (k : string)
  : option (gmap string string) :=
  match m with
  | Some table => Some (delete k table)
  | None => None
  end.

(** ** The IESNA LM-63 data structure ([ies.go])

    [IESFormat] and [IESTilt] are Go string types; their constants are the
    strings below and a field may hold any other string. *)

Definition IESFormatUnknown : string := "UNKNOWN".
Definition IESFormatLM_63_1986 : string := "LM-63-1986".
Definition IESFormatLM_63_1991 : string := "LM-63-1991".
Definition IESFormatLM_63_1995 : string := "LM-63-1995".
Definition IESFormatLM_63_2002 : string := "LM-63-2002".

Definition IESTiltInclude : string := "INCLUDE".
Definition IESTiltFile : string := "FILE".
Definition IESTiltNone : string := "NONE".

Record IES (F : Type) : Type := mkIES {
  Format : string;
  Keywords : option (gmap string string);
  Tilt : string;
  TiltLampToLuminaireGeometry : Z;
  TiltAnglesAndFactors : Z;
  TiltAngles : list F;
  TiltMultiplierFactors : list F;
  NumberLamps : Z;
  LumensPerLamp : F;
  CandelaMultiplier : F;
  NumberVerticalAngles : Z;
  NumberHorizontalAngles : Z;
  PhotometricType : Z;
  UnitsType : Z;
  LuminaireWidth : F;
  LuminaireLength : F;
  LuminaireHeight : F;
  BallastFactor : F;
  FutureUse : F;
  InputWatts : F;
  VerticalAngles : list F;
  HorizontalAngles : list F;
  CandelaValues : list (list F);
  insideBlock : bool;
  lastKeyword : string;
  strictParsing : bool
}.

Arguments Format {F} _.
Arguments Keywords {F} _.
Arguments Tilt {F} _.
Arguments TiltLampToLuminaireGeometry {F} _.
Arguments TiltAnglesAndFactors {F} _.
Arguments TiltAngles {F} _.
Arguments TiltMultiplierFactors {F} _.
Arguments NumberLamps {F} _.
Arguments LumensPerLamp {F} _.
Arguments CandelaMultiplier {F} _.
Arguments NumberVerticalAngles {F} _.
Arguments NumberHorizontalAngles {F} _.
Arguments PhotometricType {F} _.
Arguments UnitsType {F} _.
Arguments LuminaireWidth {F} _.
Arguments LuminaireLength {F} _.
Arguments LuminaireHeight {F} _.
Arguments BallastFactor {F} _.
Arguments FutureUse {F} _.
Arguments InputWatts {F} _.
Arguments VerticalAngles {F} _.
Arguments HorizontalAngles {F} _.
Arguments CandelaValues {F} _.
Arguments insideBlock {F} _.
Arguments lastKeyword {F} _.
Arguments strictParsing {F} _.
Arguments mkIES {F}.

(** Assignment to one field, for the fields the parser and [Upgrade] mutate
    in place. *)

Definition setFormat {F : Type} (v : string) (i : IES F) : IES F :=
  mkIES v (Keywords i) (Tilt i) (TiltLampToLuminaireGeometry i)
    (TiltAnglesAndFactors i) (TiltAngles i) (TiltMultiplierFactors i)
    (NumberLamps i) (LumensPerLamp i) (CandelaMultiplier i)
    (NumberVerticalAngles i) (NumberHorizontalAngles i) (PhotometricType i)
    (UnitsType i) (LuminaireWidth i) (LuminaireLength i) (LuminaireHeight i)
    (BallastFactor i) (FutureUse i) (InputWatts i) (VerticalAngles i)
    (HorizontalAngles i) (CandelaValues i) (insideBlock i) (lastKeyword i)
    (strictParsing i).

Definition setKeywords {F : Type} (v : option (gmap string string))
    (i : IES F) : IES F :=
  mkIES (Format i) v (Tilt i) (TiltLampToLuminaireGeometry i)
    (TiltAnglesAndFactors i) (TiltAngles i) (TiltMultiplierFactors i)
    (NumberLamps i) (LumensPerLamp i) (CandelaMultiplier i)
    (NumberVerticalAngles i) (NumberHorizontalAngles i) (PhotometricType i)
    (UnitsType i) (LuminaireWidth i) (LuminaireLength i) (LuminaireHeight i)
    (BallastFactor i) (FutureUse i) (InputWatts i) (VerticalAngles i)
    (HorizontalAngles i) (CandelaValues i) (insideBlock i) (lastKeyword i)
    (strictParsing i).

Definition setTilt {F : Type} (v : string) (i : IES F) : IES F :=
  mkIES (Format i) (Keywords i) v (TiltLampToLuminaireGeometry i)
    (TiltAnglesAndFactors i) (TiltAngles i) (TiltMultiplierFactors i)
    (NumberLamps i) (LumensPerLamp i) (CandelaMultiplier i)
    (NumberVerticalAngles i) (NumberHorizontalAngles i) (PhotometricType i)
    (UnitsType i) (LuminaireWidth i) (LuminaireLength i) (LuminaireHeight i)
    (BallastFactor i) (FutureUse i) (InputWatts i) (VerticalAngles i)
    (HorizontalAngles i) (CandelaValues i) (insideBlock i) (lastKeyword i)
    (strictParsing i).

Definition setInsideBlock {F : Type} (v : bool) (i : IES F) : IES F :=
  mkIES (Format i) (Keywords i) (Tilt i) (TiltLampToLuminaireGeometry i)
    (TiltAnglesAndFactors i) (TiltAngles i) (TiltMultiplierFactors i)
    (NumberLamps i) (LumensPerLamp i) (CandelaMultiplier i)
    (NumberVerticalAngles i) (NumberHorizontalAngles i) (PhotometricType i)
    (UnitsType i) (LuminaireWidth i) (LuminaireLength i) (LuminaireHeight i)
    (BallastFactor i) (FutureUse i) (InputWatts i) (VerticalAngles i)
    (HorizontalAngles i) (CandelaValues i) v (lastKeyword i) (strictParsing
    i).

Definition setLastKeyword {F : Type} (v : string) (i : IES F) : IES F :=
  mkIES (Format i) (Keywords i) (Tilt i) (TiltLampToLuminaireGeometry i)
    (TiltAnglesAndFactors i) (TiltAngles i) (TiltMultiplierFactors i)
    (NumberLamps i) (LumensPerLamp i) (CandelaMultiplier i)
    (NumberVerticalAngles i) (NumberHorizontalAngles i) (PhotometricType i)
    (UnitsType i) (LuminaireWidth i) (LuminaireLength i) (LuminaireHeight i)
    (BallastFactor i) (FutureUse i) (InputWatts i) (VerticalAngles i)
    (HorizontalAngles i) (CandelaValues i) (insideBlock i) v (strictParsing
    i).

Definition setStrictParsing {F : Type} (v : bool) (i : IES F) : IES F :=
  mkIES (Format i) (Keywords i) (Tilt i) (TiltLampToLuminaireGeometry i)
    (TiltAnglesAndFactors i) (TiltAngles i) (TiltMultiplierFactors i)
    (NumberLamps i) (LumensPerLamp i) (CandelaMultiplier i)
    (NumberVerticalAngles i) (NumberHorizontalAngles i) (PhotometricType i)
    (UnitsType i) (LuminaireWidth i) (LuminaireLength i) (LuminaireHeight i)
    (BallastFactor i) (FutureUse i) (InputWatts i) (VerticalAngles i)
    (HorizontalAngles i) (CandelaValues i) (insideBlock i) (lastKeyword i) v.

(** ** Keyword rules per revision *)

Definition keywordAllowedByIesna02 (keyword : string) : bool :=
  existsb (String.eqb keyword)
    ["TEST"; "TESTLAB"; "TESTDATE"; "NEARFIELD"; "MANUFAC"; "LUMCAT";
     "LUMINAIRE"; "LAMPCAT"; "LAMP"; "BALLAST"; "BALLASTCAT"; "MAINTCAT";
     "DISTRIBUTION"; "FLASHAREA"; "COLORCONSTANT"; "LAMPPOSITION";
     "ISSUEDATE"; "OTHER"; "SEARCH"; "MORE"].

Definition keywordAllowedByIesna95 (keyword : string) : bool :=
  existsb (String.eqb keyword)
    ["TEST"; "DATE"; "NEARFIELD"; "MANUFAC"; "LUMCAT"; "LUMINAIRE";
     "LAMPCAT"; "LAMP"; "BALLAST"; "BALLASTCAT"; "MAINTCAT"; "DISTRIBUTION";
     "FLASHAREA"; "COLORCONSTANT"; "OTHER"; "SEARCH"; "MORE"; "BLOCK";
     "ENDBLOCK"].

Definition keywordAllowedByIesna91 (keyword : string) : bool :=
  existsb (String.eqb keyword)
    ["TEST"; "DATE"; "MANUFAC"; "LUMCAT"; "LUMINAIRE"; "LAMPCAT"; "LAMP";
     "BALLAST"; "BALLASTCAT"; "MAINTCAT"; "DISTRIBUTION"; "FLASHAREA";
     "COLORCONSTANT"; "MORE"].

(** [keyword[0] == '_'], for a keyword known to be non-empty. *)
Definition startsWithUnderscore (keyword : string) : bool :=
  match keyword with
  | String c _ => Ascii.eqb c "_"%char
  | EmptyString => false
  end.

(** The body of [isKeywordAllowed]; it reads the format only. *)
Definition keywordAllowedFor (format keyword : string) : bool :=
  if String.eqb keyword "" then false
  else if 18 <? len keyword then false
  else if String.eqb format IESFormatUnknown || String.eqb format "" then true
  else if startsWithUnderscore keyword then true
  else if String.eqb format IESFormatLM_63_1986 then true
  else if String.eqb format IESFormatLM_63_1991 then
    keywordAllowedByIesna91 keyword
  else if String.eqb format IESFormatLM_63_1995 then
    keywordAllowedByIesna95 keyword
  else if String.eqb format IESFormatLM_63_2002 then
    keywordAllowedByIesna02 keyword
  else true.

Definition hasKey (keywords : gmap string string) (keyword : string) : bool :=
  bool_decide (is_Some (keywords !! keyword)).

Definition requiredKeywords02 : list string :=
  ["TEST"; "TESTLAB"; "ISSUEDATE"; "MANUFAC"].

Definition requiredKeywords91 : list string := ["TEST"; "MANUFAC"].

Definition checkIesna02RequiredKeywords (keywords : gmap string string) : bool :=
  forallb (hasKey keywords) requiredKeywords02.

Definition checkIesna91RequiredKeywords (keywords : gmap string string) : bool :=
  forallb (hasKey keywords) requiredKeywords91.

Definition containsRequiredFor (format : string)
    (keywords : gmap string string) : bool :=
  if String.eqb format IESFormatUnknown || String.eqb format "" then true
  else if String.eqb format IESFormatLM_63_1986 then true
  else if String.eqb format IESFormatLM_63_1991 then
    checkIesna91RequiredKeywords keywords
  else if String.eqb format IESFormatLM_63_1995 then true
  else if String.eqb format IESFormatLM_63_2002 then
    checkIesna02RequiredKeywords keywords
  else true.

Definition maxLineLengthFor (old new : Z) (format : string) : Z :=
  let newLineLength := 2 in
  if String.eqb format IESFormatLM_63_1986 then old - newLineLength
  else if String.eqb format IESFormatLM_63_1991 then old - newLineLength
  else if String.eqb format IESFormatLM_63_1995 then old - newLineLength
  else if String.eqb format IESFormatLM_63_2002 then new - newLineLength
  else 0.

(** [a[i]] on a slice: a run-time panic outside the bounds. *)
Definition index {A : Type} (a : list A) (i : Z) : result A :=
  if (0 <=? i) && (i <? Z.of_nat (length a)) then
    match a !! Z.to_nat i with
    | Some x => Ok x
    | None => Panic (IndexOutOfRange i (Z.of_nat (length a)))
    end
  else Panic (IndexOutOfRange i (Z.of_nat (length a))).

Definition getIntFromLine (line : string) : result Z :=
  let cleanLine := Bytes.TrimSpace line in
  let cleanLine := Bytes.removeByte " "%char cleanLine in
  let cleanLine := Bytes.removeByte "_"%char cleanLine in
  if len cleanLine =? 0 then Err ErrNoInteger
  else match Strconv.Atoi cleanLine with
       | Some v => Ok v
       | None => Err (ErrAtoi cleanLine)
       end.

Definition atoi (word : string) : result Z :=
  match Strconv.Atoi word with
  | Some v => Ok v
  | None => Err (ErrAtoi word)
  end.

(** *** [getWordListFromInput] *)

(** The inner loop: every token of the current line is stored at
    [list[processed]], with Go's bounds check on the store. *)
Fixpoint storeWords (words : list string) (lst : list string) (processed : Z)
  : result (list string * Z) :=
  match words with
  | [] => Ok (lst, processed)
  | w :: ws =>
      if (0 <=? processed) && (processed <? Z.of_nat (length lst)) then
        storeWords ws (<[Z.to_nat processed := Bytes.TrimSpace w]> lst)
                   (processed + 1)
      else Panic (IndexOutOfRange processed (Z.of_nat (length lst)))
  end.

(** The outer loop, entered with [processed < size]. Each round that goes
    on has taken one line from the scanner, so the recursion is on the
    lines still pending. *)
Fixpoint wordLoop (size : Z) (lastScan : bool) (lst : list string)
    (processed : Z) (text : string) (rest : list string)
  : result (list string * Scanner) :=
  '(lst', processed') ← storeWords (Bytes.ScanWords (Bytes.TrimSpace text))
                                    lst processed;
  if (processed' <? size) || negb lastScan then
    match rest with
    | [] => Err ErrUnexpectedEOF
    | l :: rest' =>
        if processed' <? size then
          wordLoop size lastScan lst' processed' l rest'
        else Ok (lst', mkScanner l rest')
    end
  else Ok (lst', mkScanner text rest).

Definition getWordListFromInput (sc : Scanner) (size : Z) (lastScan : bool)
  : result (list string * Scanner) :=
  if size <? 0 then Panic (MakeLenOutOfRange size)
  else
    let lst := replicate (Z.to_nat size) "" in
    if 0 <? size then wordLoop size lastScan lst 0 (Text sc) (pending sc)
    else Ok (lst, sc).

(** ** The parser, [Validate] and [Upgrade]

    Methods with a pointer receiver take the record and return the updated
    one; a method that returns an error is only ever followed by a return
    of the error, so the record is not kept on that path. *)

Section Codec.

Context {F : Type}.

(** [strconv.ParseFloat(_, 64)], [None] on error, and the float 0. *)
Variable ParseFloat : string -> option F.
Variable zero : F.

Definition parseFloat (word : string) : result F :=
  match ParseFloat word with
  | Some x => Ok x
  | None => Err (ErrParseFloat word)
  end.

(** [var ies IES]: every field has its zero value. *)
Definition zeroIES : IES F :=
  mkIES "" None "" 0 0 [] [] 0 zero zero 0 0 0 0 zero zero zero zero zero zero
        [] [] [] false "" false.

Definition isKeywordAllowed (i : IES F) (keyword : string) : bool :=
  keywordAllowedFor (Format i) keyword.

Definition ContainsRequiredKeywords (i : IES F) : bool :=
  containsRequiredFor (Format i) (entries (Keywords i)).

Definition maxKeywordLineLength (i : IES F) : Z :=
  maxLineLengthFor 82 256 (Format i).

Definition maxDataLineLength (i : IES F) : Z :=
  maxLineLengthFor 132 256 (Format i).

Definition parseFormatVersion (i : IES F) (line : string) : result (IES F) :=
  if String.eqb line "IESNA91" then Ok (setFormat IESFormatLM_63_1991 i)
  else if String.eqb line "IESNA:LM-63-1995" then
    Ok (setFormat IESFormatLM_63_1995 i)
  else if String.eqb line "IESNA:LM-63-2002" then
    Ok (setFormat IESFormatLM_63_2002 i)
  else Err (ErrInvalidFormat line).

Definition convertFormatToString (i : IES F) : string :=
  if String.eqb (Format i) IESFormatLM_63_1986 then ""
  else if String.eqb (Format i) IESFormatLM_63_1991 then "IESNA91"
  else if String.eqb (Format i) IESFormatLM_63_1995 then "IESNA:LM-63-1995"
  else if String.eqb (Format i) IESFormatLM_63_2002 then "IESNA:LM-63-2002"
  else "".

Definition isKeywordLine (line : string) : bool :=
  bool_decide (is_Some (Regexp.keywordRegex line)).

Definition isKeywordExtraLine (line : string) : bool :=
  bool_decide (is_Some (Regexp.keywordExtraRegex line)).

Definition isTiltLine (line : string) : bool :=
  bool_decide (is_Some (Regexp.tiltRegex line)).

(** The flag it returns, and the record with [insideBlock] updated. *)
Definition checkKeywordBlock (i : IES F) (keyword : string) : bool * IES F :=
  if String.eqb keyword "BLOCK" then
    if insideBlock i then (false, i) else (true, setInsideBlock true i)
  else if String.eqb keyword "ENDBLOCK" then
    if negb (insideBlock i) then (false, i)
    else (true, setInsideBlock false i)
  else (true, i).

(** The value of [m[k] + "\n" + value]; reading an absent key gives the
    empty string. *)
Definition appendedValue (keywords : option (gmap string string))
    (k value : string) : string :=
  default "" (entries keywords !! k) +:+ String Bytes.newline value.

(** [FindStringSubmatch] gives a nil slice when the line does not match,
    and indexing it panics. *)
Definition parseKeywordLine (i : IES F) (line : string) : result (IES F) :=
  match Regexp.keywordRegex line with
  | None => Panic (IndexOutOfRange 1 0)
  | Some (keyword, value) =>
      if negb (isKeywordAllowed i keyword) then
        Err (ErrKeywordNotAllowed keyword (Format i))
      else
        let '(ok, i) := checkKeywordBlock i keyword in
        if negb ok then Err ErrUnexpectedBlock
        else if String.eqb keyword "MORE" then
          if (Z.of_nat (size (entries (Keywords i))) =? 0)
             || String.eqb (lastKeyword i) "" then Err ErrMoreBeforeKeyword
          else
            keywords ← mapAssign (Keywords i) (lastKeyword i)
                         (appendedValue (Keywords i) (lastKeyword i) value);
            Ok (setKeywords keywords i)
        else
          keywords ← mapAssign (Keywords i) keyword value;
          Ok (setLastKeyword keyword (setKeywords keywords i))
  end.

Definition parseKeywordExtraLine (i : IES F) (line : string)
  : result (IES F) :=
  match Regexp.keywordExtraRegex line with
  | None => Panic (IndexOutOfRange 1 0)
  | Some value =>
      if (Z.of_nat (size (entries (Keywords i))) =? 0)
         || String.eqb (lastKeyword i) "" then Err ErrExtraBeforeKeyword
      else
        keywords ← mapAssign (Keywords i) (lastKeyword i)
                     (appendedValue (Keywords i) (lastKeyword i) value);
        Ok (setKeywords keywords i)
  end.

Definition parseTiltLine (i : IES F) (line : string) : result (IES F) :=
  match Regexp.tiltRegex line with
  | None => Panic (IndexOutOfRange 1 0)
  | Some value =>
      if String.eqb value "INCLUDE" then Ok (setTilt IESTiltInclude i)
      else if String.eqb value "NONE" then Ok (setTilt IESTiltNone i)
      else Err ErrTiltFromFile
  end.

(** The length test of [fetchValidLineFromFile] on the line just read. *)
Definition checkLineLength (i : IES F) (text : string) : result string :=
  let lineLength := maxDataLineLength i in
  if (lineLength <? len text) && strictParsing i then
    Err (ErrLineTooLong text)
  else Ok text.

Definition fetchValidLineFromFile (i : IES F) (sc : Scanner)
  : result (string * Scanner) :=
  match Scan sc with
  | None => Err ErrUnexpectedEOF
  | Some sc' =>
      line ← checkLineLength i (Text sc');
      Ok (line, sc')
  end.

Fixpoint convertStringSliceToFloat (input : list string) : result (list F) :=
  match input with
  | [] => Ok []
  | str :: rest =>
      flt ← parseFloat str;
      tl ← convertStringSliceToFloat rest;
      Ok (flt :: tl)
  end.

Definition Validate (i : IES F) (strict : bool) : bool * string :=
  if negb (ContainsRequiredKeywords i) then
    (false, "required keywords not present")
  else if negb (NumberVerticalAngles i
                =? Z.of_nat (length (VerticalAngles i))) then
    (false, "VerticalAngles length mismatch")
  else if negb (NumberHorizontalAngles i
                =? Z.of_nat (length (HorizontalAngles i))) then
    (false, "HorizontalAngles length mismatch")
  else if negb (NumberHorizontalAngles i
                =? Z.of_nat (length (CandelaValues i))) then
    (false, "CandelaValues horizontal length mismatch")
  else if negb (forallb
                  (fun c => NumberVerticalAngles i =? Z.of_nat (length c))
                  (CandelaValues i)) then
    (false, "CandelaValues vertical length mismatch")
  else (true, "").

(** *** [NewIES] *)

(** One round of the keyword loop, up to the fetch of the next line: the
    updated record and [tiltReached]. *)
Definition headerStep (ies : IES F) (line : string)
  : result (IES F * bool) :=
  if isKeywordLine line then
    ies ← parseKeywordLine ies line;
    Ok (ies, false)
  else if isTiltLine line then
    if negb (ContainsRequiredKeywords ies) then
      Err ErrRequiredKeywordsMissing
    else
      ies ← parseTiltLine ies line;
      Ok (ies, true)
  else if isKeywordExtraLine line then
    ies ← parseKeywordExtraLine ies line;
    Ok (ies, false)
  else Err (ErrExpectedKeywordOrTilt line).

(** [for !tiltReached { ... }]: every round ends with a fetch, so the
    recursion is on the lines still pending. It returns the record, the
    line fetched last and the scanner. *)
Fixpoint headerLoop (ies : IES F) (line : string) (rest : list string)
  : result (IES F * string * Scanner) :=
  '(ies, tiltReached) ← headerStep ies line;
  match rest with
  | [] => Err ErrUnexpectedEOF
  | l :: rest' =>
      line ← checkLineLength ies l;
      if (tiltReached : bool) then Ok (ies, line, mkScanner l rest')
      else headerLoop ies line rest'
  end.

(** The candela grid: [CandelaValues[i][j] = candelaValues[c]; c++]. *)
Fixpoint fillRow (columns : nat) (candelaValues : list F) (c : Z)
  : result (list F * Z) :=
  match columns with
  | O => Ok ([], c)
  | S columns' =>
      x ← index candelaValues c;
      '(row, c') ← fillRow columns' candelaValues (c + 1);
      Ok (x :: row, c')
  end.

Fixpoint fillRows (rows columns : nat) (candelaValues : list F) (c : Z)
  : result (list (list F)) :=
  match rows with
  | O => Ok []
  | S rows' =>
      '(row, c') ← fillRow columns candelaValues c;
      tl ← fillRows rows' columns candelaValues c';
      Ok (row :: tl)
  end.

Definition fillCandela (horizontal vertical : Z) (candelaValues : list F)
  : result (list (list F)) :=
  if horizontal <? 0 then Panic (MakeLenOutOfRange horizontal)
  else if (0 <? horizontal) && (vertical <? 0) then
    Panic (MakeLenOutOfRange vertical)
  else fillRows (Z.to_nat horizontal) (Z.to_nat vertical) candelaValues 0.

(** The tilt block: geometry, count, angles, factors. *)
Definition parseTiltValues (ies : IES F) (line : string) (scanner : Scanner)
  : result (Z * Z * list F * list F * Scanner) :=
  if String.eqb (Tilt ies) IESTiltInclude then
    geometry ← getIntFromLine line;
    '(line, scanner) ← fetchValidLineFromFile ies scanner;
    count ← getIntFromLine line;
    '(words, scanner) ← getWordListFromInput scanner count false;
    angles ← convertStringSliceToFloat words;
    '(words, scanner) ← getWordListFromInput scanner count false;
    factors ← convertStringSliceToFloat words;
    Ok (geometry, count, angles, factors, scanner)
  else
    Ok (TiltLampToLuminaireGeometry ies, TiltAnglesAndFactors ies,
        TiltAngles ies, TiltMultiplierFactors ies, scanner).

(** Everything after the keyword loop, in the order of the source. *)
Definition parseData (ies : IES F) (line : string) (scanner : Scanner)
  : result (IES F) :=
  '(geometry, count, angles, factors, scanner) ←
    parseTiltValues ies line scanner;
  (* line 10 *)
  '(words, scanner) ← getWordListFromInput scanner 10 false;
  w ← index words 0; numberLamps ← atoi w;
  w ← index words 1; lumensPerLamp ← parseFloat w;
  w ← index words 2; candelaMultiplier ← parseFloat w;
  w ← index words 3; numberVerticalAngles ← atoi w;
  w ← index words 4; numberHorizontalAngles ← atoi w;
  w ← index words 5; photometricType ← atoi w;
  w ← index words 6; unitsType ← atoi w;
  w ← index words 7; luminaireWidth ← parseFloat w;
  w ← index words 8; luminaireLength ← parseFloat w;
  w ← index words 9; luminaireHeight ← parseFloat w;
  (* line 11 *)
  '(words, scanner) ← getWordListFromInput scanner 3 false;
  w ← index words 1; ballastFactor ← parseFloat w;
  w ← index words 1; futureUse ← parseFloat w;
  w ← index words 2; inputWatts ← parseFloat w;
  (* angles *)
  '(words, scanner) ← getWordListFromInput scanner numberVerticalAngles false;
  verticalAngles ← convertStringSliceToFloat words;
  '(words, scanner) ←
    getWordListFromInput scanner numberHorizontalAngles false;
  horizontalAngles ← convertStringSliceToFloat words;
  (* candela values *)
  '(words, scanner) ←
    getWordListFromInput scanner
      (Strconv.wrap64 (numberVerticalAngles * numberHorizontalAngles)) true;
  candelaValues ← convertStringSliceToFloat words;
  grid ← fillCandela numberHorizontalAngles numberVerticalAngles
                     candelaValues;
  Ok (mkIES (Format ies) (Keywords ies) (Tilt ies) geometry count angles
            factors numberLamps lumensPerLamp candelaMultiplier
            numberVerticalAngles numberHorizontalAngles photometricType
            unitsType luminaireWidth luminaireLength luminaireHeight
            ballastFactor futureUse inputWatts verticalAngles
            horizontalAngles grid (insideBlock ies) (lastKeyword ies)
            (strictParsing ies)).

(** [NewIES], from the lines of the opened file: the warnings logged and
    the outcome. *)
Definition NewIES (lines : list string) (strict : bool)
  : list warning * result (IES F) :=
  let ies := setFormat IESFormatUnknown (setStrictParsing strict zeroIES) in
  let scanner := NewScanner lines in
  let '(warnings, first) := validateStringFromLine scanner 16 strict in
  (warnings,
   '(line, scanner) ← first;
   ies ← parseFormatVersion ies line;
   '(line, scanner) ← fetchValidLineFromFile ies scanner;
   let ies := setKeywords (Some ∅) ies in
   '(ies, line, scanner) ← headerLoop ies line (pending scanner);
   parseData ies line scanner).

(** *** [Upgrade]

    The loop ranges over the map it modifies. Go leaves the order of a
    range over a map unspecified, drops entries removed before they are
    reached, and may or may not produce entries added on the way. The
    keys the range produces, in order, are the parameter [order]; a key
    no longer in the map when its turn comes is passed over. Every run of
    the Go loop is the run of some [order] that lists every key present
    when the loop starts. *)

Definition moveKeyword (i : IES F) (keyword value : string)
  : result (IES F) :=
  let keywords := mapDelete (Keywords i) keyword in
  if String.eqb keyword "DATE" then
    keywords ← mapAssign keywords "ISSUEDATE" value;
    Ok (setKeywords keywords i)
  else
    keywords ← mapAssign keywords (String "_"%char keyword) value;
    Ok (setKeywords keywords i).

(** The body of the range loop for the key [keyword], if the map still has
    it. *)
Definition upgradeKeyword (i : IES F) (keyword : string) : result (IES F) :=
  match entries (Keywords i) !! keyword with
  | None => Ok i
  | Some value =>
      if negb (isKeywordAllowed i keyword) then moveKeyword i keyword value
      else Ok i
  end.

Fixpoint rangeKeywords (order : list string) (i : IES F) : result (IES F) :=
  match order with
  | [] => Ok i
  | keyword :: rest =>
      i ← upgradeKeyword i keyword;
      rangeKeywords rest i
  end.

(** [if _, ok := i.Keywords[keyword]; !ok { i.Keywords[keyword] = value }]. *)
Definition assignIfMissing (keyword value : string) (i : IES F)
  : result (IES F) :=
  if hasKey (entries (Keywords i)) keyword then Ok i
  else
    keywords ← mapAssign (Keywords i) keyword value;
    Ok (setKeywords keywords i).

Definition addRequiredKeywords (i : IES F) : result (IES F) :=
  if negb (ContainsRequiredKeywords i) then
    i ← assignIfMissing "TEST" "unknown" i;
    i ← assignIfMissing "TESTLAB" "unknown" i;
    i ← assignIfMissing "ISSUEDATE" "unknown" i;
    assignIfMissing "MANUFAC" "unknown" i
  else Ok i.

Definition Upgrade (order : list string) (i : IES F) : result (IES F) :=
  let '(ok, msg) := Validate i true in
  if negb ok then Err (ErrValidate msg)
  else
    let i := setFormat IESFormatLM_63_2002 i in
    i ← addRequiredKeywords i;
    rangeKeywords order i.

End Codec.

(** ** The EULUMDAT side ([eulumdat.go], [conversion.go]) *)

(** The [Eulumdat] structure of [eulumdat.go], field by field in the order
    of the declaration: [int] fields are integers, [float64] fields are
    floats, slices are lists, and the array of the ten direct ratios is a
    list as well. The last three fields are the unexported ones the codec
    computes. The module keeps the field names apart from those of
    [IES]. *)
Module Ldt.

Record Eulumdat (F : Type) : Type := mkEulumdat {
  CompanyIdentification : string;
  TypeIndicator : Z;
  SymmetryIndicator : Z;
  NumberMcCPlanes : Z;
  DistanceDcCPlanes : F;
  NumberNgIntensitiesCPlane : Z;
  DistanceDgCPlane : F;
  MeasurementReportNumber : string;
  LuminaireName : string;
  LuminaireNumber : string;
  FileName : string;
  DateUser : string;
  LengthDiameter : F;
  WidthLuminaire : F;
  HeightLuminaire : F;
  LengthDiameterLuminousArea : F;
  WidthLuminousArea : F;
  HeightLuminousAreaC0 : F;
  HeightLuminousAreaC90 : F;
  HeightLuminousAreaC180 : F;
  HeightLuminousAreaC270 : F;
  DownwardFluxFractionPhiu : F;
  LightOutputRatioLuminaire : F;
  IntensityConversionFactor : F;
  MeasurementTiltLuminaire : F;
  NumberStandardSetLamps : Z;
  NumberLamps : list Z;
  TypeLamps : list string;
  TotalLuminousFluxLamps : list F;
  ColorTemperature : list string;
  ColorRenderingIndexCRI : list string;
  BallastWatts : list F;
  DirectRatios : list F;
  AnglesC : list F;
  AnglesG : list F;
  LuminousIntensityDistributionRaw : list F;
  LuminousIntensityDistribution : list (list F);
  mc1 : Z;
  mc2 : Z;
  mc : Z
}.

Arguments CompanyIdentification {F} _.
Arguments TypeIndicator {F} _.
Arguments SymmetryIndicator {F} _.
Arguments NumberMcCPlanes {F} _.
Arguments DistanceDcCPlanes {F} _.
Arguments NumberNgIntensitiesCPlane {F} _.
Arguments DistanceDgCPlane {F} _.
Arguments MeasurementReportNumber {F} _.
Arguments LuminaireName {F} _.
Arguments LuminaireNumber {F} _.
Arguments FileName {F} _.
Arguments DateUser {F} _.
Arguments LengthDiameter {F} _.
Arguments WidthLuminaire {F} _.
Arguments HeightLuminaire {F} _.
Arguments LengthDiameterLuminousArea {F} _.
Arguments WidthLuminousArea {F} _.
Arguments HeightLuminousAreaC0 {F} _.
Arguments HeightLuminousAreaC90 {F} _.
Arguments HeightLuminousAreaC180 {F} _.
Arguments HeightLuminousAreaC270 {F} _.
Arguments DownwardFluxFractionPhiu {F} _.
Arguments LightOutputRatioLuminaire {F} _.
Arguments IntensityConversionFactor {F} _.
Arguments MeasurementTiltLuminaire {F} _.
Arguments NumberStandardSetLamps {F} _.
Arguments NumberLamps {F} _.
Arguments TypeLamps {F} _.
Arguments TotalLuminousFluxLamps {F} _.
Arguments ColorTemperature {F} _.
Arguments ColorRenderingIndexCRI {F} _.
Arguments BallastWatts {F} _.
Arguments DirectRatios {F} _.
Arguments AnglesC {F} _.
Arguments AnglesG {F} _.
Arguments LuminousIntensityDistributionRaw {F} _.
Arguments LuminousIntensityDistribution {F} _.
Arguments mc1 {F} _.
Arguments mc2 {F} _.
Arguments mc {F} _.
Arguments mkEulumdat {F}.

(** The structure with its three computed fields replaced. *)
Definition setPlanes {F : Type} (mc1' mc2' mc' : Z) (e : Eulumdat F)
  : Eulumdat F :=
  mkEulumdat
    (CompanyIdentification e) (TypeIndicator e) (SymmetryIndicator e)
    (NumberMcCPlanes e) (DistanceDcCPlanes e) (NumberNgIntensitiesCPlane e)
    (DistanceDgCPlane e) (MeasurementReportNumber e) (LuminaireName e)
    (LuminaireNumber e) (FileName e) (DateUser e) (LengthDiameter e)
    (WidthLuminaire e) (HeightLuminaire e) (LengthDiameterLuminousArea e)
    (WidthLuminousArea e) (HeightLuminousAreaC0 e) (HeightLuminousAreaC90 e)
    (HeightLuminousAreaC180 e) (HeightLuminousAreaC270 e)
    (DownwardFluxFractionPhiu e) (LightOutputRatioLuminaire e)
    (IntensityConversionFactor e) (MeasurementTiltLuminaire e)
    (NumberStandardSetLamps e) (NumberLamps e) (TypeLamps e)
    (TotalLuminousFluxLamps e) (ColorTemperature e)
    (ColorRenderingIndexCRI e) (BallastWatts e) (DirectRatios e)
    (AnglesC e) (AnglesG e) (LuminousIntensityDistributionRaw e)
    (LuminousIntensityDistribution e) mc1' mc2' mc'.

End Ldt.

(** [calcMc1andMc2]: the bounds of the C planes that are stored, by the
    symmetry indicator. The arithmetic is that of Go's [int]: products and
    sums wrap, the division truncates. An indicator outside 0..4 takes no
    case of the switch and leaves the fields as they are. *)
Definition calcMc1andMc2 {F : Type} (e : Ldt.Eulumdat F) : Ldt.Eulumdat F :=
  let Mc := Ldt.NumberMcCPlanes e in
  if Ldt.SymmetryIndicator e =? 0 then Ldt.setPlanes 1 Mc (Ldt.mc e) e
  else if Ldt.SymmetryIndicator e =? 1 then Ldt.setPlanes 1 1 (Ldt.mc e) e
  else if Ldt.SymmetryIndicator e =? 2 then
    Ldt.setPlanes 1 (Strconv.wrap64 (Mc ÷ 2 + 1)) (Ldt.mc e) e
  else if Ldt.SymmetryIndicator e =? 3 then
    let mc1 := Strconv.wrap64 (Strconv.wrap64 (3 * Mc) ÷ 4 + 1) in
    Ldt.setPlanes mc1 (Strconv.wrap64 (mc1 + Mc ÷ 2)) (Ldt.mc e) e
  else if Ldt.SymmetryIndicator e =? 4 then
    Ldt.setPlanes 1 (Strconv.wrap64 (Mc ÷ 4 + 1)) (Ldt.mc e) e
  else e.

(** [calcMc]: the number of planes the raw intensities are split into;
    the cases 2 and 3 share their body. *)
Definition calcMc {F : Type} (e : Ldt.Eulumdat F) : Ldt.Eulumdat F :=
  let Mc := Ldt.NumberMcCPlanes e in
  if Ldt.SymmetryIndicator e =? 0 then
    Ldt.setPlanes (Ldt.mc1 e) (Ldt.mc2 e) Mc e
  else if Ldt.SymmetryIndicator e =? 1 then
    Ldt.setPlanes (Ldt.mc1 e) (Ldt.mc2 e) 1 e
  else if (Ldt.SymmetryIndicator e =? 2) || (Ldt.SymmetryIndicator e =? 3)
  then
    Ldt.setPlanes (Ldt.mc1 e) (Ldt.mc2 e) (Strconv.wrap64 (Mc ÷ 2 + 1)) e
  else if Ldt.SymmetryIndicator e =? 4 then
    Ldt.setPlanes (Ldt.mc1 e) (Ldt.mc2 e) (Strconv.wrap64 (Mc ÷ 4 + 1)) e
  else e.

(** [(e.mc2 - e.mc1 + 1)], the number of stored planes as the reader, the
    writer and [Validate] compute it after [calcMc1andMc2]. *)
Definition storedPlanes {F : Type} (e : Ldt.Eulumdat F) : Z :=
  Strconv.wrap64 (Strconv.wrap64 (Ldt.mc2 e - Ldt.mc1 e) + 1).

(** The symmetry table in the words of the specification (section 4.2),
    over the integers and with truncating division: the second definition,
    against which the two methods above are compared. For a symmetry
    indicator and the plane count [Mc] it gives [mc1], [mc2] and [mc]; an
    indicator outside 0..4 has no row. *)
Definition symmetryTable (symmetry Mc : Z) : option (Z * Z * Z) :=
  if symmetry =? 0 then Some (1, Mc, Mc)
  else if symmetry =? 1 then Some (1, 1, 1)
  else if symmetry =? 2 then Some (1, Mc ÷ 2 + 1, Mc ÷ 2 + 1)
  else if symmetry =? 3 then
    let mc1 := 3 * Mc ÷ 4 + 1 in Some (mc1, mc1 + Mc ÷ 2, Mc ÷ 2 + 1)
  else if symmetry =? 4 then Some (1, Mc ÷ 4 + 1, Mc ÷ 4 + 1)
  else None.

Section Conversion.

Context {F : Type}.

(** The float constants [0.0] and [1]. *)
Variable zero one : F.

(** [eulumdat] is the pointer the caller passes, [None] for nil. The
    assignments run in the order of the source; the first index expression
    out of range panics. *)
Definition ConvertEulumdatToIES (eulumdat : option (Ldt.Eulumdat F))
  : result (IES F) :=
  match eulumdat with
  | None => Panic NilDereference
  | Some eulumdat =>
      keywords ← mapAssign (Some ∅) "TEST"
                   (Ldt.MeasurementReportNumber eulumdat);
      keywords ← mapAssign keywords "TESTLAB"
                   (Ldt.CompanyIdentification eulumdat);
      keywords ← mapAssign keywords "ISSUEDATE" (Ldt.DateUser eulumdat);
      keywords ← mapAssign keywords "MANUFAC"
                   (Ldt.CompanyIdentification eulumdat);
      keywords ← mapAssign keywords "LUMINAIRE" (Ldt.LuminaireName eulumdat);
      keywords ← mapAssign keywords "LUMCAT" (Ldt.LuminaireNumber eulumdat);
      lamp ← index (Ldt.TypeLamps eulumdat) 0;
      keywords ← mapAssign keywords "LAMP" lamp;
      keywords ← mapAssign keywords "OTHER"
                   ("converted using eulumies: " +:+ Ldt.FileName eulumdat);
      numberLamps ← index (Ldt.NumberLamps eulumdat) 0;
      lumensPerLamp ← index (Ldt.TotalLuminousFluxLamps eulumdat) 0;
      inputWatts ← index (Ldt.BallastWatts eulumdat) 0;
      Ok (mkIES IESFormatLM_63_2002 keywords IESTiltNone 0 0 [] []
                numberLamps lumensPerLamp one
                (Z.of_nat (length (Ldt.AnglesG eulumdat))) 1 1 2
                (Ldt.WidthLuminaire eulumdat) (Ldt.LengthDiameter eulumdat)
                (Ldt.HeightLuminaire eulumdat) one one inputWatts
                (Ldt.AnglesG eulumdat) [zero]
                (Ldt.LuminousIntensityDistribution eulumdat) false "" false)
  end.

(** [return nil, nil], whatever the pointer: no structure and no error. *)
Definition ConvertIESToEulumdat (ies : option (IES F))
  : result (option (Ldt.Eulumdat F)) := Ok None.

End Conversion.

(** ** Notions used in the statements *)

(** The allow-list of the 2002 revision, the one [Upgrade] tests against. *)
Definition allowed02 (keyword : string) : bool :=
  keywordAllowedFor IESFormatLM_63_2002 keyword.

(** The key under which [moveKeyword] stores the value of [keyword]. *)
Definition movedName (keyword : string) : string :=
  if String.eqb keyword "DATE" then "ISSUEDATE" else String "_"%char keyword.

(** The placeholder step of [Upgrade] for one keyword, on the table. *)
Definition insertIfMissing (keyword value : string)
    (keywords : gmap string string) : gmap string string :=
  if hasKey keywords keyword then keywords else <[keyword := value]> keywords.

(** One round of the loop of [Upgrade], on the table. *)
Definition upgradeMap (m : gmap string string) (k : string)
  : gmap string string :=
  match m !! k with
  | Some v => if allowed02 k then m else <[movedName k := v]> (delete k m)
  | None => m
  end.

(** Every keyword of [m0] that the 2002 revision refuses has a moved name
    that it allows. *)
Definition movable (m0 : gmap string string) : Prop :=
  forall k, is_Some (m0 !! k) -> allowed02 k = false ->
            allowed02 (movedName k) = true.

(** The keyword [k] of [m0] is gone from [m] and its value is under the
    moved name. *)
Definition moved (m0 m : gmap string string) (k : string) : Prop :=
  forall v, m0 !! k = Some v -> m !! k = None /\ m !! movedName k = Some v.

(** The invariant of the loop: [m] is the map [m0], the map at the start of
    the loop, after some rounds. *)
Record upgraded (m0 m : gmap string string) : Prop := {
  upgraded_old : forall k v,
    m !! k = Some v -> allowed02 k = false -> m0 !! k = Some v;
  upgraded_state : forall k v,
    m0 !! k = Some v -> allowed02 k = false ->
    m !! k = Some v \/ (m !! k = None /\ m !! movedName k = Some v);
  upgraded_kept : forall k v,
    m0 !! k = Some v -> allowed02 k = true ->
    (forall k', is_Some (m0 !! k') -> allowed02 k' = false ->
                movedName k' <> k) ->
    m !! k = Some v;
  upgraded_present : forall k,
    is_Some (m0 !! k) -> allowed02 k = true -> is_Some (m !! k)
}.

(** The formats [parseFormatVersion] can set. *)
Definition parsedFormat (format : string) : Prop :=
  format = IESFormatLM_63_1991 \/ format = IESFormatLM_63_1995
  \/ format = IESFormatLM_63_2002.

(** The state of the keyword loop: the map is made, every keyword in it
    passed the allow-list of the format, and the last keyword, once there
    is one, is in the map. *)
Definition keywordsChecked {F : Type} (i : IES F) : Prop :=
  exists table,
    Keywords i = Some table
    /\ (forall k, is_Some (table !! k) -> isKeywordAllowed i k = true)
    /\ (lastKeyword i = "" \/ is_Some (table !! lastKeyword i)).

(** ** Concrete inputs on which the code is run

    Floats are kept as the text they were read from, so that a run shows
    which input token reached which field. *)

Definition tokenFloat (word : string) : option string := Some word.

Definition stateOf (format : string) (keywords : gmap string string)
    (inside : bool) (last : string) : IES string :=
  setLastKeyword last
    (setInsideBlock inside
       (setKeywords (Some keywords) (setFormat format (zeroIES "0")))).

Definition threeOfFour : gmap string string :=
  <["MANUFAC" := "maker"]> (<["ISSUEDATE" := "2020"]> (<["TEST" := "t1"]> ∅)).

Definition sampleDocument : list string :=
  ["IESNA:LM-63-2002"; "[TEST] abc"; "[MORE] def"; "[TESTLAB] lab";
   "[ISSUEDATE] 2020"; "[MANUFAC] maker"; "TILT=NONE";
   "1 1000 1 3 1 1 2 0.1 0.2 0.3"; "0.9 0.5 42"; "0 45 90"; "0";
   "10 20 30"].

(** The data block of a file with one lamp, one vertical and one
    horizontal angle. *)
Definition smallData : list string :=
  ["1 1000 1 1 1 1 2 0 0 0"; "1 1 10"; "0"; "0"; "5"].

(** An EULUMDAT structure with the given symmetry indicator and plane
    count and nothing else: no lamp set, no angle, no intensity. *)
Definition symmetricLdt (symmetry Mc : Z) : Ldt.Eulumdat string :=
  Ldt.mkEulumdat "" 0 symmetry Mc "0" 0 "0" "" "" "" "" ""
    "0" "0" "0" "0" "0" "0" "0" "0" "0" "0" "0" "0" "0" 0
    [] [] [] [] [] [] (replicate 10 "0") [] [] [] [] 0 0 0.

Definition emptyLdt : Ldt.Eulumdat string := symmetricLdt 0 0.

(** A string of [n] letters x. *)
Fixpoint xs (n : nat) : string :=
  match n with
  | O => EmptyString
  | S n' => String "x"%char (xs n')
  end.

(** A keyword of 18 bytes that no revision lists. *)
Definition overlong : string := "PHOTOMETRICLABNAME".

Definition overlongModel : IES string :=
  setKeywords (Some (<[overlong := "v"]> ∅))
    (setFormat IESFormatLM_63_1995 (zeroIES "0")).

(** A 1995 model whose keyword map was never made. *)
Definition nilMapModel : IES string :=
  setFormat IESFormatLM_63_1995 (zeroIES "0").

(** A 1995 model with a legacy date and a block marker. *)
Definition legacyModel : IES string :=
  setKeywords (Some (<["DATE" := "2020"]> (<["BLOCK" := "b"]> ∅)))
    (setFormat IESFormatLM_63_1995 (zeroIES "0")).

(** ** Further notions and inputs *)

(** The tokens of a physical line, as [getWordListFromInput] stores
    them. *)
Definition lineWords (line : string) : list string :=
  map Bytes.TrimSpace (Bytes.ScanWords (Bytes.TrimSpace line)).

(** The model [NewIES] returns for [sampleDocument] under strict parsing. *)
Definition sampleModel : IES string :=
  match snd (NewIES tokenFloat "0" sampleDocument true) with
  | Ok i => i
  | _ => zeroIES "0"
  end.

(** The state after the line [TILT=INCLUDE], and a scanner standing on that
    line in front of a tilt block of three angles in the usual layout. *)
Definition tiltState : IES string :=
  setTilt IESTiltInclude (stateOf IESFormatLM_63_1995 ∅ false "").

Definition tiltScanner : Scanner :=
  mkScanner "TILT=INCLUDE" ["3"; "0 45 90"; "1 1 1"].

(** An EULUMDAT structure with one lamp set, three G angles and one C
    plane. *)
Definition sampleLdt : Ldt.Eulumdat string :=
  Ldt.mkEulumdat "maker" 1 1 24 "15" 3 "45" "r1" "lum" "n1" "f.ldt" "2020"
    "1" "2" "3" "1" "2" "3" "3" "3" "3" "100" "80" "1" "0" 1
    [1] ["LED"] ["1000"] ["3000"] ["80"] ["10"] (replicate 10 "0.5")
    [] ["0"; "45"; "90"] ["10"; "20"; "30"] [["10"; "20"; "30"]] 1 1 1.

(** ** Writing a model ([Export] and its helpers in [ies.go]) *)

Definition carriageReturn : ascii := ascii_of_N 13.

(** The line end [Export] writes. *)
Definition crlf : string :=
  String carriageReturn (String Bytes.newline EmptyString).

(** [strings.Replace(s, "\r\n", "\n", -1)]. *)
Fixpoint replaceCRLF (s : string) : string :=
  match s with
  | EmptyString => EmptyString
  | String c r =>
      match r with
      | String d r' =>
          if Ascii.eqb c carriageReturn && Ascii.eqb d Bytes.newline
          then String Bytes.newline (replaceCRLF r')
          else String c (replaceCRLF r)
      | EmptyString => String c EmptyString
      end
  end.

(** [strings.Split(s, "\n")]: the pieces between the line feeds, one more
    than there are line feeds. *)
Fixpoint splitLines (s : string) : list string :=
  match s with
  | EmptyString => [EmptyString]
  | String c r =>
      if Ascii.eqb c Bytes.newline then EmptyString :: splitLines r
      else
        match splitLines r with
        | piece :: rest => String c piece :: rest
        | [] => [String c EmptyString]
        end
  end.

(** [strconv.Itoa], which is also what [fmt.Sprint] gives for an [int]. *)
Definition Itoa (n : Z) : string := NilZero.string_of_int (Z.to_int n).

(** The errors [Export] makes itself: the message of [Validate], and the
    keyword it could not split into lines. Errors of the file system are
    not modelled: the file is taken to be created and written. *)
Inductive exportError : Type :=
  | ErrExportValidate (msg : string)
  | ErrSplitKeyword (keyword : string).

(** Outcome of the writing code: a value, an error, or the run-time panic
    of a slice expression [s[lo:hi]] out of bounds. *)
Inductive written (A : Type) : Type :=
  | Done (a : A)
  | Failed (e : exportError)
  | SliceOutOfRange (lo hi : Z).

Arguments Done {A} a.
Arguments Failed {A} e.
Arguments SliceOutOfRange {A} lo hi.

(** [s[lo:hi]] on a string. *)
Definition slice (s : string) (lo hi : Z) : written string :=
  if (0 <=? lo) && (lo <=? hi) && (hi <=? len s) then
    Done (substring (Z.to_nat lo) (Z.to_nat (hi - lo)) s)
  else SliceOutOfRange lo hi.

(** [for j := 0; j < len(val); j += chunkSize { ... }], entered at [j]
    with the lines collected so far. Nothing makes [chunkSize] positive, so
    the loop need not end: [fuel] bounds the rounds, and [None] says that
    the loop is still running when they are used up. [j] is below the
    length of a string and [chunkSize] below 256, so the sums are far
    from the end of the [int] range and are not wrapped. *)
Fixpoint chunkLoop (fuel : nat) (val : string) (chunkSize j : Z)
    (cleanKeywordLines : list string) : option (written (list string)) :=
  match fuel with
  | O => None
  | S fuel' =>
      if j <? len val then
        let end_ := j + chunkSize in
        let end_ := if len val <? end_ then len val else end_ in
        match slice val j end_ with
        | Done piece =>
            chunkLoop fuel' val chunkSize (j + chunkSize)
                      (cleanKeywordLines ++ [Bytes.TrimSpace piece])%list
        | Failed e => Some (Failed e)
        | SliceOutOfRange lo hi => Some (SliceOutOfRange lo hi)
        end
      else Some (Done cleanKeywordLines)
  end.

(** The body of the loop over [splitValue] up to the new line length. *)
Definition cleanPiece (fuel : nat) (val : string) (maxLineLength : Z)
    (cleanKeywordLines : list string) : option (written (list string)) :=
  let val := Bytes.TrimSpace val in
  if maxLineLength <? len val then
    chunkLoop fuel val maxLineLength 0 cleanKeywordLines
  else Some (Done (cleanKeywordLines ++ [Bytes.TrimSpace val])%list).

(** [for _, val := range splitValue { ... }]. *)
Fixpoint cleanLines (fuel : nat) (format : string) (lineLength : Z)
    (splitValue : list string) (maxLineLength : Z)
    (cleanKeywordLines : list string) : option (written (list string)) :=
  match splitValue with
  | [] => Some (Done cleanKeywordLines)
  | val :: rest =>
      match cleanPiece fuel val maxLineLength cleanKeywordLines with
      | Some (Done cleanKeywordLines) =>
          let maxLineLength :=
            if String.eqb format IESFormatLM_63_2002 then lineLength - 7
            else lineLength - 1 in
          cleanLines fuel format lineLength rest maxLineLength
                     cleanKeywordLines
      | other => other
      end
  end.

(** The lines one keyword is split into. *)
Definition cleanKeywordLinesOf (fuel : nat) (format : string)
    (lineLength : Z) (keyword value : string)
  : option (written (list string)) :=
  let splitValue := splitLines (replaceCRLF value) in
  let maxLineLength := lineLength - len keyword - 3 in
  cleanLines fuel format lineLength splitValue maxLineLength [].

(** What is written for the lines of a keyword after the first. *)
Definition continuationLine (format line : string) : string :=
  if String.eqb format IESFormatLM_63_2002 then "[MORE] " +:+ line +:+ crlf
  else " " +:+ line +:+ crlf.

(** [for _, line := range lines { file.WriteString(line + "\r\n") }]. *)
Definition writeLines (lines : list string) : list string :=
  map (fun line => line +:+ crlf) lines.

(** The loop of [convertFloatSliceToStringSlice] and of
    [convertValuesToStringSlice], on the texts of the values. *)
Fixpoint packLines (lineLength : Z) (texts : list string)
    (lines : list string) (currentLine sep : string) : list string :=
  match texts with
  | [] => (lines ++ [currentLine])%list
  | text :: rest =>
      if lineLength <? len currentLine + len text + 1 then
        packLines lineLength rest (lines ++ [currentLine])%list
                  ("" +:+ sep +:+ text) " "
      else
        packLines lineLength rest lines (currentLine +:+ sep +:+ text) " "
  end.

Section Writer.

Context {F : Type}.

(** [strconv.FormatFloat(x, 'f', 2, 64)] and [fmt.Sprint(x)] on a
    [float64]. *)
Variable FormatFloat : F -> string.
Variable SprintFloat : F -> string.

(** An argument of [convertValuesToStringSlice]: [Export] passes it
    [int]s and [float64]s. *)
Inductive value : Type :=
  | IntValue (n : Z)
  | FloatValue (x : F).

Definition Sprint (val : value) : string :=
  match val with
  | IntValue n => Itoa n
  | FloatValue x => SprintFloat x
  end.

Definition convertFloatSliceToStringSlice (lineLength : Z) (input : list F)
  : list string :=
  packLines lineLength (map FormatFloat input) [] "" "".

Definition convertValuesToStringSlice (lineLength : Z) (input : list value)
  : list string :=
  packLines lineLength (map Sprint input) [] "" "".

(** [for keyword, value := range i.Keywords { ... }]. The map is not
    changed during the range, so the range produces each key once, in an
    order Go leaves open: [order] lists the keys as they are produced. It
    returns what has been written and how the loop ended. *)
Fixpoint writeKeywords (fuel : nat) (i : IES F) (lineLength : Z)
    (order : list string) (out : list string)
  : option (list string * written unit) :=
  match order with
  | [] => Some (out, Done tt)
  | keyword :: rest =>
      match entries (Keywords i) !! keyword with
      | None => writeKeywords fuel i lineLength rest out
      | Some value =>
          match cleanKeywordLinesOf fuel (Format i) lineLength keyword
                                    value with
          | None => None
          | Some (Done []) => Some (out, Failed (ErrSplitKeyword keyword))
          | Some (Done (first :: more)) =>
              writeKeywords fuel i lineLength rest
                (out ++ ["[" +:+ keyword +:+ "] " +:+ first +:+ crlf]
                     ++ map (continuationLine (Format i)) more)%list
          | Some (Failed e) => Some (out, Failed e)
          | Some (SliceOutOfRange lo hi) => Some (out, SliceOutOfRange lo hi)
          end
      end
  end.

(** The tilt block, written for [TILT=INCLUDE] only. *)
Definition writeTilt (i : IES F) (lineLength : Z) : list string :=
  if String.eqb (Tilt i) IESTiltInclude then
    ([Itoa (TiltLampToLuminaireGeometry i) +:+ crlf;
      Itoa (TiltAnglesAndFactors i) +:+ crlf]
     ++ writeLines (convertFloatSliceToStringSlice lineLength (TiltAngles i))
     ++ writeLines (convertFloatSliceToStringSlice lineLength
                      (TiltMultiplierFactors i)))%list
  else [].

(** Everything from the tilt line on. *)
Definition writeData (i : IES F) : list string :=
  let lineLength := maxDataLineLength i in
  (["TILT=" +:+ Tilt i +:+ crlf]
  ++ writeTilt i lineLength
  ++ writeLines
       (convertValuesToStringSlice lineLength
          [IntValue (NumberLamps i); FloatValue (LumensPerLamp i);
           FloatValue (CandelaMultiplier i);
           IntValue (NumberVerticalAngles i);
           IntValue (NumberHorizontalAngles i);
           IntValue (PhotometricType i); IntValue (UnitsType i);
           FloatValue (LuminaireWidth i); FloatValue (LuminaireLength i);
           FloatValue (LuminaireHeight i)])
  ++ writeLines
       (convertValuesToStringSlice lineLength
          [FloatValue (BallastFactor i); FloatValue (FutureUse i);
           FloatValue (InputWatts i)])
  ++ writeLines (convertFloatSliceToStringSlice lineLength (VerticalAngles i))
  ++ writeLines (convertFloatSliceToStringSlice lineLength
                   (HorizontalAngles i))
  ++ concat (map (fun vertAngles =>
                    writeLines (convertFloatSliceToStringSlice lineLength
                                  vertAngles))
                 (CandelaValues i)))%list.

(** [Export]: the strings written to the file, in order, and the outcome;
    nothing is written, and no file made, for a model [Validate]
    refuses. [None] says that the call is still running when the fuel is
    used up. *)
Definition Export (fuel : nat) (order : list string) (i : IES F)
  : option (list string * written unit) :=
  let '(ok, msg) := Validate i true in
  if negb ok then Some ([], Failed (ErrExportValidate msg))
  else
    let lineLength := maxKeywordLineLength i in
    match writeKeywords fuel i lineLength order
                        [convertFormatToString i +:+ crlf] with
    | Some (out, Done _) => Some ((out ++ writeData i)%list, Done tt)
    | other => other
    end.

End Writer.

Arguments IntValue {F} n.
Arguments FloatValue {F} x.

(** A line as [Export] collects them for a keyword: no line feed in it
    and no white space in front. *)
Definition trimmedLine (line : string) : Prop :=
  Bytes.contains Bytes.newline line = false
  /\ forall c r, line = String c r -> Bytes.isRegexpSpace c = false.

(** ** The number readers of [filereader.go] *)

(** [validateIntFromLine]: the next line, trimmed, with its blanks and
    underscores taken out, read by [strconv.Atoi]. *)
Definition validateIntFromLine (sc : Scanner) : result (Z * Scanner) :=
  match Scan sc with
  | None => Err ErrUnexpectedEOF
  | Some sc' =>
      let cleanLine := Bytes.TrimSpace (Text sc') in
      let cleanLine := Bytes.removeByte " "%char cleanLine in
      let cleanLine := Bytes.removeByte "_"%char cleanLine in
      if len cleanLine =? 0 then Err ErrNoInteger
      else match Strconv.Atoi cleanLine with
           | Some v => Ok (v, sc')
           | None => Err (ErrAtoi cleanLine)
           end
  end.

(** [strings.ReplaceAll(s, ",", ".")]. *)
Fixpoint commasToDots (s : string) : string :=
  match s with
  | EmptyString => EmptyString
  | String c r =>
      String (if Ascii.eqb c ","%char then "."%char else c) (commasToDots r)
  end.

(** Outcome of [validateFloatFromLine]: its error for a line with nothing
    on it is its own. *)
Inductive floatRead (A : Type) : Type :=
  | FloatOk (a : A)
  | FloatErr (e : error)
  | FloatMissing.

Arguments FloatOk {A} a.
Arguments FloatErr {A} e.
Arguments FloatMissing {A}.

Section FloatReader.

Context {F : Type}.
Variable ParseFloat : string -> option F.

(** [validateFloatFromLine]: as for the integers, with commas read as
    decimal points. *)
Definition validateFloatFromLine (sc : Scanner) : floatRead (F * Scanner) :=
  match Scan sc with
  | None => FloatErr ErrUnexpectedEOF
  | Some sc' =>
      let cleanLine := Bytes.TrimSpace (Text sc') in
      let cleanLine := commasToDots cleanLine in
      let cleanLine := Bytes.removeByte " "%char cleanLine in
      let cleanLine := Bytes.removeByte "_"%char cleanLine in
      if len cleanLine =? 0 then FloatMissing
      else match ParseFloat cleanLine with
           | Some v => FloatOk (v, sc')
           | None => FloatErr (ErrParseFloat cleanLine)
           end
  end.

End FloatReader.

(** A 1995 model whose only keyword has [n] bytes; its keyword line has
    room for 80. *)
Definition wideKeywordModel (n : nat) : IES string :=
  setKeywords (Some (<[xs n := "v"]> ∅))
    (setFormat IESFormatLM_63_1995 (zeroIES "0")).

(** Floats kept as text are written as they are. *)
Definition textFloat (x : string) : string := x.

(** A file of the 1995 revision with a date, and the model [NewIES]
    returns for it. *)
Definition datedDocument : list string :=
  ["IESNA:LM-63-1995"; "[TEST] t1"; "[DATE] 2020"; "[MANUFAC] maker";
   "TILT=NONE"] ++ smallData.

Definition datedModel : IES string :=
  match snd (NewIES tokenFloat "0" datedDocument false) with
  | Ok i => i
  | _ => zeroIES "0"
  end.

(** * Properties *)

(** ** The converter *)

Section ConversionFacts.

Context {F : Type}.
Variables zero one : F.

Lemma index_0_nil {A : Type} : index (@nil A) 0 = Panic (IndexOutOfRange 0 0).
Proof. reflexivity. Qed.

Lemma index_0_cons {A : Type} (x : A) (l : list A) : index (x :: l) 0 = Ok x.
Proof.
  unfold index.
  replace (0 <? Z.of_nat (length (x :: l))) with true; [reflexivity|].
  symmetry. apply Z.ltb_lt. simpl length. lia.
Qed.

(** C2 (as amended). [ConvertIESToEulumdat] returns, for every pointer to
    an IES structure, neither an error nor a structure: the outcome is the
    pair of a nil pointer and a nil error. *)
Theorem ConvertIESToEulumdat_returns_nil_nil (ies : option (IES F)) :
  ConvertIESToEulumdat ies = Ok None
  /\ isErr (ConvertIESToEulumdat ies) = false
  /\ isPanic (ConvertIESToEulumdat ies) = false.
Proof. repeat split. Qed.

(** C10. [ConvertEulumdatToIES] indexes the four lamp arrays at 0 with no
    test of their length. If one of them is empty the call panics with
    an index out of range; with all four empty the panic is the one of
    [TypeLamps[0]]. The call never returns an error. *)
Theorem ConvertEulumdatToIES_empty_lamps_panics (eulumdat : Ldt.Eulumdat F) :
  (Ldt.TypeLamps eulumdat = [] \/ Ldt.NumberLamps eulumdat = []
   \/ Ldt.TotalLuminousFluxLamps eulumdat = []
   \/ Ldt.BallastWatts eulumdat = []) ->
  isPanic (ConvertEulumdatToIES zero one (Some eulumdat)) = true
  /\ isErr (ConvertEulumdatToIES zero one (Some eulumdat)) = false
  /\ (Ldt.TypeLamps eulumdat = [] ->
      ConvertEulumdatToIES zero one (Some eulumdat)
      = Panic (IndexOutOfRange 0 0)).
Proof.
  intros H. unfold ConvertEulumdatToIES. cbn [mapAssign mbind result_bind].
  destruct (Ldt.TypeLamps eulumdat) as [|t ts] eqn:Et.
  { repeat split. }
  rewrite index_0_cons. cbn [mapAssign mbind result_bind].
  destruct (Ldt.NumberLamps eulumdat) as [|n ns] eqn:En.
  { repeat split; discriminate. }
  rewrite index_0_cons. cbn [mbind result_bind].
  destruct (Ldt.TotalLuminousFluxLamps eulumdat) as [|x xs] eqn:Ex.
  { repeat split; discriminate. }
  rewrite index_0_cons. cbn [mbind result_bind].
  destruct (Ldt.BallastWatts eulumdat) as [|b bs] eqn:Eb.
  { repeat split; discriminate. }
  destruct H as [H|[H|[H|H]]]; discriminate.
Qed.

(** With the four arrays non-empty the call returns a structure: the
    panic above is the only way the conversion of a model can fail. *)
Lemma ConvertEulumdatToIES_lamps_present (eulumdat : Ldt.Eulumdat F) :
  Ldt.TypeLamps eulumdat <> [] -> Ldt.NumberLamps eulumdat <> [] ->
  Ldt.TotalLuminousFluxLamps eulumdat <> [] ->
  Ldt.BallastWatts eulumdat <> [] ->
  isOk (ConvertEulumdatToIES zero one (Some eulumdat)) = true.
Proof.
  intros Ht Hn Hx Hb. unfold ConvertEulumdatToIES.
  cbn [mapAssign mbind result_bind].
  destruct (Ldt.TypeLamps eulumdat); [done|].
  destruct (Ldt.NumberLamps eulumdat); [done|].
  destruct (Ldt.TotalLuminousFluxLamps eulumdat); [done|].
  destruct (Ldt.BallastWatts eulumdat); [done|].
  rewrite !index_0_cons. reflexivity.
Qed.

End ConversionFacts.

(** A nil pointer, which [NewEulumdat] returns with its error, panics at
    the first field read. *)
Example ConvertEulumdatToIES_nil :
  ConvertEulumdatToIES "0" "1" (@None (Ldt.Eulumdat string))
  = Panic NilDereference.
Proof. reflexivity. Qed.

(** C2 (as stated) fails: on the zero IES structure the reverse converter
    reports success, not an error. *)
Lemma ConvertIESToEulumdat_reports_no_error :
  ~ (isErr (ConvertIESToEulumdat (Some (zeroIES "0"))) = true).
Proof. discriminate. Qed.

Lemma ConvertEulumdatToIES_empty_lamps_panics_witness :
  isPanic (ConvertEulumdatToIES "0" "1" (Some emptyLdt)) = true
  /\ isErr (ConvertEulumdatToIES "0" "1" (Some emptyLdt)) = false
  /\ (Ldt.TypeLamps emptyLdt = [] ->
      ConvertEulumdatToIES "0" "1" (Some emptyLdt)
      = Panic (IndexOutOfRange 0 0)).
Proof.
  apply (ConvertEulumdatToIES_empty_lamps_panics "0" "1" emptyLdt).
  left. reflexivity.
Defined.

(** ** The symmetry methods of [eulumdat.go] *)

Lemma wrap64_id (z : Z) :
  Strconv.minInt64 <= z <= Strconv.maxInt64 -> Strconv.wrap64 z = z.
Proof.
  unfold Strconv.minInt64, Strconv.maxInt64, Strconv.wrap64. intros H.
  rewrite Z.mod_small; lia.
Qed.

Lemma wrap64_range (z : Z) :
  Strconv.minInt64 <= Strconv.wrap64 z <= Strconv.maxInt64.
Proof.
  unfold Strconv.minInt64, Strconv.maxInt64, Strconv.wrap64.
  pose proof (Z.mod_pos_bound (z + 2 ^ 63) (2 ^ 64) ltac:(lia)). lia.
Qed.

Lemma quot4_range (w : Z) :
  Strconv.minInt64 <= w <= Strconv.maxInt64 ->
  - 2 ^ 61 <= w ÷ 4 <= 2 ^ 61 - 1.
Proof.
  unfold Strconv.minInt64, Strconv.maxInt64. intros H.
  Z.quot_rem_to_equations. lia.
Qed.

Lemma quot_range (m d : Z) :
  0 < m <= Strconv.maxInt64 -> 2 <= d -> 0 <= m ÷ d <= 2 ^ 62 - 1.
Proof.
  unfold Strconv.maxInt64. intros H Hd.
  Z.quot_rem_to_equations. nia.
Qed.

Section SymmetryMethods.

Context {F : Type}.

(** Neither method reads what the other writes. *)
Lemma calcMc_calcMc1andMc2_fields (e : Ldt.Eulumdat F) :
  Ldt.SymmetryIndicator (calcMc1andMc2 e) = Ldt.SymmetryIndicator e
  /\ Ldt.NumberMcCPlanes (calcMc1andMc2 e) = Ldt.NumberMcCPlanes e
  /\ Ldt.mc1 (calcMc (calcMc1andMc2 e)) = Ldt.mc1 (calcMc1andMc2 e)
  /\ Ldt.mc2 (calcMc (calcMc1andMc2 e)) = Ldt.mc2 (calcMc1andMc2 e).
Proof.
  unfold calcMc1andMc2, calcMc.
  repeat match goal with
         | |- context [if ?c then _ else _] => destruct c
         end; repeat split.
Qed.

(** C3. For a symmetry indicator in 0..4 and a positive plane count,
    after [calcMc1andMc2] and [calcMc] the bounds are ordered and the
    number of planes between them is the reshape count, as integers and
    as the code computes [mc2 - mc1 + 1]; this holds for every plane
    count an [int] can hold, also where the product [3*Mc] of the case 3
    wraps. As long as that product fits, the three fields are the row of
    the symmetry table of the specification. *)
Theorem calcMc_consistent (e : Ldt.Eulumdat F) :
  0 <= Ldt.SymmetryIndicator e <= 4 ->
  0 < Ldt.NumberMcCPlanes e <= Strconv.maxInt64 ->
  Ldt.mc2 (calcMc (calcMc1andMc2 e)) >= Ldt.mc1 (calcMc (calcMc1andMc2 e))
  /\ Ldt.mc2 (calcMc (calcMc1andMc2 e))
     - Ldt.mc1 (calcMc (calcMc1andMc2 e)) + 1
     = Ldt.mc (calcMc (calcMc1andMc2 e))
  /\ storedPlanes (calcMc (calcMc1andMc2 e))
     = Ldt.mc (calcMc (calcMc1andMc2 e))
  /\ (3 * Ldt.NumberMcCPlanes e <= Strconv.maxInt64 ->
      symmetryTable (Ldt.SymmetryIndicator e) (Ldt.NumberMcCPlanes e)
      = Some (Ldt.mc1 (calcMc (calcMc1andMc2 e)),
              Ldt.mc2 (calcMc (calcMc1andMc2 e)),
              Ldt.mc (calcMc (calcMc1andMc2 e)))).
Proof.
  intros Hs HMc.
  pose proof (quot_range _ 2 HMc ltac:(lia)) as Hq2.
  pose proof (quot_range _ 4 HMc ltac:(lia)) as Hq4.
  pose proof (wrap64_range (3 * Ldt.NumberMcCPlanes e)) as Hw.
  pose proof (quot4_range _ Hw) as Hw4.
  assert (Hmax : Strconv.maxInt64 = 2 ^ 63 - 1) by reflexivity.
  assert (Hmin : Strconv.minInt64 = - 2 ^ 63) by reflexivity.
  unfold storedPlanes, symmetryTable, calcMc, calcMc1andMc2.
  assert (Hc : Ldt.SymmetryIndicator e = 0 \/ Ldt.SymmetryIndicator e = 1
               \/ Ldt.SymmetryIndicator e = 2 \/ Ldt.SymmetryIndicator e = 3
               \/ Ldt.SymmetryIndicator e = 4) by lia.
  destruct Hc as [Hc|[Hc|[Hc|[Hc|Hc]]]]; rewrite Hc;
    cbn [Z.eqb orb Pos.eqb]; unfold Ldt.setPlanes;
    cbn [Ldt.SymmetryIndicator Ldt.NumberMcCPlanes Ldt.mc1 Ldt.mc2 Ldt.mc];
    rewrite ?Hc; cbn [Z.eqb orb Pos.eqb];
    cbn [Ldt.SymmetryIndicator Ldt.NumberMcCPlanes Ldt.mc1 Ldt.mc2 Ldt.mc];
    repeat match goal with
           | |- context [Strconv.wrap64 ?z] =>
               lazymatch z with
               | 3 * _ => fail
               | _ => rewrite (wrap64_id z) by lia
               end
           end;
    (split; [lia|]); (split; [lia|]); (split; [lia|]); intros Hfit;
    rewrite ?(wrap64_id (3 * Ldt.NumberMcCPlanes e)) by lia; reflexivity.
Qed.

End SymmetryMethods.

Lemma calcMc_consistent_witness :
  Ldt.mc2 (calcMc (calcMc1andMc2 (symmetricLdt 3 24)))
  >= Ldt.mc1 (calcMc (calcMc1andMc2 (symmetricLdt 3 24)))
  /\ Ldt.mc2 (calcMc (calcMc1andMc2 (symmetricLdt 3 24)))
     - Ldt.mc1 (calcMc (calcMc1andMc2 (symmetricLdt 3 24))) + 1
     = Ldt.mc (calcMc (calcMc1andMc2 (symmetricLdt 3 24)))
  /\ storedPlanes (calcMc (calcMc1andMc2 (symmetricLdt 3 24)))
     = Ldt.mc (calcMc (calcMc1andMc2 (symmetricLdt 3 24)))
  /\ (3 * Ldt.NumberMcCPlanes (symmetricLdt 3 24) <= Strconv.maxInt64 ->
      symmetryTable (Ldt.SymmetryIndicator (symmetricLdt 3 24))
                    (Ldt.NumberMcCPlanes (symmetricLdt 3 24))
      = Some (Ldt.mc1 (calcMc (calcMc1andMc2 (symmetricLdt 3 24))),
              Ldt.mc2 (calcMc (calcMc1andMc2 (symmetricLdt 3 24))),
              Ldt.mc (calcMc (calcMc1andMc2 (symmetricLdt 3 24))))).
Proof.
  apply (calcMc_consistent (symmetricLdt 3 24)).
  - vm_compute. split; discriminate.
  - vm_compute. split; [reflexivity|discriminate].
Defined.

(** The scenario of the specification: indicator 1 with 24 planes. *)
Example calcMc_full_symmetry :
  Ldt.mc1 (calcMc (calcMc1andMc2 (symmetricLdt 1 24))) = 1
  /\ Ldt.mc2 (calcMc (calcMc1andMc2 (symmetricLdt 1 24))) = 1
  /\ Ldt.mc (calcMc (calcMc1andMc2 (symmetricLdt 1 24))) = 1.
Proof. repeat split. Qed.

Example calcMc_c90_c270 :
  Ldt.mc1 (calcMc (calcMc1andMc2 (symmetricLdt 3 24))) = 19
  /\ Ldt.mc2 (calcMc (calcMc1andMc2 (symmetricLdt 3 24))) = 31
  /\ Ldt.mc (calcMc (calcMc1andMc2 (symmetricLdt 3 24))) = 13.
Proof. repeat split. Qed.

(** Where the product wraps the fields leave the table, and the relation
    between them stays: with 2^62 planes the code puts the lower bound
    below zero, where the table has it at 3*2^60+1. *)
Example calcMc_wrapped_product :
  symmetryTable 3 (2 ^ 62) = Some (3 * 2 ^ 60 + 1, 5 * 2 ^ 60 + 1, 2 ^ 61 + 1)
  /\ Ldt.mc1 (calcMc (calcMc1andMc2 (symmetricLdt 3 (2 ^ 62))))
     = - 2 ^ 60 + 1
  /\ Ldt.mc2 (calcMc (calcMc1andMc2 (symmetricLdt 3 (2 ^ 62))))
     = 2 ^ 60 + 1
  /\ Ldt.mc (calcMc (calcMc1andMc2 (symmetricLdt 3 (2 ^ 62))))
     = 2 ^ 61 + 1.
Proof. vm_compute. repeat split. Qed.

(** An indicator outside 0..4 takes no case: the fields keep their
    values. *)
Example calcMc_no_case :
  calcMc (calcMc1andMc2 (symmetricLdt 7 24)) = symmetricLdt 7 24.
Proof. reflexivity. Qed.

(** ** The word list *)

Lemma storeWords_Ok (words lst : list string) (processed : Z)
    (lst' : list string) (processed' : Z) :
  storeWords words lst processed = Ok (lst', processed') ->
  length lst' = length lst
  /\ processed' = processed + Z.of_nat (length words).
Proof.
  revert lst processed.
  induction words as [|w ws IH]; intros lst processed H; cbn [storeWords] in H.
  - injection H as <- <-. cbn [length]. lia.
  - destruct ((0 <=? processed) && (processed <? Z.of_nat (length lst))) eqn:E;
      [|discriminate].
    apply IH in H as [Hl Hp]. rewrite length_insert in Hl.
    cbn [length]. lia.
Qed.

Lemma storeWords_overflow (words lst : list string) (processed : Z) :
  0 <= processed <= Z.of_nat (length lst) ->
  Z.of_nat (length lst) - processed < Z.of_nat (length words) ->
  storeWords words lst processed
  = Panic (IndexOutOfRange (Z.of_nat (length lst)) (Z.of_nat (length lst))).
Proof.
  revert lst processed.
  induction words as [|w ws IH]; intros lst processed Hp Hw;
    cbn [storeWords length] in *; [lia|].
  destruct (Z.ltb_spec processed (Z.of_nat (length lst))) as [Hlt|Hge].
  - replace (0 <=? processed) with true by (symmetry; apply Z.leb_le; lia).
    cbn [andb].
    rewrite IH; rewrite ?length_insert; [reflexivity|lia|lia].
  - rewrite andb_false_r. f_equal. f_equal; lia.
Qed.

Lemma wordLoop_length (size : Z) (lastScan : bool) (rest : list string) :
  forall (lst : list string) (processed : Z) (text : string)
         (out : list string) (sc : Scanner),
    wordLoop size lastScan lst processed text rest = Ok (out, sc) ->
    length out = length lst.
Proof.
  induction rest as [|l rest IH]; intros lst processed text out sc H;
    cbn [wordLoop] in H;
    destruct (storeWords _ lst processed) as [[lst' p']| |] eqn:Es;
    cbn [mbind result_bind] in H; try discriminate;
    apply storeWords_Ok in Es as [Hl _];
    destruct ((p' <? size) || negb lastScan); try discriminate.
  - injection H as <- _. exact Hl.
  - destruct (p' <? size).
    + apply IH in H. congruence.
    + injection H as <- _. exact Hl.
  - injection H as <- _. exact Hl.
Qed.

(** What does hold of the routine: a list it returns has exactly [size]
    entries. *)
Lemma getWordListFromInput_length (sc sc' : Scanner) (size : Z)
    (lastScan : bool) (out : list string) :
  getWordListFromInput sc size lastScan = Ok (out, sc') ->
  Z.of_nat (length out) = size.
Proof.
  unfold getWordListFromInput. intros H.
  destruct (Z.ltb_spec size 0); [discriminate|].
  destruct (0 <? size).
  - apply wordLoop_length in H. rewrite H, length_replicate. lia.
  - injection H as <- _. rewrite length_replicate. lia.
Qed.

(** C9 (the code departs from it). A current line with more tokens than
    remain to be collected makes the store [list[processed]] run past the
    end of the list: the call panics, it neither returns the tokens nor an
    error. *)
Theorem getWordListFromInput_overfull_line_panics (sc : Scanner) (size : Z)
    (lastScan : bool) :
  0 < size ->
  size < Z.of_nat (length (Bytes.ScanWords (Bytes.TrimSpace (Text sc)))) ->
  getWordListFromInput sc size lastScan = Panic (IndexOutOfRange size size).
Proof.
  intros Hs Hw. unfold getWordListFromInput.
  replace (size <? 0) with false by (symmetry; apply Z.ltb_ge; lia).
  replace (0 <? size) with true by (symmetry; apply Z.ltb_lt; lia).
  destruct (pending sc); cbn [wordLoop];
    rewrite storeWords_overflow; rewrite ?length_replicate;
    try lia; cbn [mbind result_bind]; rewrite Z2Nat.id by lia; reflexivity.
Qed.

Lemma getWordListFromInput_overfull_line_panics_witness :
  getWordListFromInput (mkScanner "0.9 0.5 42 7" ["0 45 90"]) 3 false
  = Panic (IndexOutOfRange 3 3).
Proof.
  apply (getWordListFromInput_overfull_line_panics
           (mkScanner "0.9 0.5 42 7" ["0 45 90"]) 3 false).
  - lia.
  - vm_compute. reflexivity.
Defined.

(** A negative count, which the file can supply for the tilt block and the
    angle counts, panics in [make]. *)
Example getWordListFromInput_negative_size :
  getWordListFromInput (mkScanner "1 2" []) (-1) false
  = Panic (MakeLenOutOfRange (-1)).
Proof. reflexivity. Qed.

(** ** Line 11 of the data block *)

(** One step through a sequence of calls: case on the first call and keep
    the branch in which it returned. *)
Ltac step_call H :=
  match type of H with
  | mbind _ ?r = Ok _ =>
      let E := fresh "E" in
      destruct r as [?| |] eqn:E; cbn [mbind result_bind] in H;
      [|discriminate H|discriminate H]
  end.

Ltac split_pairs :=
  repeat match goal with
         | x : (_ * _)%type |- _ => destruct x
         end.

Section Line11.

Context {F : Type}.
Variable ParseFloat : string -> option F.
Variable zero : F.

(** Whatever the document, a structure that [parseData] returns has its
    ballast factor and its future-use field read from one and the same
    token, the second of line 11. *)
Lemma parseData_ballast_eq_future (ies i : IES F) (line : string)
    (scanner : Scanner) :
  parseData ParseFloat ies line scanner = Ok i ->
  BallastFactor i = FutureUse i.
Proof.
  unfold parseData. intros H.
  repeat (step_call H; split_pairs).
  injection H as <-. cbn [BallastFactor FutureUse]. congruence.
Qed.

Lemma NewIES_ballast_eq_future (lines : list string) (strict : bool)
    (warnings : list warning) (i : IES F) :
  NewIES ParseFloat zero lines strict = (warnings, Ok i) ->
  BallastFactor i = FutureUse i.
Proof.
  unfold NewIES. destruct (validateStringFromLine _ 16 strict) as [w first].
  intros H. injection H as _ H.
  repeat (step_call H; split_pairs).
  eapply parseData_ballast_eq_future; eassumption.
Qed.

End Line11.

(** C1 (the code departs from it). On a document whose line 11 is
    [0.9 0.5 42] the parser succeeds and stores the second token, [0.5],
    both as ballast factor and as future use; the first token, [0.9],
    reaches no field. *)
Theorem NewIES_line11_reads_second_token_twice :
  exists i : IES string,
    NewIES tokenFloat "0" sampleDocument true = ([], Ok i)
    /\ BallastFactor i = "0.5"
    /\ FutureUse i = "0.5"
    /\ InputWatts i = "42".
Proof. eexists. vm_compute. repeat split. Qed.

(** ** Keyword lines *)

(** Decide an allow-list question that no longer depends on the format but
    through the tests of its value. *)
Ltac case_format format :=
  repeat match goal with
         | |- context [String.eqb format ?c] => destruct (String.eqb format c)
         end.

Lemma keywordAllowedFor_TEST (format : string) :
  keywordAllowedFor format "TEST" = true.
Proof. unfold keywordAllowedFor. case_format format; reflexivity. Qed.

Lemma keywordAllowedFor_MORE (format : string) :
  keywordAllowedFor format "MORE" = true.
Proof. unfold keywordAllowedFor. case_format format; reflexivity. Qed.

Lemma sizeZ_zero (m : gmap string string) :
  (Z.of_nat (size m) =? 0) = true <-> m = ∅.
Proof.
  rewrite Z.eqb_eq, <- map_size_empty_iff. lia.
Qed.

Lemma sizeZ_insert (m : gmap string string) (k v : string) :
  (Z.of_nat (size (<[k := v]> m)) =? 0) = false.
Proof.
  apply not_true_iff_false. rewrite sizeZ_zero. apply insert_non_empty.
Qed.

Lemma tiltRegex_not_keyword (line value : string) :
  Regexp.tiltRegex line = Some value -> Regexp.keywordRegex line = None.
Proof.
  destruct line as [|c line]; [discriminate|].
  unfold Regexp.tiltRegex. cbn [Bytes.stripPrefix].
  destruct (Ascii.eqb_spec "T"%char c) as [<-|]; [|discriminate].
  intros _. reflexivity.
Qed.

Lemma missing_required_02 (keywords : gmap string string) (k : string) :
  k ∈ requiredKeywords02 -> keywords !! k = None ->
  checkIesna02RequiredKeywords keywords = false.
Proof.
  intros Hin Hk. apply not_true_iff_false. intros Hall.
  unfold checkIesna02RequiredKeywords in Hall.
  rewrite forallb_forall in Hall.
  specialize (Hall k (proj1 (list_elem_of_In _ _) Hin)).
  unfold hasKey in Hall. apply bool_decide_eq_true in Hall.
  rewrite Hk in Hall. destruct Hall; discriminate.
Qed.

Section KeywordFacts.

Context {F : Type}.

Lemma isTiltLine_true (line : string) :
  isTiltLine line = true <-> exists value, Regexp.tiltRegex line = Some value.
Proof. unfold isTiltLine. rewrite bool_decide_eq_true. reflexivity. Qed.

Lemma isTiltLine_not_keyword (line : string) :
  isTiltLine line = true -> isKeywordLine line = false.
Proof.
  rewrite isTiltLine_true. intros [value H].
  unfold isKeywordLine. rewrite (tiltRegex_not_keyword _ _ H).
  apply bool_decide_eq_false. intros [? ?]; discriminate.
Qed.

(** The fetch written out in [headerLoop] is [fetchValidLineFromFile] on
    the scanner that holds the current line and the pending ones. *)
Lemma headerLoop_fetch (ies : IES F) (line : string) (rest : list string) :
  headerLoop ies line rest
  = ('(ies', tiltReached) ← headerStep ies line;
     '(line', scanner) ← fetchValidLineFromFile ies' (mkScanner line rest);
     if (tiltReached : bool) then Ok (ies', line', scanner)
     else headerLoop ies' line' (pending scanner)).
Proof.
  destruct rest as [|l rest]; cbn [headerLoop];
    destruct (headerStep ies line) as [[ies' t]| |]; cbn; try reflexivity.
  unfold fetchValidLineFromFile. cbn.
  destruct (checkLineLength ies' l); reflexivity.
Qed.

(** C4. In a 2002 document, a round of the keyword loop that meets the
    tilt line while a required keyword is missing ends the parse with
    the missing-keywords error, whatever the tilt value is and whatever
    follows in the file: [parseTiltLine] is not reached. With the 1995
    format the required-keyword test passes for any keyword map and the
    round goes on to [parseTiltLine]. *)
Theorem headerStep_revision_gating (ies : IES F) (line : string) :
  isTiltLine line = true ->
  (Format ies = IESFormatLM_63_2002 ->
   (exists k, k ∈ requiredKeywords02 /\ entries (Keywords ies) !! k = None) ->
   headerStep ies line = Err ErrRequiredKeywordsMissing
   /\ forall rest, headerLoop ies line rest = Err ErrRequiredKeywordsMissing)
  /\ (Format ies = IESFormatLM_63_1995 ->
      ContainsRequiredKeywords ies = true
      /\ headerStep ies line = (ies' ← parseTiltLine ies line; Ok (ies', true))).
Proof.
  intros Htilt.
  pose proof (isTiltLine_not_keyword _ Htilt) as Hkw.
  split.
  - intros Hf (k & Hin & Hk).
    assert (Hstep : headerStep ies line = Err ErrRequiredKeywordsMissing).
    { unfold headerStep. rewrite Hkw, Htilt.
      unfold ContainsRequiredKeywords, containsRequiredFor. rewrite Hf.
      cbn -[checkIesna02RequiredKeywords].
      rewrite (missing_required_02 _ _ Hin Hk). reflexivity. }
    split; [exact Hstep|].
    intros rest. destruct rest; cbn [headerLoop]; rewrite Hstep; reflexivity.
  - intros Hf.
    assert (Hreq : ContainsRequiredKeywords ies = true).
    { unfold ContainsRequiredKeywords, containsRequiredFor.
      rewrite Hf. reflexivity. }
    split; [exact Hreq|].
    unfold headerStep. rewrite Hkw, Htilt, Hreq. reflexivity.
Qed.

Lemma entries_lookup_Some (keywords : option (gmap string string))
    (k v : string) :
  entries keywords !! k = Some v ->
  exists table, keywords = Some table /\ table !! k = Some v.
Proof.
  destruct keywords as [table|]; cbn; [eauto|].
  rewrite lookup_empty. discriminate.
Qed.


(** C5. In a state in which [TEST] was just set to [abc] (it is the last
    keyword and the map holds [abc] for it), a [MORE] line succeeds, leaves
    the set of keys as it was, changes no other entry and makes the value
    of [TEST] the old value, a newline and the value of the line. A [MORE]
    line met while the map is empty or no keyword was seen is an error. *)
Theorem parseKeywordLine_MORE_appends (ies : IES F) (line value : string) :
  Regexp.keywordRegex line = Some ("MORE", value) ->
  (entries (Keywords ies) !! "TEST" = Some "abc" ->
   lastKeyword ies = "TEST" ->
   exists ies',
     parseKeywordLine ies line = Ok ies'
     /\ entries (Keywords ies') !! "TEST"
        = Some ("abc" +:+ String Bytes.newline value)
     /\ dom (entries (Keywords ies')) = dom (entries (Keywords ies))
     /\ (forall k, k <> "TEST" ->
                   entries (Keywords ies') !! k = entries (Keywords ies) !! k)
     /\ lastKeyword ies' = "TEST")
  /\ (entries (Keywords ies) = ∅ \/ lastKeyword ies = "" ->
      parseKeywordLine ies line = Err ErrMoreBeforeKeyword).
Proof.
  intros Hline.
  assert (Hparse : parseKeywordLine ies line
            = if (Z.of_nat (size (entries (Keywords ies))) =? 0)
                 || String.eqb (lastKeyword ies) ""
              then Err ErrMoreBeforeKeyword
              else
                keywords ← mapAssign (Keywords ies) (lastKeyword ies)
                             (appendedValue (Keywords ies) (lastKeyword ies)
                                            value);
                Ok (setKeywords keywords ies)).
  { unfold parseKeywordLine. rewrite Hline.
    unfold isKeywordAllowed. rewrite keywordAllowedFor_MORE. reflexivity. }
  rewrite Hparse. split.
  - intros Htest Hlast.
    destruct (entries_lookup_Some _ _ _ Htest) as (table & Hmap & Hk).
    assert (Hsize : (Z.of_nat (size (entries (Keywords ies))) =? 0) = false).
    { apply not_true_iff_false. rewrite sizeZ_zero. intros E.
      rewrite E, lookup_empty in Htest. discriminate. }
    rewrite Hsize, Hlast. unfold appendedValue. rewrite Htest, Hmap.
    cbn. eexists. split; [reflexivity|]. cbn.
    split; [apply lookup_insert_eq|].
    split; [apply dom_insert_lookup_L; eauto|].
    split; [|exact Hlast].
    intros k Hne. rewrite lookup_insert_ne by congruence. reflexivity.
  - intros [Hempty|Hlast].
    + rewrite (proj2 (sizeZ_zero _) Hempty). reflexivity.
    + rewrite Hlast, orb_true_r. reflexivity.
Qed.

End KeywordFacts.

Section BlockFacts.

Context {F : Type}.

(** The nesting test alone, whatever the format. *)
Lemma checkKeywordBlock_spec (ies : IES F) (keyword : string) :
  checkKeywordBlock ies keyword
  = if String.eqb keyword "BLOCK" then
      (negb (insideBlock ies),
       if insideBlock ies then ies else setInsideBlock true ies)
    else if String.eqb keyword "ENDBLOCK" then
      (insideBlock ies,
       if insideBlock ies then setInsideBlock false ies else ies)
    else (true, ies).
Proof.
  unfold checkKeywordBlock.
  destruct (String.eqb keyword "BLOCK"), (String.eqb keyword "ENDBLOCK"),
    (insideBlock ies); reflexivity.
Qed.


End BlockFacts.
(** ** Runs of the keyword loop on concrete states and documents *)

Lemma headerStep_revision_gating_witness :
  (headerStep (stateOf IESFormatLM_63_2002 threeOfFour false "MANUFAC")
              "TILT=lamp.tlt"
   = Err ErrRequiredKeywordsMissing
   /\ forall rest,
       headerLoop (stateOf IESFormatLM_63_2002 threeOfFour false "MANUFAC")
                  "TILT=lamp.tlt" rest
       = Err ErrRequiredKeywordsMissing)
  /\ (ContainsRequiredKeywords
        (stateOf IESFormatLM_63_1995 threeOfFour false "MANUFAC") = true
      /\ headerStep (stateOf IESFormatLM_63_1995 threeOfFour false "MANUFAC")
                    "TILT=lamp.tlt"
         = (ies' ← parseTiltLine
                     (stateOf IESFormatLM_63_1995 threeOfFour false "MANUFAC")
                     "TILT=lamp.tlt";
            Ok (ies', true))).
Proof.
  split.
  - apply (headerStep_revision_gating
             (stateOf IESFormatLM_63_2002 threeOfFour false "MANUFAC")
             "TILT=lamp.tlt"); [reflexivity|reflexivity|].
    exists "TESTLAB". split; [|reflexivity].
    apply list_elem_of_In. simpl. tauto.
  - apply (headerStep_revision_gating
             (stateOf IESFormatLM_63_1995 threeOfFour false "MANUFAC")
             "TILT=lamp.tlt"); reflexivity.
Defined.

(** The same keyword section in a whole file: the 2002 header fails on the
    missing [TESTLAB] before the unsupported tilt value is looked at; under
    the 1995 header the tilt value is reached (and refused, being a file
    name), and with [TILT=NONE] the file parses. *)
Example NewIES_2002_missing_TESTLAB :
  NewIES tokenFloat "0"
    ["IESNA:LM-63-2002"; "[TEST] t1"; "[MANUFAC] maker"; "TILT=lamp.tlt";
     "1 1000 1 1 1 1 2 0 0 0"; "1 1 10"; "0"; "0"; "5"] true
  = ([], Err ErrRequiredKeywordsMissing).
Proof. vm_compute. reflexivity. Qed.

Example NewIES_1995_reaches_tilt :
  NewIES tokenFloat "0"
    ["IESNA:LM-63-1995"; "[TEST] t1"; "[MANUFAC] maker"; "TILT=lamp.tlt";
     "1 1000 1 1 1 1 2 0 0 0"; "1 1 10"; "0"; "0"; "5"] true
  = ([], Err ErrTiltFromFile).
Proof. vm_compute. reflexivity. Qed.

Example NewIES_1995_parses :
  isOk (snd (NewIES tokenFloat "0"
    ["IESNA:LM-63-1995"; "[TEST] t1"; "[MANUFAC] maker"; "TILT=NONE";
     "1 1000 1 1 1 1 2 0 0 0"; "1 1 10"; "0"; "0"; "5"] true)) = true.
Proof. vm_compute. reflexivity. Qed.

Lemma parseKeywordLine_MORE_appends_witness :
  (exists ies',
     parseKeywordLine
       (stateOf IESFormatLM_63_2002 (<["TEST" := "abc"]> ∅) false "TEST")
       "[MORE] def" = Ok ies'
     /\ entries (Keywords ies') !! "TEST"
        = Some ("abc" +:+ String Bytes.newline "def")
     /\ dom (entries (Keywords ies'))
        = dom (entries (Keywords (stateOf IESFormatLM_63_2002
                                          (<["TEST" := "abc"]> ∅)
                                          false "TEST")))
     /\ (forall k, k <> "TEST" ->
                   entries (Keywords ies') !! k
                   = entries (Keywords (stateOf IESFormatLM_63_2002
                                                (<["TEST" := "abc"]> ∅)
                                                false "TEST")) !! k)
     /\ lastKeyword ies' = "TEST")
  /\ parseKeywordLine (stateOf IESFormatLM_63_2002 ∅ false "") "[MORE] def"
     = Err ErrMoreBeforeKeyword.
Proof.
  pose proof (parseKeywordLine_MORE_appends
                (stateOf IESFormatLM_63_2002 (<["TEST" := "abc"]> ∅)
                         false "TEST")
                "[MORE] def" "def" eq_refl) as [Happend _].
  pose proof (parseKeywordLine_MORE_appends
                (stateOf IESFormatLM_63_2002 ∅ false "")
                "[MORE] def" "def" eq_refl) as [_ Hfirst].
  split.
  - apply Happend; reflexivity.
  - apply Hfirst. left. reflexivity.
Defined.

(** The state of the statement is the one a [TEST] line leaves, and the
    two lines in a file give the joined value. *)
Example parseKeywordLine_TEST_abc :
  parseKeywordLine (stateOf IESFormatLM_63_2002 ∅ false "") "[TEST] abc"
  = Ok (stateOf IESFormatLM_63_2002 (<["TEST" := "abc"]> ∅) false "TEST").
Proof. reflexivity. Qed.

Example NewIES_TEST_MORE :
  exists i : IES string,
    NewIES tokenFloat "0" sampleDocument true = ([], Ok i)
    /\ entries (Keywords i) !! "TEST"
       = Some ("abc" +:+ String Bytes.newline "def")
    /\ entries (Keywords i) !! "MORE" = None
    /\ size (entries (Keywords i)) = 4%nat.
Proof. eexists. vm_compute. repeat split. Qed.

Example NewIES_MORE_first :
  NewIES tokenFloat "0" ["IESNA:LM-63-2002"; "[MORE] def"; "TILT=NONE"] true
  = ([], Err ErrMoreBeforeKeyword).
Proof. vm_compute. reflexivity. Qed.


(** Whole files under the 1995 header: a matched block parses and the
    keyword inside it is in the map; a stray [ENDBLOCK] and a nested
    [BLOCK] end the parse with the nesting error. *)
Example NewIES_block_matched :
  exists i : IES string,
    NewIES tokenFloat "0"
      ["IESNA:LM-63-1995"; "[BLOCK] b"; "[LAMP] halogen"; "[ENDBLOCK] e";
       "TILT=NONE"; "1 1000 1 1 1 1 2 0 0 0"; "1 1 10"; "0"; "0"; "5"] true
    = ([], Ok i)
    /\ entries (Keywords i) !! "LAMP" = Some "halogen"
    /\ insideBlock i = false.
Proof. eexists. vm_compute. repeat split. Qed.

Example NewIES_stray_ENDBLOCK :
  NewIES tokenFloat "0"
    ["IESNA:LM-63-1995"; "[LAMP] halogen"; "[ENDBLOCK] e"; "TILT=NONE"] true
  = ([], Err ErrUnexpectedBlock).
Proof. vm_compute. reflexivity. Qed.

Example NewIES_nested_BLOCK :
  NewIES tokenFloat "0"
    ["IESNA:LM-63-1995"; "[BLOCK] b"; "[BLOCK] c"; "[ENDBLOCK] e";
     "TILT=NONE"] true
  = ([], Err ErrUnexpectedBlock).
Proof. vm_compute. reflexivity. Qed.

(** ** [Upgrade] *)

Lemma allowed02_movedName (k : string) :
  allowed02 k = false -> len k < 18 -> allowed02 (movedName k) = true.
Proof.
  intros _ Hlen. unfold movedName.
  destruct (String.eqb k "DATE"); [reflexivity|].
  unfold allowed02, keywordAllowedFor.
  replace (18 <? len (String "_" k)) with false; [reflexivity|].
  symmetry. apply Z.ltb_ge. unfold len in *. cbn [String.length]. lia.
Qed.

Lemma movedName_inj (k1 k2 : string) : movedName k1 = movedName k2 -> k1 = k2.
Proof.
  unfold movedName.
  destruct (String.eqb_spec k1 "DATE") as [->|H1],
           (String.eqb_spec k2 "DATE") as [->|H2]; intros H;
    try reflexivity; try discriminate H.
  injection H as H. exact H.
Qed.

Lemma lookup_insertIfMissing (k v j : string) (m : gmap string string) :
  insertIfMissing k v m !! j
  = if decide (k = j) then Some (default v (m !! k)) else m !! j.
Proof.
  unfold insertIfMissing, hasKey.
  case_bool_decide as Hk; case_decide as Hj; subst.
  - destruct Hk as [x Hx]. rewrite Hx. reflexivity.
  - reflexivity.
  - rewrite lookup_insert_eq.
    destruct (m !! j) eqn:E; [exfalso; apply Hk; eauto|reflexivity].
  - rewrite lookup_insert_ne by done. reflexivity.
Qed.

Lemma upgraded_refl (m0 : gmap string string) : upgraded m0 m0.
Proof. split; auto. Qed.

Lemma upgradeMap_cases (m : gmap string string) (k : string) :
  upgradeMap m k = m
  \/ exists v, m !! k = Some v /\ allowed02 k = false
               /\ upgradeMap m k = <[movedName k := v]> (delete k m).
Proof.
  unfold upgradeMap. destruct (m !! k) as [v|] eqn:E; [|by left].
  destruct (allowed02 k) eqn:A; [by left|]. right. eauto.
Qed.

Section Step.

Variables m0 m : gmap string string.
Variable k' : string.
Hypothesis Hmov : movable m0.
Hypothesis Hup : upgraded m0 m.

Lemma upgradeMap_upgraded : upgraded m0 (upgradeMap m k').
Proof.
  destruct (upgradeMap_cases m k') as [->|(v' & Hk' & Ak' & ->)]; [exact Hup|].
  destruct Hup as [Hold Hstate Hkept Hpres].
  pose proof (Hold _ _ Hk' Ak') as H0k'.
  assert (At : allowed02 (movedName k') = true) by (apply Hmov; eauto).
  split.
  - intros k v Hk Ak.
    assert (k <> movedName k') by congruence.
    rewrite lookup_insert_ne in Hk by done.
    apply lookup_delete_Some in Hk as [_ Hk]. eauto.
  - intros k v H0k Ak.
    assert (k <> movedName k') by congruence.
    destruct (decide (k = k')) as [->|Hne].
    + right. rewrite lookup_insert_ne by done.
      rewrite lookup_delete_eq. split; [done|].
      rewrite H0k in H0k'. injection H0k' as ->.
      apply lookup_insert_eq.
    + assert (movedName k <> movedName k')
        by (intros E; apply movedName_inj in E; done).
      assert (movedName k <> k').
      { intros E. assert (allowed02 (movedName k) = true)
          by (apply Hmov; eauto). congruence. }
      destruct (Hstate _ _ H0k Ak) as [Hk|[Hk Hm]].
      * left. rewrite lookup_insert_ne by done.
        rewrite lookup_delete_ne by done. exact Hk.
      * right. rewrite !lookup_insert_ne by done.
        rewrite !lookup_delete_ne by done. done.
  - intros k v H0k Ak Hnt.
    assert (k <> k') by congruence.
    assert (movedName k' <> k) by (apply Hnt; eauto).
    rewrite lookup_insert_ne by done. rewrite lookup_delete_ne by done.
    eauto.
  - intros k H0k Ak.
    assert (k <> k') by congruence.
    destruct (decide (movedName k' = k)) as [<-|Hne].
    + rewrite lookup_insert_eq. eauto.
    + rewrite lookup_insert_ne by done. rewrite lookup_delete_ne by done.
      eauto.
Qed.

Lemma upgradeMap_moved_stable (k : string) :
  is_Some (m0 !! k) -> allowed02 k = false ->
  moved m0 m k -> moved m0 (upgradeMap m k') k.
Proof.
  intros H0k Ak Hm.
  destruct (upgradeMap_cases m k') as [->|(v' & Hk' & Ak' & ->)]; [exact Hm|].
  intros v Hv. destruct (Hm v Hv) as [Hnone Hsome].
  assert (k <> k') by congruence.
  assert (At : allowed02 (movedName k') = true).
  { apply Hmov; [|done]. exists v'. eapply upgraded_old; eauto. }
  assert (k <> movedName k') by congruence.
  assert (movedName k <> movedName k')
    by (intros E; apply movedName_inj in E; done).
  assert (movedName k <> k').
  { intros E. assert (allowed02 (movedName k) = true)
      by (apply Hmov; eauto). congruence. }
  rewrite !lookup_insert_ne by done. rewrite !lookup_delete_ne by done. done.
Qed.

Lemma upgradeMap_moves :
  is_Some (m0 !! k') -> allowed02 k' = false -> moved m0 (upgradeMap m k') k'.
Proof.
  intros H0k Ak v Hv.
  assert (At : allowed02 (movedName k') = true) by (apply Hmov; eauto).
  assert (k' <> movedName k') by congruence.
  destruct (upgraded_state _ _ Hup _ _ Hv Ak) as [Hk|[Hk Hm]].
  - unfold upgradeMap. rewrite Hk, Ak.
    rewrite lookup_insert_ne by done. rewrite lookup_delete_eq.
    rewrite lookup_insert_eq. done.
  - unfold upgradeMap. rewrite Hk. done.
Qed.

End Step.

Lemma foldl_upgradeMap (m0 : gmap string string) (order : list string) :
  movable m0 ->
  forall m, upgraded m0 m ->
    upgraded m0 (foldl upgradeMap m order)
    /\ forall k, is_Some (m0 !! k) -> allowed02 k = false ->
                 k ∈ order \/ moved m0 m k ->
                 moved m0 (foldl upgradeMap m order) k.
Proof.
  intros Hmov. induction order as [|k' order IH]; intros m Hup; cbn [foldl].
  - split; [exact Hup|]. intros k _ _ [Hin|Hm]; [|exact Hm].
    by apply elem_of_nil in Hin.
  - pose proof (upgradeMap_upgraded m0 m k' Hmov Hup) as Hup'.
    destruct (IH _ Hup') as [Hfin Hmoved]. split; [exact Hfin|].
    intros k H0k Ak [Hin|Hm]; apply Hmoved; try done.
    + apply elem_of_cons in Hin as [->|Hin]; [|by left].
      right. by apply upgradeMap_moves.
    + right. by apply upgradeMap_moved_stable.
Qed.

Lemma required02_allowed (k : string) :
  k ∈ requiredKeywords02 -> allowed02 k = true.
Proof.
  intros H. apply list_elem_of_In in H. cbn in H.
  destruct H as [<-|[<-|[<-|[<-|[]]]]]; reflexivity.
Qed.

Lemma required02_not_moved (k k' : string) :
  k ∈ requiredKeywords02 -> movedName k' = k -> k' = "DATE" /\ k = "ISSUEDATE".
Proof.
  intros H. apply list_elem_of_In in H. cbn in H. unfold movedName.
  destruct (String.eqb_spec k' "DATE") as [->|Hne]; intros E.
  - split; congruence.
  - destruct H as [<-|[<-|[<-|[<-|[]]]]]; discriminate E.
Qed.

Lemma checkIesna02RequiredKeywords_true (m : gmap string string) :
  checkIesna02RequiredKeywords m = true
  <-> forall k, k ∈ requiredKeywords02 -> is_Some (m !! k).
Proof.
  unfold checkIesna02RequiredKeywords. rewrite forallb_forall. unfold hasKey.
  split; intros H k Hk.
  - apply list_elem_of_In in Hk. apply H in Hk.
    by apply bool_decide_eq_true in Hk.
  - apply bool_decide_eq_true. apply H. by apply list_elem_of_In.
Qed.

Lemma lookup_insertIfMissing_eq (k v : string) (m : gmap string string) :
  insertIfMissing k v m !! k = Some (default v (m !! k)).
Proof. rewrite lookup_insertIfMissing. by case_decide. Qed.

Lemma lookup_insertIfMissing_ne (k v j : string) (m : gmap string string) :
  k <> j -> insertIfMissing k v m !! j = m !! j.
Proof. intros H. rewrite lookup_insertIfMissing. by case_decide. Qed.

Section UpgradeFacts.

Context {F : Type}.

Lemma setKeywords_same (i : IES F) (keywords : option (gmap string string)) :
  Keywords i = keywords -> setKeywords keywords i = i.
Proof. intros <-. destruct i; reflexivity. Qed.

Lemma upgradeKeyword_eq (i : IES F) (m : gmap string string) (k : string) :
  Format i = IESFormatLM_63_2002 -> Keywords i = Some m ->
  upgradeKeyword i k = Ok (setKeywords (Some (upgradeMap m k)) i).
Proof.
  intros Hf Hm.
  unfold upgradeKeyword, upgradeMap, isKeywordAllowed, moveKeyword,
    movedName, allowed02.
  rewrite Hf, Hm. change (entries (Some m)) with m. cbn [mapDelete].
  destruct (m !! k); [|by rewrite (setKeywords_same _ _ Hm)].
  destruct (keywordAllowedFor IESFormatLM_63_2002 k); cbn [negb];
    [by rewrite (setKeywords_same _ _ Hm)|].
  destruct (String.eqb k "DATE"); reflexivity.
Qed.

Lemma rangeKeywords_eq (order : list string) :
  forall (i : IES F) (m : gmap string string),
    Format i = IESFormatLM_63_2002 -> Keywords i = Some m ->
    rangeKeywords order i
    = Ok (setKeywords (Some (foldl upgradeMap m order)) i).
Proof.
  induction order as [|k order IH]; intros i m Hf Hm;
    cbn [rangeKeywords foldl].
  - by rewrite (setKeywords_same _ _ Hm).
  - rewrite (upgradeKeyword_eq _ _ _ Hf Hm). cbn [mbind result_bind].
    rewrite (IH _ (upgradeMap m k)) by done. reflexivity.
Qed.

Lemma assignIfMissing_eq (i : IES F) (m : gmap string string)
    (k v : string) :
  Keywords i = Some m ->
  assignIfMissing k v i = Ok (setKeywords (Some (insertIfMissing k v m)) i).
Proof.
  intros Hm. unfold assignIfMissing, insertIfMissing. rewrite Hm.
  change (entries (Some m)) with m. destruct (hasKey m k); [|reflexivity].
  by rewrite (setKeywords_same _ _ Hm).
Qed.

(** The placeholder step on a model whose map is made: it returns, and a
    key of the new table is a key of the old one with its value, or a
    missing required keyword with the placeholder. *)
Lemma addRequiredKeywords_eq (i : IES F) (m : gmap string string) :
  Format i = IESFormatLM_63_2002 -> Keywords i = Some m ->
  exists m1,
    addRequiredKeywords i = Ok (setKeywords (Some m1) i)
    /\ forall j, m1 !! j
                 = match m !! j with
                   | Some v => Some v
                   | None => if bool_decide (j ∈ requiredKeywords02)
                             then Some "unknown" else None
                   end.
Proof.
  intros Hf Hm. unfold addRequiredKeywords, ContainsRequiredKeywords,
    containsRequiredFor.
  rewrite Hf, Hm. cbn -[checkIesna02RequiredKeywords].
  destruct (checkIesna02RequiredKeywords m) eqn:E; cbn [negb].
  - exists m. split; [by rewrite (setKeywords_same _ _ Hm)|].
    intros j. destruct (m !! j) eqn:Ej; [reflexivity|].
    case_bool_decide as Hin; [|reflexivity].
    rewrite checkIesna02RequiredKeywords_true in E.
    apply E in Hin. rewrite Ej in Hin. by destruct Hin.
  - eexists. split.
    { rewrite (assignIfMissing_eq _ _ _ _ Hm). cbn [mbind result_bind].
      rewrite (assignIfMissing_eq (setKeywords (Some _) _) _ _ _ eq_refl). cbn [mbind result_bind].
      rewrite (assignIfMissing_eq (setKeywords (Some _) _) _ _ _ eq_refl). cbn [mbind result_bind].
      rewrite (assignIfMissing_eq (setKeywords (Some _) _) _ _ _ eq_refl). reflexivity. }
    intros j.
    destruct (decide (j ∈ requiredKeywords02)) as [Hin|Hnin].
    + rewrite (bool_decide_eq_true_2 _ Hin).
      apply list_elem_of_In in Hin. cbn in Hin.
      destruct Hin as [<-|[<-|[<-|[<-|[]]]]];
        rewrite ?lookup_insertIfMissing_ne by done;
        rewrite lookup_insertIfMissing_eq;
        rewrite ?lookup_insertIfMissing_ne by done;
        destruct (m !! _); reflexivity.
    + rewrite (bool_decide_eq_false_2 _ Hnin).
      rewrite !lookup_insertIfMissing_ne
        by (intros <-; apply Hnin; set_solver).
      destruct (m !! j); reflexivity.
Qed.

End UpgradeFacts.

Lemma allowed02_long (k : string) : 18 < len k -> allowed02 k = false.
Proof.
  intros H. unfold allowed02, keywordAllowedFor.
  destruct k as [|c k]; [reflexivity|]. cbn [String.eqb].
  apply Z.ltb_lt in H. rewrite H. reflexivity.
Qed.

Lemma foldl_upgradeMap_allowed (m1 : gmap string string)
    (order : list string) :
  movable m1 ->
  (forall k, is_Some (m1 !! k) -> allowed02 k = false -> k ∈ order) ->
  forall k, is_Some (foldl upgradeMap m1 order !! k) -> allowed02 k = true.
Proof.
  intros Hmov Horder k [v Hk].
  destruct (foldl_upgradeMap m1 order Hmov m1 (upgraded_refl _))
    as [Hup Hmoved].
  destruct (allowed02 k) eqn:Ak; [reflexivity|]. exfalso.
  pose proof (upgraded_old _ _ Hup _ _ Hk Ak) as H0.
  assert (Hin : is_Some (m1 !! k)) by eauto.
  destruct (Hmoved k Hin Ak (or_introl (Horder k Hin Ak)) v H0) as [Hnone _].
  congruence.
Qed.

Lemma foldl_upgradeMap_required (m1 : gmap string string)
    (order : list string) :
  movable m1 ->
  (forall k, k ∈ requiredKeywords02 -> is_Some (m1 !! k)) ->
  checkIesna02RequiredKeywords (foldl upgradeMap m1 order) = true.
Proof.
  intros Hmov Hreq.
  destruct (foldl_upgradeMap m1 order Hmov m1 (upgraded_refl _)) as [Hup _].
  apply checkIesna02RequiredKeywords_true. intros k Hk.
  apply (upgraded_present _ _ Hup); [by apply Hreq|by apply required02_allowed].
Qed.

Section UpgradeTheorems.

Context {F : Type}.

(** [Upgrade] on a model that [Validate] accepts and whose map is made:
    it returns, with the format set and, as keyword table, the table after
    the placeholder step run through the rounds of the loop. *)
Lemma Upgrade_eq (order : list string) (i : IES F)
    (table : gmap string string) :
  fst (Validate i true) = true ->
  Keywords i = Some table ->
  exists m1,
    Upgrade order i
    = Ok (setKeywords (Some (foldl upgradeMap m1 order))
            (setFormat IESFormatLM_63_2002 i))
    /\ forall j, m1 !! j
                 = match table !! j with
                   | Some v => Some v
                   | None => if bool_decide (j ∈ requiredKeywords02)
                             then Some "unknown" else None
                   end.
Proof.
  intros Hvalid Htable. unfold Upgrade.
  destruct (Validate i true) as [ok msg]. cbn in Hvalid. subst ok. cbn [negb].
  destruct (addRequiredKeywords_eq (setFormat IESFormatLM_63_2002 i) table
              eq_refl Htable) as (m1 & -> & Hlook).
  cbn [mbind result_bind]. exists m1. split; [|exact Hlook].
  rewrite (rangeKeywords_eq order
             (setKeywords (Some m1) (setFormat IESFormatLM_63_2002 i))
             m1 eq_refl eq_refl).
  reflexivity.
Qed.

(** The table after the placeholder step against the table of the model:
    the refused keywords are those of the model. *)
Lemma placeholders_refused (table m1 : gmap string string) :
  (forall j, m1 !! j
             = match table !! j with
               | Some v => Some v
               | None => if bool_decide (j ∈ requiredKeywords02)
                         then Some "unknown" else None
               end) ->
  forall k, is_Some (m1 !! k) -> allowed02 k = false ->
            m1 !! k = table !! k /\ is_Some (table !! k).
Proof.
  intros Hlook k Hk Ak. rewrite Hlook in *.
  destruct (table !! k) eqn:E; [eauto|].
  case_bool_decide as Hin; [|by destruct Hk].
  apply required02_allowed in Hin. congruence.
Qed.

Lemma placeholders_required (table m1 : gmap string string) :
  (forall j, m1 !! j
             = match table !! j with
               | Some v => Some v
               | None => if bool_decide (j ∈ requiredKeywords02)
                         then Some "unknown" else None
               end) ->
  forall k, k ∈ requiredKeywords02 -> is_Some (m1 !! k).
Proof.
  intros Hlook k Hk. rewrite Hlook. destruct (table !! k); [eauto|].
  rewrite (bool_decide_eq_true_2 _ Hk). eauto.
Qed.

Lemma ContainsRequiredKeywords_2002 (i : IES F) (m : gmap string string) :
  Format i = IESFormatLM_63_2002 -> Keywords i = Some m ->
  ContainsRequiredKeywords i = checkIesna02RequiredKeywords m.
Proof.
  intros Hf Hm. unfold ContainsRequiredKeywords, containsRequiredFor.
  rewrite Hf, Hm. reflexivity.
Qed.

(** C8 (as amended). On a model that [Validate] accepts, whose keyword map
    is made and whose keywords refused by the 2002 revision are all
    shorter than 18 bytes, and for every order of the range that reaches
    each keyword of the model, [Upgrade] returns a model of format
    LM-63-2002 in which every keyword is allowed by that revision and the
    four required ones are present; a refused keyword is gone and its
    value is under its moved name ([ISSUEDATE] for [DATE], the keyword
    with an underscore in front for any other); a required keyword that
    was missing holds the placeholder, unless it is [ISSUEDATE] and the
    model had a [DATE]. *)
Theorem Upgrade_moves_short_keywords (order : list string) (i : IES F)
    (table : gmap string string) :
  fst (Validate i true) = true ->
  Keywords i = Some table ->
  (forall k, is_Some (table !! k) -> k ∈ order) ->
  (forall k, is_Some (table !! k) -> allowed02 k = false -> len k < 18) ->
  exists i' table',
    Upgrade order i = Ok i'
    /\ Keywords i' = Some table'
    /\ Format i' = IESFormatLM_63_2002
    /\ (forall k, is_Some (table' !! k) -> isKeywordAllowed i' k = true)
    /\ ContainsRequiredKeywords i' = true
    /\ (forall k v, table !! k = Some v -> allowed02 k = false ->
                    table' !! k = None /\ table' !! movedName k = Some v)
    /\ (forall k, k ∈ requiredKeywords02 -> table !! k = None ->
                  (k = "ISSUEDATE" -> table !! "DATE" = None) ->
                  table' !! k = Some "unknown").
Proof.
  intros Hvalid Htable Horder Hshort.
  destruct (Upgrade_eq order i table Hvalid Htable) as (m1 & -> & Hlook).
  pose proof (placeholders_refused _ _ Hlook) as Hback.
  assert (Hmov : movable m1).
  { intros k Hk Ak. destruct (Hback k Hk Ak) as [_ Hi].
    apply allowed02_movedName; auto. }
  destruct (foldl_upgradeMap m1 order Hmov m1 (upgraded_refl _))
    as [Hup Hmoved].
  exists (setKeywords (Some (foldl upgradeMap m1 order))
            (setFormat IESFormatLM_63_2002 i)), (foldl upgradeMap m1 order).
  split; [reflexivity|]. split; [reflexivity|]. split; [reflexivity|].
  split.
  { apply (foldl_upgradeMap_allowed m1 order Hmov).
    intros k Hk Ak. apply Horder. by apply Hback. }
  split.
  { rewrite (ContainsRequiredKeywords_2002
               (setKeywords (Some (foldl upgradeMap m1 order))
                  (setFormat IESFormatLM_63_2002 i))
               (foldl upgradeMap m1 order) eq_refl eq_refl).
    apply (foldl_upgradeMap_required m1 order Hmov).
    by apply (placeholders_required table). }
  split.
  { intros k v Hk Ak.
    assert (H0 : m1 !! k = Some v) by (rewrite Hlook, Hk; reflexivity).
    apply (Hmoved k (ex_intro _ v H0) Ak); [|exact H0].
    left. apply Horder. eauto. }
  intros k Hreq Hnone Hdate.
  apply (upgraded_kept _ _ Hup).
  - rewrite Hlook, Hnone. rewrite (bool_decide_eq_true_2 _ Hreq). reflexivity.
  - by apply required02_allowed.
  - intros k' Hk' Ak' E.
    destruct (required02_not_moved _ _ Hreq E) as [-> ->].
    destruct (Hback "DATE" Hk' Ak') as [_ [x Hx]].
    rewrite (Hdate eq_refl) in Hx. discriminate.
Qed.

End UpgradeTheorems.

Lemma upgradeMap_keeps_long (m : gmap string string) (k' : string) :
  (exists k, is_Some (m !! k) /\ 18 <= len k /\ allowed02 k = false) ->
  exists k, is_Some (upgradeMap m k' !! k) /\ 18 <= len k
            /\ allowed02 k = false.
Proof.
  intros (k & Hk & Hlen & Ak).
  destruct (upgradeMap_cases m k') as [->|(v' & Hk' & Ak' & ->)]; [eauto|].
  destruct (decide (k = k')) as [->|Hne].
  - exists (movedName k').
    assert (movedName k' = String "_" k') as ->.
    { unfold movedName.
      destruct (String.eqb_spec k' "DATE") as [->|]; [|reflexivity].
      vm_compute in Hlen. by destruct Hlen. }
    rewrite lookup_insert_eq. split; [eauto|].
    assert (18 < len (String "_" k'))
      by (unfold len in *; cbn [String.length]; lia).
    split; [lia|]. by apply allowed02_long.
  - exists k. split; [|done].
    destruct (decide (movedName k' = k)) as [<-|Hne'].
    + rewrite lookup_insert_eq. eauto.
    + rewrite lookup_insert_ne by done. rewrite lookup_delete_ne by done. done.
Qed.

Lemma foldl_upgradeMap_keeps_long (order : list string) :
  forall m : gmap string string,
    (exists k, is_Some (m !! k) /\ 18 <= len k /\ allowed02 k = false) ->
    exists k, is_Some (foldl upgradeMap m order !! k) /\ 18 <= len k
              /\ allowed02 k = false.
Proof.
  induction order as [|k' order IH]; intros m H; cbn [foldl]; [exact H|].
  apply IH. by apply upgradeMap_keeps_long.
Qed.

(** C8 (as stated) fails, on two models that [Validate] accepts.
    - A model with a keyword of 18 bytes outside the 2002 list keeps,
      whatever the order of the range, a keyword the 2002 revision
      refuses: the underscore makes the moved name longer than the 18
      bytes a keyword may have.
    - A 1995 model whose keyword map was never made panics at the first
      placeholder. *)
Lemma Upgrade_keeps_overlong_keyword :
  (fst (Validate overlongModel true) = true
   /\ forall order, exists i' k,
       Upgrade order overlongModel = Ok i'
       /\ is_Some (entries (Keywords i') !! k)
       /\ isKeywordAllowed i' k = false)
  /\ (fst (Validate nilMapModel true) = true
      /\ forall order, Upgrade order nilMapModel = Panic AssignToNilMap).
Proof.
  split.
  - split; [vm_compute; reflexivity|]. intros order.
    unfold Upgrade.
    replace (Validate overlongModel true) with (true, "")
      by (vm_compute; reflexivity).
    cbn [negb].
    destruct (addRequiredKeywords_eq
                (setFormat IESFormatLM_63_2002 overlongModel)
                (<[overlong := "v"]> ∅) eq_refl eq_refl) as (m1 & -> & Hlook).
    cbn [mbind result_bind].
    rewrite (rangeKeywords_eq order
               (setKeywords (Some m1)
                  (setFormat IESFormatLM_63_2002 overlongModel))
               m1 eq_refl eq_refl).
    destruct (foldl_upgradeMap_keeps_long order m1) as (k & Hk & _ & Ak).
    { exists overlong. split; [|split].
      - rewrite Hlook. vm_compute. eauto.
      - vm_compute. discriminate.
      - vm_compute. reflexivity. }
    exists (setKeywords (Some (foldl upgradeMap m1 order))
              (setKeywords (Some m1)
                 (setFormat IESFormatLM_63_2002 overlongModel))), k.
    split; [reflexivity|]. split; [exact Hk|exact Ak].
  - split; [vm_compute; reflexivity|]. intros order.
    unfold Upgrade.
    replace (Validate nilMapModel true) with (true, "")
      by (vm_compute; reflexivity).
    vm_compute. reflexivity.
Qed.

Lemma Upgrade_moves_short_keywords_witness :
  exists i' table',
    Upgrade ["BLOCK"; "DATE"] legacyModel = Ok i'
    /\ Keywords i' = Some table'
    /\ Format i' = IESFormatLM_63_2002
    /\ (forall k, is_Some (table' !! k) -> isKeywordAllowed i' k = true)
    /\ ContainsRequiredKeywords i' = true
    /\ (forall k v,
          (<["DATE" := "2020"]> (<["BLOCK" := "b"]> ∅) : gmap string string)
            !! k = Some v ->
          allowed02 k = false ->
          table' !! k = None /\ table' !! movedName k = Some v)
    /\ (forall k, k ∈ requiredKeywords02 ->
          (<["DATE" := "2020"]> (<["BLOCK" := "b"]> ∅) : gmap string string)
            !! k = None ->
          (k = "ISSUEDATE" ->
           (<["DATE" := "2020"]> (<["BLOCK" := "b"]> ∅)
              : gmap string string) !! "DATE" = None) ->
          table' !! k = Some "unknown").
Proof.
  apply (Upgrade_moves_short_keywords ["BLOCK"; "DATE"] legacyModel
           (<["DATE" := "2020"]> (<["BLOCK" := "b"]> ∅))).
  - reflexivity.
  - reflexivity.
  - intros k [v H].
    apply lookup_insert_Some in H as [[<- _]|[_ H]]; [set_solver|].
    apply lookup_insert_Some in H as [[<- _]|[_ H]]; [set_solver|].
    rewrite lookup_empty in H. discriminate H.
  - intros k [v H] _.
    apply lookup_insert_Some in H as [[<- _]|[_ H]]; [vm_compute; reflexivity|].
    apply lookup_insert_Some in H as [[<- _]|[_ H]]; [vm_compute; reflexivity|].
    rewrite lookup_empty in H. discriminate H.
Defined.

(** The run behind the witness: the date is renamed, the block marker gets
    its underscore, the three other required keywords get the placeholder. *)
Example Upgrade_legacyModel :
  exists i',
    Upgrade ["BLOCK"; "DATE"] legacyModel = Ok i'
    /\ entries (Keywords i') !! "ISSUEDATE" = Some "2020"
    /\ entries (Keywords i') !! "_BLOCK" = Some "b"
    /\ entries (Keywords i') !! "TEST" = Some "unknown"
    /\ entries (Keywords i') !! "TESTLAB" = Some "unknown"
    /\ entries (Keywords i') !! "MANUFAC" = Some "unknown"
    /\ entries (Keywords i') !! "DATE" = None
    /\ entries (Keywords i') !! "BLOCK" = None
    /\ size (entries (Keywords i')) = 5%nat.
Proof. eexists. vm_compute. repeat split. Qed.

(** An invalid model is refused and nothing is changed. *)
Example Upgrade_invalid :
  Upgrade [] (setFormat IESFormatLM_63_1991 nilMapModel)
  = Err (ErrValidate "required keywords not present").
Proof. vm_compute. reflexivity. Qed.

(** ** [Upgrade] after [NewIES] *)

Lemma allowed_refused02_short (format k : string) :
  parsedFormat format ->
  keywordAllowedFor format k = true -> allowed02 k = false -> len k < 18.
Proof.
  intros Hf Hallowed H02.
  unfold allowed02 in H02. unfold keywordAllowedFor in *.
  destruct (String.eqb k ""); [discriminate|].
  destruct (18 <? len k); [discriminate|].
  destruct Hf as [-> | [-> | ->]]; cbn -[keywordAllowedByIesna91
    keywordAllowedByIesna95 keywordAllowedByIesna02 startsWithUnderscore] in *;
    destruct (startsWithUnderscore k); try discriminate.
  - unfold keywordAllowedByIesna91 in Hallowed.
    apply existsb_exists in Hallowed. destruct Hallowed as (x & Hin & Heq).
    apply String.eqb_eq in Heq. subst x. cbn in Hin.
    repeat (destruct Hin as [<- | Hin];
            [first [discriminate H02 | vm_compute; reflexivity]|]).
    contradiction.
  - unfold keywordAllowedByIesna95 in Hallowed.
    apply existsb_exists in Hallowed. destruct Hallowed as (x & Hin & Heq).
    apply String.eqb_eq in Heq. subst x. cbn in Hin.
    repeat (destruct Hin as [<- | Hin];
            [first [discriminate H02 | vm_compute; reflexivity]|]).
    contradiction.
  - congruence.
Qed.

Section ParserInvariant.

Context {F : Type}.
Variable ParseFloat : string -> option F.
Variable zero : F.

Lemma checkKeywordBlock_keeps (i j : IES F) (keyword : string) (ok : bool) :
  checkKeywordBlock i keyword = (ok, j) ->
  Keywords j = Keywords i /\ Format j = Format i
  /\ lastKeyword j = lastKeyword i.
Proof.
  rewrite checkKeywordBlock_spec. intros H.
  destruct (String.eqb keyword "BLOCK"), (String.eqb keyword "ENDBLOCK"),
    (insideBlock i); injection H as _ <-; repeat split.
Qed.

Lemma keywordsChecked_insert (i : IES F) (table : gmap string string)
    (k v last : string) :
  Keywords i = Some table ->
  (forall k', is_Some (table !! k') -> isKeywordAllowed i k' = true) ->
  isKeywordAllowed i k = true ->
  last = "" \/ last = k \/ is_Some (table !! last) ->
  keywordsChecked
    (setLastKeyword last (setKeywords (Some (<[k := v]> table)) i)).
Proof.
  intros Hmap Hall Hk Hlast. exists (<[k := v]> table).
  split; [reflexivity|]. split.
  - intros k' Hk'. apply lookup_insert_is_Some in Hk' as [<-|[_ Hk']].
    + exact Hk.
    + apply Hall, Hk'.
  - cbn. destruct Hlast as [->|[->|Hlast]]; [by left| |].
    + right. rewrite lookup_insert_eq. eauto.
    + right. apply lookup_insert_is_Some.
      destruct (decide (k = last)); [by left|by right].
Qed.

Lemma parseKeywordLine_checked (i i' : IES F) (line : string) :
  keywordsChecked i -> parseKeywordLine i line = Ok i' ->
  keywordsChecked i' /\ Format i' = Format i.
Proof.
  intros (table & Hmap & Hall & Hlast). unfold parseKeywordLine.
  destruct (Regexp.keywordRegex line) as [[keyword value]|]; [|discriminate].
  destruct (isKeywordAllowed i keyword) eqn:Hk; [|discriminate]. cbn [negb].
  destruct (checkKeywordBlock i keyword) as [ok j] eqn:Hb.
  apply checkKeywordBlock_keeps in Hb as (Hkj & Hfj & Hlj).
  destruct ok; [|discriminate]. cbn [negb].
  assert (Hallj : forall k', is_Some (table !! k') ->
                             isKeywordAllowed j k' = true).
  { intros k' Hk'. unfold isKeywordAllowed. rewrite Hfj. by apply Hall. }
  assert (Hmapj : Keywords j = Some table) by congruence.
  destruct (String.eqb keyword "MORE").
  - destruct ((Z.of_nat (size (entries (Keywords j))) =? 0)
              || String.eqb (lastKeyword j) "") eqn:E; [discriminate|].
    apply orb_false_iff in E as [_ E]. apply String.eqb_neq in E.
    rewrite Hmapj. cbn [mapAssign mbind result_bind].
    intros H. injection H as <-. split; [|exact Hfj].
    rewrite Hlj in *. destruct Hlast as [?|Hin]; [done|].
    rewrite <- (setKeywords_same
                  (setKeywords _ j) _ eq_refl).
    replace (setKeywords _ (setKeywords _ j))
      with (setLastKeyword (lastKeyword i)
              (setKeywords
                 (Some (<[lastKeyword i
                          := appendedValue (Some table) (lastKeyword i) value]>
                          table)) j)).
    2:{ destruct j; cbn in *. subst. reflexivity. }
    apply keywordsChecked_insert; auto.
  - rewrite Hmapj. cbn [mapAssign mbind result_bind].
    intros H. injection H as <-. split; [|exact Hfj].
    apply keywordsChecked_insert; auto.
    unfold isKeywordAllowed. rewrite Hfj. exact Hk.
Qed.

Lemma parseKeywordExtraLine_checked (i i' : IES F) (line : string) :
  keywordsChecked i -> parseKeywordExtraLine i line = Ok i' ->
  keywordsChecked i' /\ Format i' = Format i.
Proof.
  intros (table & Hmap & Hall & Hlast). unfold parseKeywordExtraLine.
  destruct (Regexp.keywordExtraRegex line) as [value|]; [|discriminate].
  destruct ((Z.of_nat (size (entries (Keywords i))) =? 0)
            || String.eqb (lastKeyword i) "") eqn:E; [discriminate|].
  apply orb_false_iff in E as [_ E]. apply String.eqb_neq in E.
  rewrite Hmap. cbn [mapAssign mbind result_bind].
  intros H. injection H as <-. split; [|reflexivity].
  destruct Hlast as [?|Hin]; [done|].
  replace (setKeywords _ i)
    with (setLastKeyword (lastKeyword i)
            (setKeywords
               (Some (<[lastKeyword i
                        := appendedValue (Some table) (lastKeyword i) value]>
                        table)) i)).
  2:{ destruct i; reflexivity. }
  apply keywordsChecked_insert; auto.
Qed.

Lemma parseTiltLine_checked (i i' : IES F) (line : string) :
  keywordsChecked i -> parseTiltLine i line = Ok i' ->
  keywordsChecked i' /\ Format i' = Format i.
Proof.
  intros Hi. unfold parseTiltLine.
  destruct (Regexp.tiltRegex line) as [value|]; [|discriminate].
  destruct (String.eqb value "INCLUDE");
    [intros H; injection H as <-; split; [exact Hi|reflexivity]|].
  destruct (String.eqb value "NONE"); [|discriminate].
  intros H; injection H as <-; split; [exact Hi|reflexivity].
Qed.

Lemma headerStep_checked (i i' : IES F) (line : string) (t : bool) :
  keywordsChecked i -> headerStep i line = Ok (i', t) ->
  keywordsChecked i' /\ Format i' = Format i.
Proof.
  intros Hi. unfold headerStep.
  destruct (isKeywordLine line).
  { destruct (parseKeywordLine i line) eqn:E; cbn; try discriminate.
    intros H. injection H as <- _. by eapply parseKeywordLine_checked. }
  destruct (isTiltLine line).
  { destruct (negb (ContainsRequiredKeywords i)); [discriminate|].
    destruct (parseTiltLine i line) eqn:E; cbn; try discriminate.
    intros H. injection H as <- _. by eapply parseTiltLine_checked. }
  destruct (isKeywordExtraLine line); [|discriminate].
  destruct (parseKeywordExtraLine i line) eqn:E; cbn; try discriminate.
  intros H. injection H as <- _. by eapply parseKeywordExtraLine_checked.
Qed.

Lemma headerLoop_checked (rest : list string) :
  forall (i i' : IES F) (line line' : string) (sc : Scanner),
    keywordsChecked i -> headerLoop i line rest = Ok (i', line', sc) ->
    keywordsChecked i' /\ Format i' = Format i.
Proof.
  induction rest as [|l rest IH]; intros i i' line line' sc Hi;
    cbn [headerLoop];
    destruct (headerStep i line) as [[j t]| |] eqn:E; cbn; try discriminate.
  apply (headerStep_checked _ _ _ _ Hi) in E as [Hj Hf].
  destruct (checkLineLength j l); cbn; try discriminate.
  destruct t.
  - intros H. injection H as <- _ _. by split.
  - intros H. apply (IH _ _ _ _ _ Hj) in H as [Hi' Hf']. split; congruence.
Qed.

Lemma parseData_keeps (ies i : IES F) (line : string) (scanner : Scanner) :
  parseData ParseFloat ies line scanner = Ok i ->
  Keywords i = Keywords ies /\ Format i = Format ies
  /\ lastKeyword i = lastKeyword ies.
Proof.
  unfold parseData. intros H.
  repeat (step_call H; split_pairs).
  injection H as <-. repeat split.
Qed.

(** Every model the parser returns has its keyword map made, a format of
    one of the three revisions, and only keywords that the format allows:
    those the 2002 revision refuses are shorter than 18 bytes. *)
Lemma NewIES_keywords (lines : list string) (strict : bool)
    (warnings : list warning) (i : IES F) :
  NewIES ParseFloat zero lines strict = (warnings, Ok i) ->
  exists table,
    Keywords i = Some table
    /\ forall k, is_Some (table !! k) -> allowed02 k = false -> len k < 18.
Proof.
  unfold NewIES. destruct (validateStringFromLine _ 16 strict) as [w first].
  intros H. injection H as _ H.
  step_call H. split_pairs. step_call H. step_call H. split_pairs.
  step_call H. split_pairs.
  apply parseData_keeps in H as (Hk & Hf & _).
  match goal with
  | E : parseFormatVersion _ _ = Ok ?j |- _ =>
      assert (Hj : parsedFormat (Format j) /\ lastKeyword j = "")
  end.
  { match goal with
    | E : parseFormatVersion _ _ = Ok _ |- _ =>
        unfold parseFormatVersion in E;
        repeat match type of E with
               | (if ?c then _ else _) = _ => destruct c
               end;
        try discriminate E; injection E as <-
    end; (split; [unfold parsedFormat; cbn; auto|reflexivity]). }
  destruct Hj as [Hpf Hlast].
  match goal with
  | E : headerLoop _ _ _ = Ok _ |- _ =>
      apply headerLoop_checked in E as [(table & Hmap & Hall & _) Hf']
  end.
  2:{ exists ∅. split; [reflexivity|]. split; [|left; exact Hlast].
      intros k [v Hv]. rewrite lookup_empty in Hv. discriminate. }
  exists table. split; [congruence|].
  intros k Hin H02.
  eapply allowed_refused02_short; [|apply Hall, Hin|exact H02].
  rewrite Hf'. exact Hpf.
Qed.

End ParserInvariant.

Section ParserValid.

Context {F : Type}.
Variable ParseFloat : string -> option F.
Variable zero : F.

Lemma convertStringSliceToFloat_length (input : list string) :
  forall out : list F,
    convertStringSliceToFloat ParseFloat input = Ok out ->
    length out = length input.
Proof.
  induction input as [|w ws IH]; intros out H; cbn in H.
  - by injection H as <-.
  - step_call H. step_call H. injection H as <-. cbn. f_equal. by apply IH.
Qed.

Lemma fillRow_length (columns : nat) (values : list F) :
  forall (c c' : Z) (row : list F),
    fillRow columns values c = Ok (row, c') -> length row = columns.
Proof.
  induction columns as [|n IH]; intros c c' row H; cbn in H.
  - by injection H as <- _.
  - step_call H. step_call H. split_pairs. injection H as <- _.
    cbn. f_equal. eapply IH. eassumption.
Qed.

Lemma fillRows_length (rows columns : nat) (values : list F) :
  forall (c : Z) (grid : list (list F)),
    fillRows rows columns values c = Ok grid ->
    length grid = rows /\ Forall (fun row => length row = columns) grid.
Proof.
  induction rows as [|n IH]; intros c grid H; cbn in H.
  - injection H as <-. by split.
  - step_call H. split_pairs. step_call H. injection H as <-.
    match goal with
    | E : fillRows _ _ _ _ = Ok _ |- _ => apply IH in E as [Hl Hr]
    end.
    match goal with
    | E : fillRow _ _ _ = Ok _ |- _ => apply fillRow_length in E
    end.
    split; [cbn; by f_equal|by constructor].
Qed.

Lemma fillCandela_length (horizontal vertical : Z) (values : list F)
    (grid : list (list F)) :
  fillCandela horizontal vertical values = Ok grid ->
  horizontal = Z.of_nat (length grid)
  /\ forallb (fun c => vertical =? Z.of_nat (length c)) grid = true.
Proof.
  unfold fillCandela. destruct (Z.ltb_spec horizontal 0); [discriminate|].
  destruct (Z.ltb_spec 0 horizontal); cbn [andb].
  - destruct (Z.ltb_spec vertical 0); [discriminate|].
    intros H'. apply fillRows_length in H' as [Hl Hr]. split; [lia|].
    apply forallb_forall. intros row Hin.
    rewrite Forall_forall in Hr. apply list_elem_of_In in Hin.
    apply Hr in Hin. lia.
  - intros H'. apply fillRows_length in H' as [Hl _].
    assert (horizontal = 0) as -> by lia.
    destruct grid; [by split|discriminate].
Qed.

Lemma parseData_counts (ies i : IES F) (line : string) (scanner : Scanner) :
  parseData ParseFloat ies line scanner = Ok i ->
  NumberVerticalAngles i = Z.of_nat (length (VerticalAngles i))
  /\ NumberHorizontalAngles i = Z.of_nat (length (HorizontalAngles i))
  /\ NumberHorizontalAngles i = Z.of_nat (length (CandelaValues i))
  /\ forallb (fun c => NumberVerticalAngles i =? Z.of_nat (length c))
             (CandelaValues i) = true.
Proof.
  unfold parseData. intros H.
  repeat (step_call H; split_pairs).
  injection H as <-. cbn.
  repeat match goal with
         | E : getWordListFromInput _ _ _ = Ok _ |- _ =>
             apply getWordListFromInput_length in E
         | E : convertStringSliceToFloat _ _ = Ok _ |- _ =>
             apply convertStringSliceToFloat_length in E
         | E : fillCandela _ _ _ = Ok _ |- _ =>
             apply fillCandela_length in E as [? ?]
         end.
  repeat split; try assumption; lia.
Qed.

Lemma headerLoop_required (rest : list string) :
  forall (i i' : IES F) (line line' : string) (sc : Scanner),
    headerLoop i line rest = Ok (i', line', sc) ->
    ContainsRequiredKeywords i' = true.
Proof.
  induction rest as [|l rest IH]; intros i i' line line' sc;
    cbn [headerLoop];
    destruct (headerStep i line) as [[j t]| |] eqn:E; cbn; try discriminate.
  destruct (checkLineLength j l); cbn; try discriminate.
  destruct t; [|apply IH].
  intros H. injection H as <- _ _.
  unfold headerStep in E.
  destruct (isKeywordLine line).
  { destruct (parseKeywordLine i line); cbn in E; try discriminate. }
  destruct (isTiltLine line).
  { destruct (ContainsRequiredKeywords i) eqn:Hreq; [|discriminate].
    cbn [negb] in E. unfold parseTiltLine in E.
    destruct (Regexp.tiltRegex line) as [value|]; [|discriminate].
    destruct (String.eqb value "INCLUDE");
      [cbn in E; injection E as <-; exact Hreq|].
    destruct (String.eqb value "NONE"); [|discriminate].
    cbn in E; injection E as <-; exact Hreq. }
  destruct (isKeywordExtraLine line); [|discriminate].
  destruct (parseKeywordExtraLine i line); cbn in E; discriminate.
Qed.

(** Every model the parser returns passes [Validate]. *)
Lemma NewIES_valid (lines : list string) (strict : bool)
    (warnings : list warning) (i : IES F) :
  NewIES ParseFloat zero lines strict = (warnings, Ok i) ->
  Validate i true = (true, "").
Proof.
  unfold NewIES. destruct (validateStringFromLine _ 16 strict) as [w first].
  intros H. injection H as _ H.
  step_call H. split_pairs. step_call H. step_call H. split_pairs.
  step_call H. split_pairs.
  pose proof (parseData_keeps _ _ _ _ _ H) as (Hk & Hf & _).
  apply parseData_counts in H as (Hv & Hh & Hc & Hrows).
  match goal with
  | E : headerLoop _ _ _ = Ok _ |- _ => apply headerLoop_required in E
  end.
  unfold Validate.
  replace (ContainsRequiredKeywords i) with true.
  2:{ symmetry. unfold ContainsRequiredKeywords in *. by rewrite Hk, Hf. }
  cbn [negb]. rewrite Hrows. rewrite <- Hc, <- Hh, <- Hv.
  rewrite !Z.eqb_refl. reflexivity.
Qed.

End ParserValid.

Section UpgradeParsed.

Context {F : Type}.
Variable ParseFloat : string -> option F.
Variable zero : F.

(** X8. The hypotheses of the statement on [Upgrade] hold of every model the
    parser returns: for any order of the range that reaches the keywords
    the 2002 revision refuses, [Upgrade] of a parsed model returns a model
    of format LM-63-2002 with every keyword allowed and the required ones
    present. *)
Lemma Upgrade_of_parsed (lines : list string) (strict : bool)
    (warnings : list warning) (i : IES F) (order : list string) :
  NewIES ParseFloat zero lines strict = (warnings, Ok i) ->
  (forall k, is_Some (entries (Keywords i) !! k) -> allowed02 k = false ->
             k ∈ order) ->
  exists i',
    Upgrade order i = Ok i'
    /\ Format i' = IESFormatLM_63_2002
    /\ (forall k, is_Some (entries (Keywords i') !! k) ->
                  isKeywordAllowed i' k = true)
    /\ ContainsRequiredKeywords i' = true.
Proof.
  intros Hparse Horder.
  pose proof (NewIES_valid _ _ _ _ _ _ Hparse) as Hvalid.
  destruct (NewIES_keywords _ _ _ _ _ _ Hparse) as (table & Htable & Hshort).
  destruct (Upgrade_eq order i table) as (m1 & -> & Hlook);
    [by rewrite Hvalid|exact Htable|].
  pose proof (placeholders_refused _ _ Hlook) as Hback.
  assert (Hmov : movable m1).
  { intros k Hk Ak. destruct (Hback k Hk Ak) as [_ Hi].
    apply allowed02_movedName; auto. }
  exists (setKeywords (Some (foldl upgradeMap m1 order))
            (setFormat IESFormatLM_63_2002 i)).
  split; [reflexivity|]. split; [reflexivity|]. split.
  - apply (foldl_upgradeMap_allowed m1 order Hmov).
    intros k Hk Ak. apply Horder; [|exact Ak].
    rewrite Htable. by apply Hback.
  - rewrite (ContainsRequiredKeywords_2002
               (setKeywords (Some (foldl upgradeMap m1 order))
                  (setFormat IESFormatLM_63_2002 i))
               (foldl upgradeMap m1 order) eq_refl eq_refl).
    apply (foldl_upgradeMap_required m1 order Hmov).
    by apply (placeholders_required table).
Qed.

End UpgradeParsed.

(** ** Line lengths *)

Section LineLength.

Context {F : Type}.

(** C7 (as amended). The next line of the input, one byte over the length
    the reader tests against:
    - [fetchValidLineFromFile] tests the untrimmed line against the
      data-line length of the format; without strict parsing it returns
      the line, with strict parsing it returns the length error;
    - [validateStringFromLine] tests the trimmed line against the maximum
      it is given; without [strict] it returns the trimmed line and logs
      one warning, with [strict] it returns the length error. *)
Theorem line_one_over_length (ies : IES F) (sc : Scanner) (l : string)
    (rest : list string) (maxLength : Z) :
  pending sc = l :: rest ->
  (len l = maxDataLineLength ies + 1 ->
   (strictParsing ies = false ->
    fetchValidLineFromFile ies sc = Ok (l, mkScanner l rest))
   /\ (strictParsing ies = true ->
       fetchValidLineFromFile ies sc = Err (ErrLineTooLong l)))
  /\ (len (Bytes.TrimSpace l) = maxLength + 1 ->
      validateStringFromLine sc maxLength false
      = ([WarnLineTooLong (maxLength + 1) maxLength (Bytes.TrimSpace l)],
         Ok (Bytes.TrimSpace l, mkScanner l rest))
      /\ validateStringFromLine sc maxLength true
         = ([], Err (ErrLineTooLong (Bytes.TrimSpace l)))).
Proof.
  intros Hsc. split.
  - intros Hlen.
    assert (Hover : (maxDataLineLength ies <? len l) = true)
      by (apply Z.ltb_lt; lia).
    unfold fetchValidLineFromFile, Scan, checkLineLength. rewrite Hsc.
    cbn [Text]. rewrite Hover.
    split; intros ->; reflexivity.
  - intros Hlen.
    assert (Hover : (maxLength <? len (Bytes.TrimSpace l)) = true)
      by (apply Z.ltb_lt; lia).
    unfold validateStringFromLine, Scan. rewrite Hsc.
    cbn [Text]. rewrite Hover, Hlen. split; reflexivity.
Qed.

End LineLength.

Lemma line_one_over_length_witness :
  ((strictParsing (stateOf IESFormatLM_63_1995 ∅ false "") = false ->
    fetchValidLineFromFile (stateOf IESFormatLM_63_1995 ∅ false "")
      (mkScanner "IESNA:LM-63-1995" ["[TEST] " +:+ xs 124; "TILT=NONE"])
    = Ok ("[TEST] " +:+ xs 124,
          mkScanner ("[TEST] " +:+ xs 124) ["TILT=NONE"]))
   /\ (strictParsing (stateOf IESFormatLM_63_1995 ∅ false "") = true ->
       fetchValidLineFromFile (stateOf IESFormatLM_63_1995 ∅ false "")
         (mkScanner "IESNA:LM-63-1995" ["[TEST] " +:+ xs 124; "TILT=NONE"])
       = Err (ErrLineTooLong ("[TEST] " +:+ xs 124))))
  /\ (validateStringFromLine
        (mkScanner "" ["  IESNA:LM-63-1995x  "; "TILT=NONE"]) 16 false
      = ([WarnLineTooLong (16 + 1) 16
            (Bytes.TrimSpace "  IESNA:LM-63-1995x  ")],
         Ok (Bytes.TrimSpace "  IESNA:LM-63-1995x  ",
             mkScanner "  IESNA:LM-63-1995x  " ["TILT=NONE"]))
      /\ validateStringFromLine
           (mkScanner "" ["  IESNA:LM-63-1995x  "; "TILT=NONE"]) 16 true
         = ([], Err (ErrLineTooLong
                       (Bytes.TrimSpace "  IESNA:LM-63-1995x  ")))).
Proof.
  split.
  - apply (line_one_over_length
             (stateOf IESFormatLM_63_1995 ∅ false "")
             (mkScanner "IESNA:LM-63-1995" ["[TEST] " +:+ xs 124; "TILT=NONE"])
             ("[TEST] " +:+ xs 124) ["TILT=NONE"] 0); reflexivity.
  - apply (line_one_over_length
             (stateOf IESFormatLM_63_1995 ∅ false "")
             (mkScanner "" ["  IESNA:LM-63-1995x  "; "TILT=NONE"])
             "  IESNA:LM-63-1995x  " ["TILT=NONE"] 16); reflexivity.
Defined.

(** C7 (as stated) fails. Under the 1995 header the data-line length is
    130 bytes and the keyword-line length 80 bytes.
    - A keyword line of 131 bytes read without strict parsing is accepted
      and the file parses, but nothing is logged: only the reader of the
      first line warns.
    - A keyword line of 81 bytes, one over the keyword-line length, is
      accepted with strict parsing: the keyword loop tests against the
      data-line length. *)
Lemma NewIES_over_length_keyword_line :
  (len ("[TEST] " +:+ xs 124)
   = maxDataLineLength (stateOf IESFormatLM_63_1995 ∅ false "") + 1
   /\ fst (NewIES tokenFloat "0"
             (["IESNA:LM-63-1995"; "[TEST] " +:+ xs 124; "TILT=NONE"]
              ++ smallData) false) = []
   /\ isOk (snd (NewIES tokenFloat "0"
                   (["IESNA:LM-63-1995"; "[TEST] " +:+ xs 124; "TILT=NONE"]
                    ++ smallData) false)) = true)
  /\ (len ("[TEST] " +:+ xs 74)
      = maxKeywordLineLength (stateOf IESFormatLM_63_1995 ∅ false "") + 1
      /\ isOk (snd (NewIES tokenFloat "0"
                      (["IESNA:LM-63-1995"; "[TEST] " +:+ xs 74; "TILT=NONE"]
                       ++ smallData) true)) = true).
Proof. vm_compute. repeat split. Qed.

(** The same file read with strict parsing fails on the 131-byte line, as
    the amended statement says. *)
Example NewIES_strict_rejects_long_keyword_line :
  snd (NewIES tokenFloat "0"
         (["IESNA:LM-63-1995"; "[TEST] " +:+ xs 124; "TILT=NONE"]
          ++ smallData) true)
  = Err (ErrLineTooLong ("[TEST] " +:+ xs 124)).
Proof. vm_compute. reflexivity. Qed.

(** The lines of the data block are read by [getWordListFromInput], which
    has no length test: a line of 133 bytes there passes strict parsing. *)
Example NewIES_over_length_data_line_strict :
  len ("10 " +:+ xs 130)%string = 133
  /\ isOk (snd (NewIES tokenFloat "0"
            ["IESNA:LM-63-1995"; "[TEST] t"; "TILT=NONE";
             "1 1000 1 2 1 1 2 0 0 0"; "1 1 10"; "0 90"; "0";
             "10 " +:+ xs 130] true)) = true.
Proof. vm_compute. repeat split. Qed.

(** ** What the parser returns *)

Section ParsedModel.

Context {F : Type}.
Variable ParseFloat : string -> option F.
Variable zero : F.

Lemma checkLineLength_Ok (i : IES F) (text line : string) :
  checkLineLength i text = Ok line -> line = text.
Proof.
  unfold checkLineLength. destruct (_ && _); [discriminate|].
  intros H. by injection H as <-.
Qed.

Lemma parseTiltLine_Ok (i i' : IES F) (line : string) :
  parseTiltLine i line = Ok i' ->
  (Tilt i' = IESTiltInclude \/ Tilt i' = IESTiltNone)
  /\ isTiltLine line = true.
Proof.
  unfold parseTiltLine, isTiltLine.
  destruct (Regexp.tiltRegex line) as [value|] eqn:E; [|discriminate].
  intros H. split; [|apply bool_decide_eq_true; eauto].
  destruct (String.eqb value "INCLUDE"); [injection H as <-; by left|].
  destruct (String.eqb value "NONE"); [injection H as <-; by right|].
  discriminate.
Qed.

Lemma headerStep_tilt (i i' : IES F) (line : string) :
  headerStep i line = Ok (i', true) ->
  (Tilt i' = IESTiltInclude \/ Tilt i' = IESTiltNone)
  /\ isTiltLine line = true.
Proof.
  unfold headerStep.
  destruct (isKeywordLine line).
  { destruct (parseKeywordLine i line); cbn; discriminate. }
  destruct (isTiltLine line).
  { destruct (negb (ContainsRequiredKeywords i)); [discriminate|].
    destruct (parseTiltLine i line) eqn:E; cbn; try discriminate.
    intros H. injection H as <-. by apply parseTiltLine_Ok in E as [? _]. }
  destruct (isKeywordExtraLine line); [|discriminate].
  destruct (parseKeywordExtraLine i line); cbn; discriminate.
Qed.

(** The keyword loop ends only on a tilt line with the value INCLUDE or
    NONE. *)
Lemma headerLoop_tilt (rest : list string) :
  forall (i i' : IES F) (line line' : string) (sc : Scanner),
    headerLoop i line rest = Ok (i', line', sc) ->
    (Tilt i' = IESTiltInclude \/ Tilt i' = IESTiltNone)
    /\ exists l, l ∈ line :: rest /\ isTiltLine l = true.
Proof.
  induction rest as [|l rest IH]; intros i i' line line' sc;
    cbn [headerLoop];
    destruct (headerStep i line) as [[j t]| |] eqn:E; cbn; try discriminate.
  destruct (checkLineLength j l) as [s| |] eqn:Ec; cbn; try discriminate.
  apply checkLineLength_Ok in Ec as ->.
  destruct t.
  - intros H. injection H as <- _ _.
    apply headerStep_tilt in E as [Ht Hl]. split; [exact Ht|].
    exists line. split; [apply list_elem_of_here|exact Hl].
  - intros H. apply IH in H as [Ht (l0 & Hin & Hl)]. split; [exact Ht|].
    exists l0. split; [by apply list_elem_of_further|exact Hl].
Qed.

Lemma parseData_keeps_tilt (ies i : IES F) (line : string)
    (scanner : Scanner) :
  parseData ParseFloat ies line scanner = Ok i ->
  Tilt i = Tilt ies /\ insideBlock i = insideBlock ies
  /\ strictParsing i = strictParsing ies.
Proof.
  unfold parseData. intros H.
  repeat (step_call H; split_pairs).
  injection H as <-. repeat split.
Qed.

Lemma parseKeywordLine_strictParsing (i i' : IES F) (line : string) :
  parseKeywordLine i line = Ok i' -> strictParsing i' = strictParsing i.
Proof.
  unfold parseKeywordLine.
  destruct (Regexp.keywordRegex line) as [[keyword value]|]; [|discriminate].
  destruct (isKeywordAllowed i keyword); [|discriminate]. cbn [negb].
  destruct (checkKeywordBlock i keyword) as [ok j] eqn:Hb.
  assert (Hs : strictParsing j = strictParsing i).
  { rewrite checkKeywordBlock_spec in Hb.
    destruct (String.eqb keyword "BLOCK"), (String.eqb keyword "ENDBLOCK"),
      (insideBlock i); injection Hb as _ <-; reflexivity. }
  destruct ok; [|discriminate]. cbn [negb].
  destruct (String.eqb keyword "MORE").
  - destruct (_ || _); [discriminate|].
    destruct (Keywords j); cbn; [|discriminate].
    intros H. injection H as <-. exact Hs.
  - destruct (Keywords j); cbn; [|discriminate].
    intros H. injection H as <-. exact Hs.
Qed.

Lemma headerStep_strictParsing (i i' : IES F) (line : string) (t : bool) :
  headerStep i line = Ok (i', t) -> strictParsing i' = strictParsing i.
Proof.
  unfold headerStep.
  destruct (isKeywordLine line).
  { destruct (parseKeywordLine i line) eqn:E; cbn; try discriminate.
    intros H. injection H as <- _. by apply parseKeywordLine_strictParsing in E. }
  destruct (isTiltLine line).
  { destruct (negb (ContainsRequiredKeywords i)); [discriminate|].
    unfold parseTiltLine.
    destruct (Regexp.tiltRegex line) as [value|]; [|discriminate].
    destruct (String.eqb value "INCLUDE");
      [cbn; intros H; injection H as <- _; reflexivity|].
    destruct (String.eqb value "NONE"); [|discriminate].
    cbn; intros H; injection H as <- _; reflexivity. }
  destruct (isKeywordExtraLine line); [|discriminate].
  unfold parseKeywordExtraLine.
  destruct (Regexp.keywordExtraRegex line) as [value|]; [|discriminate].
  destruct (_ || _); [discriminate|].
  destruct (Keywords i); cbn; [|discriminate].
  intros H. injection H as <- _. reflexivity.
Qed.

Lemma headerLoop_strictParsing (rest : list string) :
  forall (i i' : IES F) (line line' : string) (sc : Scanner),
    headerLoop i line rest = Ok (i', line', sc) ->
    strictParsing i' = strictParsing i.
Proof.
  induction rest as [|l rest IH]; intros i i' line line' sc;
    cbn [headerLoop];
    destruct (headerStep i line) as [[j t]| |] eqn:E; cbn; try discriminate.
  apply headerStep_strictParsing in E.
  destruct (checkLineLength j l); cbn; try discriminate.
  destruct t.
  - intros H. injection H as <- _ _. exact E.
  - intros H. apply IH in H. congruence.
Qed.

Lemma validateStringFromLine_Ok (sc sc' : Scanner) (maxLength : Z)
    (strict : bool) (warnings : list warning) (line : string) :
  validateStringFromLine sc maxLength strict = (warnings, Ok (line, sc')) ->
  exists l rest,
    pending sc = l :: rest /\ sc' = mkScanner l rest
    /\ line = Bytes.TrimSpace l.
Proof.
  unfold validateStringFromLine, Scan.
  destruct (pending sc) as [|l rest]; [discriminate|]. cbn [Text].
  destruct (_ && strict); [discriminate|].
  destruct (_ && negb strict); intros H; injection H as _ <- <-; eauto.
Qed.

Lemma fetchValidLineFromFile_Ok (i : IES F) (sc sc' : Scanner)
    (line : string) :
  fetchValidLineFromFile i sc = Ok (line, sc') ->
  exists rest, pending sc = line :: rest /\ sc' = mkScanner line rest.
Proof.
  unfold fetchValidLineFromFile, Scan.
  destruct (pending sc) as [|l rest]; [discriminate|]. cbn [Text].
  destruct (checkLineLength i l) as [s| |] eqn:Ec; cbn; try discriminate.
  apply checkLineLength_Ok in Ec as ->.
  intros H. injection H as <- <-. eauto.
Qed.

Lemma parseFormatVersion_Ok (i i' : IES F) (line : string) :
  parseFormatVersion i line = Ok i' ->
  exists format,
    i' = setFormat format i /\ parsedFormat format.
Proof.
  unfold parseFormatVersion, parsedFormat.
  destruct (String.eqb line "IESNA91");
    [intros H; injection H as <-; eauto|].
  destruct (String.eqb line "IESNA:LM-63-1995");
    [intros H; injection H as <-; eauto|].
  destruct (String.eqb line "IESNA:LM-63-2002");
    [intros H; injection H as <-; eauto 6|discriminate].
Qed.

(** The keywords of a parsed model passed the allow-list of its format. *)
Lemma NewIES_allowed (lines : list string) (strict : bool)
    (warnings : list warning) (i : IES F) :
  NewIES ParseFloat zero lines strict = (warnings, Ok i) ->
  forall k, is_Some (entries (Keywords i) !! k) ->
            isKeywordAllowed i k = true.
Proof.
  unfold NewIES.
  destruct (validateStringFromLine _ 16 strict) as [w first] eqn:Ev.
  intros H. injection H as _ H.
  step_call H. split_pairs. step_call H.
  match goal with
  | E : parseFormatVersion _ _ = Ok _ |- _ =>
      apply parseFormatVersion_Ok in E as (format & -> & Hpf)
  end.
  step_call H. split_pairs. step_call H. split_pairs.
  pose proof (parseData_keeps _ _ _ _ _ H) as (Hk & Hf & _).
  match goal with
  | E : headerLoop _ _ _ = Ok _ |- _ =>
      apply headerLoop_checked in E as [(table & Hmap & Hall & _) Hf']
  end.
  2:{ exists ∅. split; [reflexivity|]. split; [|left; reflexivity].
      intros k [v Hv]. rewrite lookup_empty in Hv. discriminate. }
  intros k Hin. rewrite Hk, Hmap in Hin. unfold isKeywordAllowed.
  rewrite Hf. apply (Hall k Hin).
Qed.

(** X2. What every model the parser returns looks like: its format is one of
    the three revisions with an identifier line, its tilt is INCLUDE or
    NONE, the file had a tilt line after its first line, the strictness
    flag is the one asked for, the keyword map is made and each keyword in
    it is allowed by the format. *)
Theorem NewIES_model (lines : list string) (strict : bool)
    (warnings : list warning) (i : IES F) :
  NewIES ParseFloat zero lines strict = (warnings, Ok i) ->
  parsedFormat (Format i)
  /\ (Tilt i = IESTiltInclude \/ Tilt i = IESTiltNone)
  /\ (exists l, l ∈ drop 1 lines /\ isTiltLine l = true)
  /\ strictParsing i = strict
  /\ exists table,
      Keywords i = Some table
      /\ forall k, is_Some (table !! k) -> isKeywordAllowed i k = true.
Proof.
  unfold NewIES.
  destruct (validateStringFromLine _ 16 strict) as [w first] eqn:Ev.
  intros H. injection H as _ H.
  destruct first as [[line0 sc0]| |]; cbn [mbind result_bind] in H;
    try discriminate H.
  apply validateStringFromLine_Ok in Ev as (l0 & ls & Hlines & -> & _).
  cbn in Hlines. subst lines.
  step_call H.
  match goal with
  | E : parseFormatVersion _ _ = Ok _ |- _ =>
      apply parseFormatVersion_Ok in E as (format & -> & Hpf)
  end.
  step_call H. split_pairs.
  match goal with
  | E : fetchValidLineFromFile _ _ = Ok _ |- _ =>
      apply fetchValidLineFromFile_Ok in E as (ls' & Hls & ->)
  end.
  cbn in Hls. subst ls. cbn [pending] in H.
  step_call H. split_pairs.
  pose proof (parseData_keeps _ _ _ _ _ H) as (Hk & Hf & _).
  pose proof (parseData_keeps_tilt _ _ _ _ H) as (Ht & _ & Hs).
  match goal with
  | E : headerLoop _ _ _ = Ok _ |- _ =>
      pose proof (headerLoop_tilt _ _ _ _ _ _ E) as [Htilt (l & Hin & Hl)];
      pose proof (headerLoop_strictParsing _ _ _ _ _ _ E) as Hs';
      apply headerLoop_checked in E as [(table & Hmap & Hall & _) Hf']
  end.
  2:{ exists ∅. split; [reflexivity|]. split; [|left; reflexivity].
      intros k [v Hv]. rewrite lookup_empty in Hv. discriminate. }
  split; [rewrite Hf, Hf'; exact Hpf|].
  split; [rewrite Ht; exact Htilt|].
  split; [exists l; split; [exact Hin|exact Hl]|].
  split; [rewrite Hs, Hs'; reflexivity|].
  exists table. split; [congruence|].
  intros k Hin_k. unfold isKeywordAllowed. rewrite Hf.
  apply (Hall k Hin_k).
Qed.

End ParsedModel.

(** ** The counts and the identifier line of a parsed model *)

Section ParsedShape.

Context {F : Type}.
Variable ParseFloat : string -> option F.
Variable zero : F.

(** X1. Every model the parser returns passes [Validate], strict or not: the
    two angle lists have the lengths the counts give, and the candela
    table has one row per horizontal angle, each with one value per
    vertical angle. [Export] and [Upgrade] never refuse a parsed model. *)
Theorem NewIES_passes_Validate (lines : list string) (strict : bool)
    (warnings : list warning) (i : IES F) :
  NewIES ParseFloat zero lines strict = (warnings, Ok i) ->
  (forall s, Validate i s = (true, ""))
  /\ Z.of_nat (length (VerticalAngles i)) = NumberVerticalAngles i
  /\ Z.of_nat (length (HorizontalAngles i)) = NumberHorizontalAngles i
  /\ Z.of_nat (length (CandelaValues i)) = NumberHorizontalAngles i
  /\ Forall (fun row => Z.of_nat (length row) = NumberVerticalAngles i)
            (CandelaValues i).
Proof.
  intros H. split; [intros s; exact (NewIES_valid _ _ _ _ _ _ H)|].
  revert H.
  unfold NewIES. destruct (validateStringFromLine _ 16 strict) as [w first].
  intros H. injection H as _ H.
  step_call H. split_pairs. step_call H. step_call H. split_pairs.
  step_call H. split_pairs.
  apply parseData_counts in H as (Hv & Hh & Hc & Hrows).
  repeat split; try (symmetry; assumption).
  apply Forall_forall. intros row Hin.
  rewrite forallb_forall in Hrows.
  apply list_elem_of_In in Hin. apply Hrows in Hin.
  apply Z.eqb_eq in Hin. symmetry. exact Hin.
Qed.

Lemma parseFormatVersion_convertFormatToString (i i' : IES F)
    (line : string) :
  parseFormatVersion i line = Ok i' -> convertFormatToString i' = line.
Proof.
  unfold parseFormatVersion.
  destruct (String.eqb_spec line "IESNA91") as [->|_];
    [intros H; injection H as <-; reflexivity|].
  destruct (String.eqb_spec line "IESNA:LM-63-1995") as [->|_];
    [intros H; injection H as <-; reflexivity|].
  destruct (String.eqb_spec line "IESNA:LM-63-2002") as [->|_];
    [intros H; injection H as <-; reflexivity|discriminate].
Qed.

(** X7. The identifier line is kept: for a model the parser returned,
    [convertFormatToString], which [Export] writes as the first line, gives
    back the first line of the file it was read from, without the white
    space around it. *)
Theorem NewIES_format_line (lines : list string) (strict : bool)
    (warnings : list warning) (i : IES F) :
  NewIES ParseFloat zero lines strict = (warnings, Ok i) ->
  exists first rest,
    lines = first :: rest
    /\ convertFormatToString i = Bytes.TrimSpace first.
Proof.
  unfold NewIES.
  destruct (validateStringFromLine _ 16 strict) as [w first] eqn:Ev.
  intros H. injection H as _ H.
  destruct first as [[line0 sc0]| |]; cbn [mbind result_bind] in H;
    try discriminate H.
  apply validateStringFromLine_Ok in Ev as (l0 & ls & Hlines & -> & ->).
  cbn in Hlines. subst lines. exists l0, ls. split; [reflexivity|].
  step_call H.
  match goal with
  | E : parseFormatVersion _ _ = Ok _ |- _ =>
      pose proof (parseFormatVersion_convertFormatToString _ _ _ E) as Hfmt;
      apply parseFormatVersion_Ok in E as (format & -> & _)
  end.
  step_call H. split_pairs. step_call H. split_pairs.
  apply parseData_keeps in H as (_ & Hf & _).
  match goal with
  | E : headerLoop _ _ _ = Ok _ |- _ =>
      apply headerLoop_checked in E as [_ Hf']
  end.
  2:{ exists ∅. split; [reflexivity|]. split; [|left; reflexivity].
      intros k [v Hv]. rewrite lookup_empty in Hv. discriminate. }
  rewrite <- Hfmt. unfold convertFormatToString. rewrite Hf, Hf'.
  reflexivity.
Qed.

End ParsedShape.

(** ** Strict and lenient parsing *)

Section StrictLenient.

Context {F : Type}.
Variable ParseFloat : string -> option F.
Variable zero : F.


Lemma parseKeywordLine_lenient (i i' : IES F) (line : string) :
  parseKeywordLine i line = Ok i' ->
  parseKeywordLine (setStrictParsing false i) line = Ok (setStrictParsing false i').
Proof.
  unfold parseKeywordLine, isKeywordAllowed.
  change (Format (setStrictParsing false i)) with (Format i).
  destruct (Regexp.keywordRegex line) as [[keyword value]|]; [|discriminate].
  destruct (keywordAllowedFor (Format i) keyword); [|discriminate].
  cbn [negb].
  destruct (checkKeywordBlock i keyword) as [ok j] eqn:Hb.
  assert (checkKeywordBlock (setStrictParsing false i) keyword = (ok, setStrictParsing false j)) as ->.
  { rewrite checkKeywordBlock_spec in *.
    change (insideBlock (setStrictParsing false i)) with (insideBlock i).
    destruct (String.eqb keyword "BLOCK"), (String.eqb keyword "ENDBLOCK"),
      (insideBlock i); injection Hb as <- <-; reflexivity. }
  destruct ok; [|discriminate]. cbn [negb].
  change (Keywords (setStrictParsing false j)) with (Keywords j).
  change (lastKeyword (setStrictParsing false j)) with (lastKeyword j).
  destruct (String.eqb keyword "MORE").
  - destruct (_ || _); [discriminate|].
    destruct (Keywords j); cbn [mapAssign mbind result_bind]; [|discriminate].
    intros H. injection H as <-. reflexivity.
  - destruct (Keywords j); cbn [mapAssign mbind result_bind]; [|discriminate].
    intros H. injection H as <-. reflexivity.
Qed.

Lemma headerStep_lenient (i i' : IES F) (line : string) (t : bool) :
  headerStep i line = Ok (i', t) ->
  headerStep (setStrictParsing false i) line = Ok (setStrictParsing false i', t).
Proof.
  unfold headerStep.
  destruct (isKeywordLine line).
  { destruct (parseKeywordLine i line) as [j| |] eqn:E;
      cbn [mbind result_bind]; try discriminate.
    rewrite (parseKeywordLine_lenient _ _ _ E). cbn [mbind result_bind].
    intros H. injection H as <- <-. reflexivity. }
  destruct (isTiltLine line).
  { change (ContainsRequiredKeywords (setStrictParsing false i))
      with (ContainsRequiredKeywords i).
    destruct (negb (ContainsRequiredKeywords i)); [discriminate|].
    unfold parseTiltLine.
    destruct (Regexp.tiltRegex line) as [value|]; [|discriminate].
    destruct (String.eqb value "INCLUDE");
      [cbn [mbind result_bind]; intros H; injection H as <- <-; reflexivity|].
    destruct (String.eqb value "NONE"); [|discriminate].
    cbn [mbind result_bind]; intros H; injection H as <- <-; reflexivity. }
  destruct (isKeywordExtraLine line); [|discriminate].
  unfold parseKeywordExtraLine.
  destruct (Regexp.keywordExtraRegex line) as [value|]; [|discriminate].
  change (Keywords (setStrictParsing false i)) with (Keywords i).
  change (lastKeyword (setStrictParsing false i)) with (lastKeyword i).
  destruct (_ || _); [discriminate|].
  destruct (Keywords i); cbn [mapAssign mbind result_bind]; [|discriminate].
  intros H. injection H as <- <-. reflexivity.
Qed.

Lemma checkLineLength_lenient (i : IES F) (text : string) :
  checkLineLength (setStrictParsing false i) text = Ok text.
Proof.
  unfold checkLineLength. change (strictParsing (setStrictParsing false i)) with false.
  rewrite andb_false_r. reflexivity.
Qed.

Lemma headerLoop_lenient (rest : list string) :
  forall (i i' : IES F) (line line' : string) (sc : Scanner),
    headerLoop i line rest = Ok (i', line', sc) ->
    headerLoop (setStrictParsing false i) line rest = Ok (setStrictParsing false i', line', sc).
Proof.
  induction rest as [|l rest IH]; intros i i' line line' sc;
    cbn [headerLoop];
    destruct (headerStep i line) as [[j t]| |] eqn:E; cbn [mbind result_bind];
    try discriminate.
  rewrite (headerStep_lenient _ _ _ _ E). cbn [mbind result_bind].
  rewrite checkLineLength_lenient. cbn [mbind result_bind].
  destruct (checkLineLength j l) as [s| |] eqn:Ec; cbn [mbind result_bind];
    try discriminate.
  apply checkLineLength_Ok in Ec as ->.
  destruct t.
  - intros H. injection H as <- <- <-. reflexivity.
  - apply IH.
Qed.

Lemma fetchValidLineFromFile_lenient (i : IES F) (sc sc' : Scanner)
    (line : string) :
  fetchValidLineFromFile i sc = Ok (line, sc') ->
  fetchValidLineFromFile (setStrictParsing false i) sc = Ok (line, sc').
Proof.
  intros H. apply fetchValidLineFromFile_Ok in H as (rest & Hp & ->).
  unfold fetchValidLineFromFile, Scan. rewrite Hp. cbn [Text].
  rewrite checkLineLength_lenient. reflexivity.
Qed.

Lemma parseTiltValues_lenient (i : IES F) (line : string) (sc : Scanner) r :
  parseTiltValues ParseFloat i line sc = Ok r ->
  parseTiltValues ParseFloat (setStrictParsing false i) line sc = Ok r.
Proof.
  unfold parseTiltValues. change (Tilt (setStrictParsing false i)) with (Tilt i).
  destruct (String.eqb (Tilt i) IESTiltInclude); [|intros H; exact H].
  destruct (getIntFromLine line); cbn [mbind result_bind]; try discriminate.
  destruct (fetchValidLineFromFile i sc) as [[l s]| |] eqn:E;
    cbn [mbind result_bind]; try discriminate.
  rewrite (fetchValidLineFromFile_lenient _ _ _ _ E).
  cbn [mbind result_bind]. intros H; exact H.
Qed.

Lemma parseData_lenient (i r : IES F) (line : string) (sc : Scanner) :
  parseData ParseFloat i line sc = Ok r ->
  parseData ParseFloat (setStrictParsing false i) line sc = Ok (setStrictParsing false r).
Proof.
  unfold parseData. intros H.
  destruct (parseTiltValues ParseFloat i line sc) as [x| |] eqn:E;
    cbn [mbind result_bind] in H; try discriminate H.
  rewrite (parseTiltValues_lenient _ _ _ _ E). cbn [mbind result_bind].
  clear E. split_pairs.
  repeat (step_call H; split_pairs; lazy beta iota zeta delta [mbind result_bind]).
  injection H as <-. reflexivity.
Qed.

Lemma validateStringFromLine_strict_lenient (sc sc' : Scanner)
    (maxLength : Z) (warnings : list warning) (line : string) :
  validateStringFromLine sc maxLength true = (warnings, Ok (line, sc')) ->
  warnings = []
  /\ validateStringFromLine sc maxLength false = ([], Ok (line, sc')).
Proof.
  unfold validateStringFromLine.
  destruct (Scan sc) as [s|]; [|discriminate].
  rewrite !andb_true_r, !andb_false_r. cbn [negb].
  destruct (maxLength <? len (Bytes.TrimSpace (Text s))); [discriminate|].
  cbn [andb]. intros H. injection H as <- <- <-. split; reflexivity.
Qed.

Lemma parseFormatVersion_lenient (i i' : IES F) (line : string) :
  parseFormatVersion i line = Ok i' ->
  parseFormatVersion (setStrictParsing false i) line = Ok (setStrictParsing false i').
Proof.
  unfold parseFormatVersion.
  repeat match goal with
         | |- context [String.eqb line ?c] =>
             destruct (String.eqb line c);
             [intros H; injection H as <-; reflexivity|]
         end.
  discriminate.
Qed.

(** X3. Whatever strict parsing accepts, lenient parsing accepts: the same
    file read without strict parsing gives the same model (but for the
    flag itself), and neither run logs a warning. *)
Theorem NewIES_strict_lenient (lines : list string)
    (warnings : list warning) (i : IES F) :
  NewIES ParseFloat zero lines true = (warnings, Ok i) ->
  warnings = []
  /\ NewIES ParseFloat zero lines false
     = ([], Ok (setStrictParsing false i)).
Proof.
  unfold NewIES.
  destruct (validateStringFromLine (NewScanner lines) 16 true)
    as [w first] eqn:Ev.
  intros H. injection H as <- H.
  destruct first as [[line0 sc0]| |];
    cbn [mbind result_bind] in H; try discriminate H.
  apply validateStringFromLine_strict_lenient in Ev as [-> Ev].
  split; [reflexivity|]. rewrite Ev. f_equal.
  lazy beta iota zeta delta [mbind result_bind].
  step_call H.
  match goal with
  | E : parseFormatVersion _ _ = Ok _ |- _ =>
      apply parseFormatVersion_lenient in E;
      change (setStrictParsing false (setFormat IESFormatUnknown
                         (setStrictParsing true (zeroIES zero))))
        with (setFormat IESFormatUnknown
                (setStrictParsing false (zeroIES zero))) in E;
      rewrite E; clear E
  end.
  lazy beta iota zeta delta [mbind result_bind].
  step_call H. split_pairs.
  match goal with
  | E : fetchValidLineFromFile _ _ = Ok _ |- _ =>
      rewrite (fetchValidLineFromFile_lenient _ _ _ _ E); clear E
  end.
  lazy beta iota zeta delta [mbind result_bind].
  step_call H. split_pairs.
  match goal with
  | E : headerLoop _ _ _ = Ok _ |- _ =>
      apply headerLoop_lenient in E;
      match type of E with
      | headerLoop (setStrictParsing false (setKeywords ?k ?j)) _ _ = _ =>
          change (setStrictParsing false (setKeywords k j))
            with (setKeywords k (setStrictParsing false j)) in E
      end;
      rewrite E; clear E
  end.
  lazy beta iota zeta delta [mbind result_bind].
  apply parseData_lenient. exact H.
Qed.

End StrictLenient.

(** ** The tokens [getWordListFromInput] returns *)

Lemma storeWords_filled (words done : list string) :
  forall k : nat,
    storeWords words (done ++ replicate k "")%list (Z.of_nat (length done))
    = if decide (length words <= k)%nat then
        Ok ((done ++ map Bytes.TrimSpace words
                  ++ replicate (k - length words) "")%list,
            Z.of_nat (length done + length words))
      else Panic (IndexOutOfRange (Z.of_nat (length done + k))
                                  (Z.of_nat (length done + k))).
Proof.
  revert done. induction words as [|w ws IH]; intros done k; cbn [storeWords].
  - rewrite decide_True by (cbn; lia). cbn.
    rewrite Nat.sub_0_r, Nat.add_0_r. reflexivity.
  - rewrite length_app, length_replicate.
    destruct k as [|k].
    + rewrite decide_False by (cbn; lia).
      replace (Z.of_nat (length done) <? Z.of_nat (length done + 0))
        with false by (symmetry; apply Z.ltb_ge; lia).
      rewrite andb_false_r, Nat.add_0_r. reflexivity.
    + replace (0 <=? Z.of_nat (length done)) with true
        by (symmetry; apply Z.leb_le; lia).
      replace (Z.of_nat (length done) <? Z.of_nat (length done + S k))
        with true by (symmetry; apply Z.ltb_lt; lia).
      cbn [andb]. rewrite Nat2Z.id.
      replace (<[length done := Bytes.TrimSpace w]>
                 (done ++ replicate (S k) "")%list)
        with ((done ++ [Bytes.TrimSpace w]) ++ replicate k "")%list.
      2:{ rewrite insert_app_r_alt by lia. rewrite Nat.sub_diag.
          cbn. rewrite <- app_assoc. reflexivity. }
      replace (Z.of_nat (length done) + 1)
        with (Z.of_nat (length (done ++ [Bytes.TrimSpace w])%list))
        by (rewrite length_app; cbn; lia).
      rewrite IH. rewrite length_app. cbn [length map].
      destruct (decide (length ws <= k)%nat);
        [rewrite decide_True by lia|rewrite decide_False by lia].
      * rewrite <- !app_assoc. cbn. do 2 f_equal. lia.
      * do 2 f_equal; lia.
Qed.

Lemma last_cons_default {A : Type} (l : list A) :
  forall x d : A, List.last (x :: l) d = List.last l x.
Proof.
  induction l as [|y l IH]; intros x d; [reflexivity|].
  change (List.last (x :: y :: l) d) with (List.last (y :: l) d).
  rewrite (IH y d), (IH y x). reflexivity.
Qed.

Lemma wordLoop_content (lastScan : bool) (rest : list string) :
  forall (done : list string) (k : nat) (text : string)
         (out : list string) (sc' : Scanner),
    wordLoop (Z.of_nat (length done + k)) lastScan
             (done ++ replicate k "")%list (Z.of_nat (length done)) text rest
    = Ok (out, sc') ->
    exists more rest',
      rest = (more ++ rest')%list
      /\ out = (done ++ concat (map lineWords (text :: more)))%list
      /\ (if lastScan then sc' = mkScanner (List.last more text) rest'
          else exists l rest'',
              rest' = l :: rest'' /\ sc' = mkScanner l rest'').
Proof.
  induction rest as [|l rest IH]; intros done k text out sc' H;
    cbn [wordLoop] in H; rewrite storeWords_filled in H;
    (destruct (decide (length (Bytes.ScanWords (Bytes.TrimSpace text)) <= k)%nat)
      as [Hfit|]; [|discriminate H]);
    cbn [mbind result_bind] in H;
    set (ws := Bytes.ScanWords (Bytes.TrimSpace text)) in *;
    destruct (Z.ltb_spec (Z.of_nat (length done + length ws))
                         (Z.of_nat (length done + k))) as [Hlt|Hge];
    cbn [orb] in H.
  - discriminate H.
  - destruct lastScan; cbn [negb] in H; [|discriminate H].
    injection H as <- <-. exists [], []. split; [reflexivity|].
    assert (length ws = k) as <- by lia.
    rewrite Nat.sub_diag. cbn. rewrite !app_nil_r. by split.
  - replace (done ++ map Bytes.TrimSpace ws ++ replicate (k - length ws) "")%list
      with ((done ++ map Bytes.TrimSpace ws)
              ++ replicate (k - length ws) "")%list in H
      by (rewrite <- app_assoc; reflexivity).
    replace (Z.of_nat (length done + length ws))
      with (Z.of_nat (length (done ++ map Bytes.TrimSpace ws)%list)) in H
      by (rewrite length_app, length_map; reflexivity).
    replace (Z.of_nat (length done + k))
      with (Z.of_nat (length (done ++ map Bytes.TrimSpace ws)%list
                      + (k - length ws))) in H
      by (rewrite length_app, length_map; lia).
    apply IH in H as (more & rest' & -> & -> & Hsc).
    exists (l :: more), rest'. split; [reflexivity|]. split.
    + cbn. rewrite <- !app_assoc. reflexivity.
    + destruct lastScan; [|exact Hsc].
      rewrite last_cons_default. exact Hsc.
  - assert (length ws = k) as Hk by lia.
    destruct lastScan; cbn [negb] in H; injection H as <- <-.
    + exists [], (l :: rest). split; [reflexivity|].
      rewrite Hk, Nat.sub_diag. cbn. rewrite !app_nil_r. by split.
    + exists [], (l :: rest). split; [reflexivity|].
      rewrite Hk, Nat.sub_diag. cbn. rewrite !app_nil_r. split; [done|eauto].
Qed.

(** X4. What the routine returns, when it returns: the tokens of the current
    line and of the lines it went on to read, in order, [size] of them in
    all, the last line read being used up exactly. With [lastScan] the
    scanner stays on the last line read; without it the scanner has moved
    one line further. *)
Theorem getWordListFromInput_content (sc sc' : Scanner) (size : Z)
    (lastScan : bool) (out : list string) :
  0 < size ->
  getWordListFromInput sc size lastScan = Ok (out, sc') ->
  exists more rest',
    pending sc = (more ++ rest')%list
    /\ out = concat (map lineWords (Text sc :: more))
    /\ Z.of_nat (length out) = size
    /\ (if lastScan then sc' = mkScanner (List.last more (Text sc)) rest'
        else exists l rest'',
            rest' = l :: rest'' /\ sc' = mkScanner l rest'').
Proof.
  intros Hsize H.
  pose proof (getWordListFromInput_length _ _ _ _ _ H) as Hlen.
  unfold getWordListFromInput in H.
  replace (size <? 0) with false in H by (symmetry; apply Z.ltb_ge; lia).
  replace (0 <? size) with true in H by (symmetry; apply Z.ltb_lt; lia).
  replace size with (Z.of_nat (length (@nil string) + Z.to_nat size)) in H at 1
    by (cbn [length]; lia).
  change 0 with (Z.of_nat (length (@nil string))) in H.
  change (replicate (Z.to_nat size) "")
    with (([] : list string) ++ replicate (Z.to_nat size) "")%list in H.
  apply wordLoop_content in H as (more & rest' & Hp & -> & Hsc).
  exists more, rest'. repeat split; assumption.
Qed.

(** ** The tilt block *)

Section TiltInclude.

Context {F : Type}.
Variable ParseFloat : string -> option F.

Lemma getWordListFromInput_second_line_overflows (text next : string)
    (rest : list string) (size : Z) (lastScan : bool) :
  Z.of_nat (length (lineWords text)) < size ->
  size < Z.of_nat (length (lineWords text) + length (lineWords next)) ->
  getWordListFromInput (mkScanner text (next :: rest)) size lastScan
  = Panic (IndexOutOfRange size size).
Proof.
  unfold lineWords. rewrite !length_map. intros Hk Ha.
  unfold getWordListFromInput.
  replace (size <? 0) with false by (symmetry; apply Z.ltb_ge; lia).
  replace (0 <? size) with true by (symmetry; apply Z.ltb_lt; lia).
  cbn [Text pending wordLoop].
  set (n := Z.to_nat size).
  set (ws := Bytes.ScanWords (Bytes.TrimSpace text)) in *.
  set (ws2 := Bytes.ScanWords (Bytes.TrimSpace next)) in *.
  change (storeWords ws (replicate n "") 0)
    with (storeWords ws (@app string nil (replicate n ""))
                     (Z.of_nat (@length string nil))).
  rewrite (storeWords_filled ws nil n). rewrite decide_True by lia.
  cbn [mbind result_bind length Nat.add app].
  replace (Z.of_nat (length ws) <? size) with true
    by (symmetry; apply Z.ltb_lt; lia).
  cbn [orb].
  replace (Z.of_nat (length ws))
    with (Z.of_nat (length (map Bytes.TrimSpace ws)))
    by (rewrite length_map; reflexivity).
  destruct rest as [|l rest']; cbn [wordLoop]; fold ws2;
    rewrite storeWords_filled; rewrite decide_False by lia;
    cbn [mbind result_bind]; rewrite length_map; do 2 f_equal; lia.
Qed.

(** X5. The angles of a tilt block are collected starting from the token of
    the scanner, which is still the line of the pair count. When that line
    has fewer tokens than the count and the next line completes the count
    with tokens to spare, as it does when it holds the [count] angles, the
    collection runs past the end of its list: the parse panics. *)
Theorem parseData_tilt_include_panics (ies : IES F) (line : string)
    (sc : Scanner) (countLine angleLine : string) (rest : list string)
    (geometry count : Z) :
  Tilt ies = IESTiltInclude ->
  getIntFromLine line = Ok geometry ->
  pending sc = countLine :: angleLine :: rest ->
  checkLineLength ies countLine = Ok countLine ->
  getIntFromLine countLine = Ok count ->
  Z.of_nat (length (lineWords countLine)) < count ->
  count < Z.of_nat (length (lineWords countLine)
                    + length (lineWords angleLine)) ->
  parseData ParseFloat ies line sc = Panic (IndexOutOfRange count count).
Proof.
  intros Htilt Hgeo Hsc Hlen Hcount Hk Ha.
  unfold parseData, parseTiltValues. rewrite Htilt.
  change (String.eqb IESTiltInclude IESTiltInclude) with true. cbn iota.
  rewrite Hgeo. cbn [mbind result_bind].
  unfold fetchValidLineFromFile, Scan. rewrite Hsc. cbn [Text].
  rewrite Hlen. cbn [mbind result_bind]. rewrite Hcount.
  cbn [mbind result_bind].
  rewrite (getWordListFromInput_second_line_overflows _ _ _ _ _ Hk Ha).
  reflexivity.
Qed.

End TiltInclude.

(** ** The three line shapes *)

Lemma span_space_nonempty (c : ascii) (r : string) :
  fst (Bytes.span Bytes.isRegexpSpace (String c r)) <> EmptyString ->
  Bytes.isRegexpSpace c = true.
Proof.
  cbn [Bytes.span]. destruct (Bytes.isRegexpSpace c); [reflexivity|].
  intros H. by destruct H.
Qed.

Lemma keywordExtraRegex_head (line value : string) :
  Regexp.keywordExtraRegex line = Some value ->
  exists c r, line = String c r /\ Bytes.isRegexpSpace c = true.
Proof.
  unfold Regexp.keywordExtraRegex.
  destruct line as [|c r]; [discriminate|].
  cbn [Bytes.span]. destruct (Bytes.isRegexpSpace c) eqn:E.
  - intros _. eauto.
  - discriminate.
Qed.

Lemma keywordRegex_head (line : string) (kv : string * string) :
  Regexp.keywordRegex line = Some kv ->
  exists r, line = String "["%char r.
Proof.
  unfold Regexp.keywordRegex. destruct line as [|c r]; [discriminate|].
  destruct (Ascii.eqb_spec c "["%char) as [->|]; [eauto|discriminate].
Qed.

Lemma tiltRegex_head (line value : string) :
  Regexp.tiltRegex line = Some value ->
  exists r, line = String "T"%char r.
Proof.
  unfold Regexp.tiltRegex. destruct line as [|c r]; [discriminate|].
  cbn [Bytes.stripPrefix].
  destruct (Ascii.eqb_spec "T"%char c) as [<-|]; [eauto|discriminate].
Qed.

(** X6. No line has two of the three shapes the keyword loop tells apart: a
    keyword line starts with a bracket, a tilt line with the letter T and a
    continuation line with white space. The order of the three tests in
    the loop does not change which branch a line takes. *)
Theorem line_shapes_exclusive (line : string) :
  isKeywordLine line && isTiltLine line = false
  /\ isKeywordLine line && isKeywordExtraLine line = false
  /\ isTiltLine line && isKeywordExtraLine line = false.
Proof.
  unfold isKeywordLine, isTiltLine, isKeywordExtraLine.
  repeat split; apply andb_false_iff;
    (case_bool_decide as Ha; [|by left]);
    (case_bool_decide as Hb; [|by right]); exfalso;
    repeat match goal with
    | H : is_Some (Regexp.keywordRegex _) |- _ =>
        destruct H as [? H]; apply keywordRegex_head in H as [? ->]
    | H : is_Some (Regexp.tiltRegex _) |- _ =>
        destruct H as [? H]; apply tiltRegex_head in H as [? H]
    | H : is_Some (Regexp.keywordExtraRegex _) |- _ =>
        destruct H as [? H];
        apply keywordExtraRegex_head in H as (? & ? & H & Hc)
    end.
  - discriminate.
  - injection Hb as <- <-. discriminate Hc.
  - subst line. injection Hb as <- <-. discriminate Hc.
Qed.

(** ** The converted model *)

Section ConvertedModel.

Context {F : Type}.
Variables zero one : F.

(** The keywords the converter sets. *)
Lemma ConvertEulumdatToIES_Ok (eulumdat : Ldt.Eulumdat F) (ies : IES F) :
  ConvertEulumdatToIES zero one (Some eulumdat) = Ok ies ->
  exists lamp numberLamps lumensPerLamp inputWatts,
    ies = mkIES IESFormatLM_63_2002
            (Some (<["OTHER" := "converted using eulumies: "
                                +:+ Ldt.FileName eulumdat]>
                   (<["LAMP" := lamp]>
                    (<["LUMCAT" := Ldt.LuminaireNumber eulumdat]>
                     (<["LUMINAIRE" := Ldt.LuminaireName eulumdat]>
                      (<["MANUFAC" := Ldt.CompanyIdentification eulumdat]>
                       (<["ISSUEDATE" := Ldt.DateUser eulumdat]>
                        (<["TESTLAB" := Ldt.CompanyIdentification eulumdat]>
                         (<["TEST" := Ldt.MeasurementReportNumber eulumdat]>
                          ∅)))))))))
            IESTiltNone 0 0 [] [] numberLamps lumensPerLamp one
            (Z.of_nat (length (Ldt.AnglesG eulumdat))) 1 1 2
            (Ldt.WidthLuminaire eulumdat) (Ldt.LengthDiameter eulumdat)
            (Ldt.HeightLuminaire eulumdat) one one inputWatts
            (Ldt.AnglesG eulumdat) [zero]
            (Ldt.LuminousIntensityDistribution eulumdat) false "" false.
Proof.
  unfold ConvertEulumdatToIES. cbn [mapAssign mbind result_bind].
  destruct (Ldt.TypeLamps eulumdat) as [|lamp ?]; [discriminate|].
  rewrite index_0_cons. cbn [mapAssign mbind result_bind].
  destruct (Ldt.NumberLamps eulumdat) as [|n ?]; [discriminate|].
  rewrite index_0_cons. cbn [mbind result_bind].
  destruct (Ldt.TotalLuminousFluxLamps eulumdat) as [|x ?]; [discriminate|].
  rewrite index_0_cons. cbn [mbind result_bind].
  destruct (Ldt.BallastWatts eulumdat) as [|b ?]; [discriminate|].
  rewrite index_0_cons. cbn [mbind result_bind].
  intros H. injection H as <-. eauto 6.
Qed.

(** The keywords of a converted model: the four required ones are there,
    and all are on the allow-list of the 2002 revision. *)
Lemma ConvertEulumdatToIES_keywords (eulumdat : Ldt.Eulumdat F)
    (ies : IES F) :
  ConvertEulumdatToIES zero one (Some eulumdat) = Ok ies ->
  Format ies = IESFormatLM_63_2002
  /\ ContainsRequiredKeywords ies = true
  /\ (forall k, is_Some (entries (Keywords ies) !! k) ->
                isKeywordAllowed ies k = true).
Proof.
  intros H.
  apply ConvertEulumdatToIES_Ok in H as (lamp & n & x & b & ->).
  split; [reflexivity|]. split.
  - unfold ContainsRequiredKeywords, containsRequiredFor.
    cbn [Format Keywords]. unfold entries, default. cbn [from_option id].
    change (String.eqb IESFormatLM_63_2002 IESFormatUnknown) with false.
    cbn [orb].
    change (String.eqb IESFormatLM_63_2002 "") with false.
    change (String.eqb IESFormatLM_63_2002 IESFormatLM_63_1986) with false.
    change (String.eqb IESFormatLM_63_2002 IESFormatLM_63_1991) with false.
    change (String.eqb IESFormatLM_63_2002 IESFormatLM_63_1995) with false.
    change (String.eqb IESFormatLM_63_2002 IESFormatLM_63_2002) with true.
    cbn iota.
    apply checkIesna02RequiredKeywords_true. intros k Hk.
    unfold requiredKeywords02 in Hk.
    repeat (apply elem_of_cons in Hk as [->|Hk]);
      [| | | |by apply elem_of_nil in Hk];
      repeat (rewrite lookup_insert_ne by discriminate);
      rewrite lookup_insert_eq; eauto.
  - intros k Hk. cbn [Keywords] in Hk. unfold entries, default in Hk.
    cbn [from_option id] in Hk.
    unfold isKeywordAllowed. cbn [Format].
    repeat (apply lookup_insert_is_Some in Hk as [<-|[_ Hk]];
            [reflexivity|]).
    destruct Hk as [v Hv]. rewrite lookup_empty in Hv. discriminate.
Qed.

(** The converted model is declared with one horizontal angle: [Validate]
    accepts it exactly when the intensity table has one row, with one
    value per G angle. *)
Lemma ConvertEulumdatToIES_Validate (eulumdat : Ldt.Eulumdat F)
    (ies : IES F) (strict : bool) :
  ConvertEulumdatToIES zero one (Some eulumdat) = Ok ies ->
  fst (Validate ies strict) = true
  <-> exists row,
        Ldt.LuminousIntensityDistribution eulumdat = [row]
        /\ length row = length (Ldt.AnglesG eulumdat).
Proof.
  intros H.
  destruct (ConvertEulumdatToIES_keywords _ _ H) as (_ & Hreq & _).
  apply ConvertEulumdatToIES_Ok in H as (lamp & n & x & b & ->).
  unfold Validate. rewrite Hreq.
  cbn [negb NumberVerticalAngles NumberHorizontalAngles VerticalAngles
       HorizontalAngles CandelaValues length fst].
  rewrite Z.eqb_refl. cbn [negb].
  change (1 =? Z.of_nat 1) with true. cbn [negb].
  destruct (Ldt.LuminousIntensityDistribution eulumdat) as [|row rows].
  { cbn. split; [discriminate|]. intros (row & Hr & _). discriminate. }
  destruct rows as [|row2 rows].
  + cbn [length forallb]. change (1 =? Z.of_nat 1) with true.
    cbn [negb]. rewrite andb_true_r.
    destruct (Z.eqb_spec (Z.of_nat (length (Ldt.AnglesG eulumdat)))
                         (Z.of_nat (length row))) as [He|Hne]; cbn.
    * split; [|reflexivity]. intros _. exists row. split; [reflexivity|lia].
    * split; [discriminate|]. intros (r & Hr & Hl).
      injection Hr as <-. lia.
  + replace (1 =? Z.of_nat (length (row :: row2 :: rows))) with false
      by (symmetry; apply Z.eqb_neq; cbn [length]; lia).
    cbn. split; [discriminate|]. intros (r & Hr & _). discriminate.
Qed.

(** X11. What the converter returns: a model of the 2002 revision with the four
    required keywords, all its keywords on the allow-list of that
    revision. The model is declared with one horizontal angle, so
    [Validate] accepts it exactly when the intensity table of the
    EULUMDAT structure has one row, with one value per G angle; the
    conversion of a table with more C planes gives a model that [Export]
    and [Upgrade] refuse. *)
Theorem ConvertEulumdatToIES_valid_iff_one_plane
    (eulumdat : Ldt.Eulumdat F) (ies : IES F) (strict : bool) :
  ConvertEulumdatToIES zero one (Some eulumdat) = Ok ies ->
  Format ies = IESFormatLM_63_2002
  /\ ContainsRequiredKeywords ies = true
  /\ (forall k, is_Some (entries (Keywords ies) !! k) ->
                isKeywordAllowed ies k = true)
  /\ (fst (Validate ies strict) = true
      <-> exists row,
            Ldt.LuminousIntensityDistribution eulumdat = [row]
            /\ length row = length (Ldt.AnglesG eulumdat)).
Proof.
  intros H.
  destruct (ConvertEulumdatToIES_keywords _ _ H) as (Hf & Hreq & Hall).
  pose proof (ConvertEulumdatToIES_Validate _ _ strict H) as Hv.
  by repeat split; try apply Hv.
Qed.

End ConvertedModel.

(** ** [Upgrade] again *)

Lemma foldl_upgradeMap_all_allowed (m : gmap string string)
    (order : list string) :
  (forall k, is_Some (m !! k) -> allowed02 k = true) ->
  foldl upgradeMap m order = m.
Proof.
  intros Hall. induction order as [|k order IH]; cbn [foldl]; [reflexivity|].
  replace (upgradeMap m k) with m; [exact IH|].
  unfold upgradeMap. destruct (m !! k) as [v|] eqn:E; [|reflexivity].
  rewrite (Hall k) by eauto. reflexivity.
Qed.

Section UpgradeAgain.

Context {F : Type}.

Lemma Validate_required (i : IES F) (strict : bool) :
  fst (Validate i strict) = true -> ContainsRequiredKeywords i = true.
Proof.
  unfold Validate. destruct (ContainsRequiredKeywords i); [reflexivity|].
  cbn. discriminate.
Qed.

(** [Validate] reads the keywords and the format through
    [ContainsRequiredKeywords] only. *)
Lemma Validate_setKeywords_setFormat (i : IES F) (strict : bool)
    (keywords : option (gmap string string)) (format : string) :
  fst (Validate i strict) = true ->
  ContainsRequiredKeywords (setKeywords keywords (setFormat format i)) = true ->
  fst (Validate (setKeywords keywords (setFormat format i)) strict) = true.
Proof.
  intros Hv Hreq. pose proof (Validate_required _ _ Hv) as Hr.
  unfold Validate in *. rewrite Hreq. rewrite Hr in Hv.
  destruct i; exact Hv.
Qed.

(** A model of the 2002 revision that [Validate] accepts and whose
    keywords are all on the allow-list of that revision is returned as it
    is, whatever the order of the range. *)
Lemma Upgrade_unchanged (order : list string) (i : IES F)
    (table : gmap string string) :
  Format i = IESFormatLM_63_2002 ->
  fst (Validate i true) = true ->
  Keywords i = Some table ->
  (forall k, is_Some (table !! k) -> allowed02 k = true) ->
  Upgrade order i = Ok i.
Proof.
  intros Hf Hv Ht Hall.
  destruct (Upgrade_eq order i table Hv Ht) as (m1 & -> & Hlook).
  pose proof (Validate_required _ _ Hv) as Hreq.
  rewrite (ContainsRequiredKeywords_2002 i table Hf Ht) in Hreq.
  rewrite checkIesna02RequiredKeywords_true in Hreq.
  assert (m1 = table) as ->.
  { apply map_eq. intros j. rewrite Hlook.
    destruct (table !! j) eqn:E; [reflexivity|].
    case_bool_decide as Hin; [|reflexivity].
    apply Hreq in Hin as [v Hin]. congruence. }
  rewrite (foldl_upgradeMap_all_allowed table order Hall).
  f_equal. destruct i; cbn in *; subst; reflexivity.
Qed.

(** What [Upgrade] returns for a range that reached every refused keyword
    of the model, each of them shorter than 18 bytes: a model of the 2002
    revision that [Validate] accepts, with every keyword on the allow-list
    of that revision. *)
Lemma Upgrade_result (order : list string) (i i' : IES F)
    (table : gmap string string) :
  Keywords i = Some table ->
  (forall k, is_Some (table !! k) -> allowed02 k = false ->
             len k < 18 /\ k ∈ order) ->
  Upgrade order i = Ok i' ->
  Format i' = IESFormatLM_63_2002
  /\ fst (Validate i' true) = true
  /\ exists table',
      Keywords i' = Some table'
      /\ forall k, is_Some (table' !! k) -> allowed02 k = true.
Proof.
  intros Ht Hshort Hup.
  assert (Hv : fst (Validate i true) = true).
  { unfold Upgrade in Hup. destruct (Validate i true) as [[|] msg];
      [reflexivity|discriminate Hup]. }
  destruct (Upgrade_eq order i table Hv Ht) as (m1 & Heq & Hlook).
  rewrite Heq in Hup. injection Hup as <-.
  pose proof (placeholders_refused _ _ Hlook) as Hback.
  assert (Hmov : movable m1).
  { intros k Hk Ak. destruct (Hback k Hk Ak) as [_ Hi].
    apply allowed02_movedName; [exact Ak|]. by apply Hshort. }
  assert (Hall : forall k, is_Some (foldl upgradeMap m1 order !! k) ->
                           allowed02 k = true).
  { apply (foldl_upgradeMap_allowed m1 order Hmov).
    intros k Hk Ak. destruct (Hback k Hk Ak) as [_ Hi]. by apply Hshort. }
  assert (Hreq : ContainsRequiredKeywords
                   (setKeywords (Some (foldl upgradeMap m1 order))
                      (setFormat IESFormatLM_63_2002 i)) = true).
  { rewrite (ContainsRequiredKeywords_2002
               (setKeywords (Some (foldl upgradeMap m1 order))
                  (setFormat IESFormatLM_63_2002 i))
               (foldl upgradeMap m1 order) eq_refl eq_refl).
    apply (foldl_upgradeMap_required m1 order Hmov).
    by apply (placeholders_required table). }
  split; [reflexivity|]. split; [by apply Validate_setKeywords_setFormat|].
  exists (foldl upgradeMap m1 order). split; [reflexivity|exact Hall].
Qed.

(** X9. Upgrading twice is upgrading once. When [Upgrade] has returned a model,
    for a range that reached every refused keyword of the original, each of
    them shorter than 18 bytes, a second [Upgrade] of the result returns it
    unchanged, whatever the order of its range. *)
Theorem Upgrade_idempotent (order order' : list string) (i i' : IES F)
    (table : gmap string string) :
  Keywords i = Some table ->
  (forall k, is_Some (table !! k) -> allowed02 k = false ->
             len k < 18 /\ k ∈ order) ->
  Upgrade order i = Ok i' ->
  Upgrade order' i' = Ok i'.
Proof.
  intros Ht Hshort Hup.
  destruct (Upgrade_result order i i' table Ht Hshort Hup)
    as (Hf & Hv & table' & Ht' & Hall).
  by apply (Upgrade_unchanged order' i' table').
Qed.

(** The keywords the loop of [Upgrade] leaves alone. *)
Lemma Upgrade_kept (order : list string) (i i' : IES F)
    (table : gmap string string) :
  Keywords i = Some table ->
  (forall k, is_Some (table !! k) -> allowed02 k = false -> len k < 18) ->
  Upgrade order i = Ok i' ->
  forall k v,
    table !! k = Some v -> allowed02 k = true ->
    (forall k0, is_Some (table !! k0) -> allowed02 k0 = false ->
                movedName k0 <> k) ->
    entries (Keywords i') !! k = Some v.
Proof.
  intros Ht Hshort Hup.
  assert (Hv : fst (Validate i true) = true).
  { unfold Upgrade in Hup. destruct (Validate i true) as [[|] msg];
      [reflexivity|discriminate Hup]. }
  destruct (Upgrade_eq order i table Hv Ht) as (m1 & Heq & Hlook).
  rewrite Heq in Hup. injection Hup as <-.
  pose proof (placeholders_refused _ _ Hlook) as Hback.
  assert (Hmov : movable m1).
  { intros k Hk Ak. destruct (Hback k Hk Ak) as [_ Hi].
    apply allowed02_movedName; [exact Ak|]. by apply Hshort. }
  destruct (foldl_upgradeMap m1 order Hmov m1 (upgraded_refl _)) as [Hupg _].
  intros k v Hk Ak Hnt. cbn.
  apply (upgraded_kept _ _ Hupg); [|exact Ak|].
  - rewrite Hlook, Hk. reflexivity.
  - intros k0 Hk0 Ak0. destruct (Hback k0 Hk0 Ak0) as [_ Hi]. by apply Hnt.
Qed.

(** X10. On a model whose refused keywords are shorter than 18 bytes,
    [Upgrade] touches the format and the keywords only, and among the
    keywords only the refused ones, the placeholders and the names the
    refused ones move to: a keyword the 2002 revision allows, and that is
    not the moved name of a refused keyword of the model, keeps its
    value. *)
Theorem Upgrade_keeps_allowed_keywords (order : list string) (i i' : IES F)
    (table : gmap string string) :
  Keywords i = Some table ->
  (forall k, is_Some (table !! k) -> allowed02 k = false -> len k < 18) ->
  Upgrade order i = Ok i' ->
  i' = setKeywords (Keywords i') (setFormat IESFormatLM_63_2002 i)
  /\ forall k v,
       table !! k = Some v -> allowed02 k = true ->
       (forall k0, is_Some (table !! k0) -> allowed02 k0 = false ->
                   movedName k0 <> k) ->
       entries (Keywords i') !! k = Some v.
Proof.
  intros Ht Hshort Hup. split; [|by apply (Upgrade_kept order i i' table)].
  assert (Hv : fst (Validate i true) = true).
  { unfold Upgrade in Hup. destruct (Validate i true) as [[|] msg];
      [reflexivity|discriminate Hup]. }
  destruct (Upgrade_eq order i table Hv Ht) as (m1 & Heq & _).
  rewrite Heq in Hup. injection Hup as <-. reflexivity.
Qed.

End UpgradeAgain.

(** ** The line-packing routines *)

Lemma append_nil_l (a : string) : "" +:+ a = a.
Proof. reflexivity. Qed.

Lemma append_String (c : ascii) (a b : string) :
  String c a +:+ b = String c (a +:+ b).
Proof. reflexivity. Qed.

Lemma len_append (a b : string) : len (a +:+ b) = len a + len b.
Proof.
  unfold len. induction a as [|c a IH].
  - rewrite append_nil_l. cbn [String.length]. lia.
  - rewrite append_String. cbn [String.length]. lia.
Qed.

Lemma append_assoc (a b c : string) : (a +:+ b) +:+ c = a +:+ (b +:+ c).
Proof.
  induction a as [|x a IH]; [reflexivity|].
  rewrite !append_String. f_equal. exact IH.
Qed.

Lemma append_empty_r (a : string) : a +:+ "" = a.
Proof.
  induction a as [|x a IH]; [reflexivity|].
  rewrite append_String. f_equal. exact IH.
Qed.

Lemma concat_snoc (lines : list string) (line : string) :
  String.concat "" (lines ++ [line])%list = String.concat "" lines +:+ line.
Proof.
  induction lines as [|l lines IH]; [reflexivity|].
  destruct lines as [|l' lines].
  - cbn. reflexivity.
  - change (String.concat "" ((l :: l' :: lines) ++ [line])%list)
      with (l +:+ "" +:+ String.concat "" ((l' :: lines) ++ [line])%list).
    rewrite IH.
    change (String.concat "" (l :: l' :: lines))
      with (l +:+ "" +:+ String.concat "" (l' :: lines)).
    rewrite !append_nil_l, append_assoc. reflexivity.
Qed.

Lemma concat_cons_space (text : string) (texts : list string) :
  String.concat " " (text :: texts)
  = text +:+ String.concat "" (map (String.append " ") texts).
Proof.
  revert text. induction texts as [|t texts IH]; intros text.
  - cbn. rewrite append_empty_r. reflexivity.
  - change (String.concat " " (text :: t :: texts))
      with (text +:+ " " +:+ String.concat " " (t :: texts)).
    rewrite IH. f_equal.
    destruct texts as [|t' texts]; [cbn; rewrite !append_empty_r; reflexivity|].
    reflexivity.
Qed.

(** Once a value has been placed the separator is a space: the lines
    joined end to end are the lines so far, the current line and the
    remaining texts, each with a space in front. *)
Lemma packLines_joined (lineLength : Z) (texts : list string) :
  forall (lines : list string) (currentLine : string),
    String.concat "" (packLines lineLength texts lines currentLine " ")
    = String.concat "" lines +:+ currentLine
      +:+ String.concat "" (map (String.append " ") texts).
Proof.
  induction texts as [|t texts IH]; intros lines cur; cbn [packLines map].
  - rewrite concat_snoc. cbn. rewrite append_empty_r. reflexivity.
  - assert (Hc : String.concat "" ((" " +:+ t) :: map (String.append " ") texts)
                 = " " +:+ t
                   +:+ String.concat "" (map (String.append " ") texts)).
    { destruct (map (String.append " ") texts) as [|x l];
        [cbn; rewrite append_empty_r; reflexivity|reflexivity]. }
    rewrite Hc.
    destruct (lineLength <? len cur + len t + 1); rewrite IH.
    + rewrite concat_snoc. rewrite !append_nil_l.
      rewrite !append_assoc. reflexivity.
    + rewrite !append_assoc. reflexivity.
Qed.

Lemma packLines_start_joined (lineLength : Z) (texts : list string) :
  String.concat "" (packLines lineLength texts [] "" "")
  = String.concat " " texts.
Proof.
  destruct texts as [|t texts]; [reflexivity|].
  cbn [packLines]. rewrite concat_cons_space.
  destruct (lineLength <? len "" + len t + 1); rewrite packLines_joined;
    reflexivity.
Qed.

Lemma packLines_fit (lineLength : Z) (texts : list string) :
  (forall t, t ∈ texts -> 0 < len t < lineLength) ->
  forall (lines : list string) (currentLine sep : string),
    len sep <= 1 ->
    (currentLine = "" -> sep = "" /\ lines = []) ->
    len currentLine <= lineLength ->
    Forall (fun line => 0 < len line <= lineLength) lines ->
    texts <> [] ->
    Forall (fun line => 0 < len line <= lineLength)
           (packLines lineLength texts lines currentLine sep).
Proof.
  induction texts as [|t texts IH]; intros Ht lines cur sep Hsep He Hcur Hl Hne;
    [done|].
  assert (Hlen : 0 < len t < lineLength)
    by (apply Ht, list_elem_of_here).
  assert (Ht' : forall t', t' ∈ texts -> 0 < len t' < lineLength)
    by (intros t' Hin; apply Ht; by apply list_elem_of_further).
  assert (Hs0 : 0 <= len sep) by (unfold len; lia).
  assert (Hc0 : 0 <= len cur) by (unfold len; lia).
  cbn [packLines].
  destruct (Z.ltb_spec lineLength (len cur + len t + 1)) as [Hflush|Hkeep].
  - assert (Hcur0 : 0 < len cur).
    { destruct cur; [|unfold len; cbn [String.length]; lia].
      change (len "") with 0 in Hflush. lia. }
    assert (Hnew : 0 < len ("" +:+ sep +:+ t) <= lineLength).
    { rewrite append_nil_l, len_append. lia. }
    assert (Hl' : Forall (fun line => 0 < len line <= lineLength)
                         (lines ++ [cur])%list).
    { apply Forall_app. split; [exact Hl|]. apply Forall_singleton. lia. }
    destruct texts as [|t2 texts].
    + cbn [packLines]. apply Forall_app. split; [exact Hl'|].
      apply Forall_singleton. exact Hnew.
    + apply IH; try done.
      * intros E. rewrite E in Hnew. change (len "") with 0 in Hnew. lia.
      * lia.
  - assert (Hnew : 0 < len (cur +:+ sep +:+ t) <= lineLength).
    { rewrite !len_append. lia. }
    destruct texts as [|t2 texts].
    + cbn [packLines]. apply Forall_app. split; [exact Hl|].
      apply Forall_singleton. exact Hnew.
    + apply IH; try done.
      * intros E. rewrite E in Hnew. change (len "") with 0 in Hnew. lia.
      * lia.
Qed.

Section PackedLines.

Context {F : Type}.
Variable FormatFloat : F -> string.
Variable SprintFloat : F -> string.

(** X12. The line breaks of the two line-packing routines fall in front of the
    separating spaces and replace nothing: the lines they return, put end
    to end, are the texts of the values separated by single spaces. *)
Theorem convertFloatSliceToStringSlice_joined (lineLength : Z)
    (input : list F) (values : list (@value F)) :
  String.concat "" (convertFloatSliceToStringSlice FormatFloat lineLength
                      input)
  = String.concat " " (map FormatFloat input)
  /\ String.concat "" (convertValuesToStringSlice SprintFloat lineLength
                         values)
     = String.concat " " (map (Sprint SprintFloat) values).
Proof.
  split; apply packLines_start_joined.
Qed.

(** X13. For a list of values that is not empty, each with a text that is
    not empty and is shorter than the line length, no line the two
    routines return is empty or longer than the line length. (For an
    empty list they return one empty line.) *)
Theorem convertFloatSliceToStringSlice_fits (lineLength : Z)
    (input : list F) (values : list (@value F)) :
  input <> [] -> values <> [] ->
  (forall x, x ∈ input -> 0 < len (FormatFloat x) < lineLength) ->
  (forall v, v ∈ values -> 0 < len (Sprint SprintFloat v) < lineLength) ->
  Forall (fun line => 0 < len line <= lineLength)
         (convertFloatSliceToStringSlice FormatFloat lineLength input)
  /\ Forall (fun line => 0 < len line <= lineLength)
            (convertValuesToStringSlice SprintFloat lineLength values).
Proof.
  intros Hi Hv Hx Hs.
  assert (H0 : 0 <= lineLength).
  { destruct input as [|x input]; [done|].
    specialize (Hx x (list_elem_of_here _ _)). lia. }
  split; apply packLines_fit; try done.
  - intros t Ht. apply list_elem_of_fmap in Ht as (x & -> & Hin). by apply Hx.
  - by destruct input.
  - intros t Ht. apply list_elem_of_fmap in Ht as (x & -> & Hin). by apply Hs.
  - by destruct values.
Qed.

End PackedLines.

(** ** [Export]: when it returns *)

Lemma len_nonneg (s : string) : 0 <= len s.
Proof. unfold len. lia. Qed.

Lemma len_empty (s : string) : len s = 0 -> s = "".
Proof. destruct s; [reflexivity|]. unfold len. cbn [String.length]. lia. Qed.

Lemma slice_Done (s : string) (lo hi : Z) :
  0 <= lo -> lo <= hi -> hi <= len s ->
  slice s lo hi = Done (substring (Z.to_nat lo) (Z.to_nat (hi - lo)) s).
Proof.
  intros H1 H2 H3. unfold slice.
  replace (0 <=? lo) with true by (symmetry; apply Z.leb_le; lia).
  replace (lo <=? hi) with true by (symmetry; apply Z.leb_le; lia).
  replace (hi <=? len s) with true by (symmetry; apply Z.leb_le; lia).
  reflexivity.
Qed.

(** With a positive chunk size the loop ends, after at most one round per
    byte left, and a round adds a line. *)
Lemma chunkLoop_returns (val : string) (chunkSize : Z) :
  0 < chunkSize ->
  forall (fuel : nat) (j : Z) (lines : list string),
    0 <= j -> (Z.to_nat (len val - j) < fuel)%nat ->
    exists more,
      chunkLoop fuel val chunkSize j lines = Some (Done (lines ++ more)%list)
      /\ (j < len val -> more <> []).
Proof.
  intros Hc. induction fuel as [|fuel IH]; intros j lines Hj Hf; [lia|].
  cbn [chunkLoop].
  destruct (Z.ltb_spec j (len val)) as [Hlt|Hge].
  - rewrite slice_Done by (destruct (Z.ltb_spec (len val) (j + chunkSize)); lia).
    destruct (IH (j + chunkSize)
                 (lines ++ [Bytes.TrimSpace
                              (substring (Z.to_nat j)
                                 (Z.to_nat
                                    ((if len val <? j + chunkSize
                                      then len val else j + chunkSize) - j))
                                 val)])%list)
      as (more & -> & _); [lia|lia|].
    eexists (_ :: more). rewrite <- app_assoc. split; [reflexivity|done].
  - exists []. rewrite app_nil_r. split; [reflexivity|lia].
Qed.

(** With the chunk size 0 the index never moves: the loop runs for
    ever. *)
Lemma chunkLoop_runs_on (val : string) :
  forall (fuel : nat) (j : Z) (lines : list string),
    0 <= j -> j < len val -> chunkLoop fuel val 0 j lines = None.
Proof.
  induction fuel as [|fuel IH]; intros j lines Hj Hlt; [reflexivity|].
  cbn [chunkLoop].
  replace (j <? len val) with true by (symmetry; apply Z.ltb_lt; lia).
  rewrite Z.add_0_r.
  replace (len val <? j) with false by (symmetry; apply Z.ltb_ge; lia).
  rewrite slice_Done by lia. apply IH; lia.
Qed.

(** With a negative chunk size the first slice ends before it starts. *)
Lemma chunkLoop_panics (val : string) (chunkSize : Z) (fuel : nat)
    (lines : list string) :
  chunkSize < 0 -> 0 < len val ->
  chunkLoop (S fuel) val chunkSize 0 lines
  = Some (SliceOutOfRange 0 chunkSize).
Proof.
  intros Hc Hv. cbn [chunkLoop].
  replace (0 <? len val) with true by (symmetry; apply Z.ltb_lt; lia).
  rewrite Z.add_0_l.
  replace (len val <? chunkSize) with false by (symmetry; apply Z.ltb_ge; lia).
  unfold slice.
  replace (0 <=? chunkSize) with false by (symmetry; apply Z.leb_gt; lia).
  reflexivity.
Qed.

Lemma cleanPiece_returns (val : string) (maxLineLength : Z) :
  0 < maxLineLength ->
  exists n : nat, forall fuel : nat, (n < fuel)%nat ->
    forall lines : list string, exists more,
      more <> []
      /\ cleanPiece fuel val maxLineLength lines
         = Some (Done (lines ++ more)%list).
Proof.
  intros Hm. exists (Z.to_nat (len (Bytes.TrimSpace val))).
  intros fuel Hf lines. unfold cleanPiece.
  destruct (Z.ltb_spec maxLineLength (len (Bytes.TrimSpace val))) as [Hlt|Hge].
  - destruct (chunkLoop_returns (Bytes.TrimSpace val) maxLineLength Hm
                fuel 0 lines) as (more & -> & Hne); [lia|lia|].
    exists more. split; [apply Hne; lia|reflexivity].
  - eexists [_]. split; [done|reflexivity].
Qed.

Lemma cleanLines_returns (format : string) (lineLength : Z)
    (splitValue : list string) :
  7 < lineLength ->
  forall maxLineLength : Z, 0 < maxLineLength ->
  exists n : nat, forall fuel : nat, (n < fuel)%nat ->
    forall lines : list string, exists more,
      (splitValue <> [] -> more <> [])
      /\ cleanLines fuel format lineLength splitValue maxLineLength lines
         = Some (Done (lines ++ more)%list).
Proof.
  intros HL. induction splitValue as [|val rest IH]; intros maxLineLength Hm.
  - exists 0%nat. intros fuel _ lines. exists [].
    rewrite app_nil_r. split; [done|reflexivity].
  - destruct (cleanPiece_returns val maxLineLength Hm) as (n1 & H1).
    destruct (IH (if String.eqb format IESFormatLM_63_2002
                  then lineLength - 7 else lineLength - 1)) as (n2 & H2).
    { destruct (String.eqb format IESFormatLM_63_2002); lia. }
    exists (n1 `max` n2)%nat. intros fuel Hf lines. cbn [cleanLines].
    destruct (H1 fuel ltac:(lia) lines) as (more1 & Hne & ->).
    destruct (H2 fuel ltac:(lia) (lines ++ more1)%list) as (more2 & _ & ->).
    exists (more1 ++ more2)%list. rewrite app_assoc. split; [|reflexivity].
    intros _. destruct more1; [done|discriminate].
Qed.

Lemma splitLines_cons (s : string) :
  exists piece rest, splitLines s = piece :: rest.
Proof.
  destruct s as [|c r]; [cbn; eauto|]. cbn [splitLines].
  destruct (Ascii.eqb c Bytes.newline); [eauto|].
  destruct (splitLines r); eauto.
Qed.

Lemma cleanKeywordLinesOf_returns (format : string) (lineLength : Z)
    (keyword value : string) :
  7 < lineLength -> len keyword + 3 < lineLength ->
  exists n : nat, forall fuel : nat, (n < fuel)%nat ->
    exists first more,
      cleanKeywordLinesOf fuel format lineLength keyword value
      = Some (Done (first :: more)).
Proof.
  intros HL Hk. unfold cleanKeywordLinesOf.
  destruct (cleanLines_returns format lineLength
              (splitLines (replaceCRLF value)) HL
              (lineLength - len keyword - 3)) as (n & Hn); [lia|].
  exists n. intros fuel Hf.
  destruct (Hn fuel Hf []) as (more & Hne & ->).
  destruct (splitLines_cons (replaceCRLF value)) as (p & r & E).
  rewrite E in Hne. destruct more as [|first more]; [by destruct Hne|].
  eauto.
Qed.

Section ExportRuns.

Context {F : Type}.
Variable ParseFloat : string -> option F.
Variable zero : F.
Variable FormatFloat : F -> string.
Variable SprintFloat : F -> string.

Lemma writeKeywords_returns (i : IES F) (lineLength : Z)
    (order : list string) :
  7 < lineLength ->
  (forall k, is_Some (entries (Keywords i) !! k) ->
             len k + 3 < lineLength) ->
  exists n : nat, forall fuel : nat, (n < fuel)%nat ->
    forall out : list string, exists lines,
      writeKeywords fuel i lineLength order out
      = Some ((out ++ lines)%list, Done tt).
Proof.
  intros HL Hk. induction order as [|keyword rest (n2 & H2)].
  - exists 0%nat. intros fuel _ out. exists []. rewrite app_nil_r.
    reflexivity.
  - destruct (entries (Keywords i) !! keyword) as [value|] eqn:E.
    + destruct (cleanKeywordLinesOf_returns (Format i) lineLength keyword
                  value HL) as (n1 & H1); [apply Hk; eauto|].
      exists (n1 `max` n2)%nat. intros fuel Hf out. cbn [writeKeywords].
      rewrite E. destruct (H1 fuel ltac:(lia)) as (first & more & ->).
      destruct (H2 fuel ltac:(lia)
                   (out ++ ["[" +:+ keyword +:+ "] " +:+ first +:+ crlf]
                        ++ map (continuationLine (Format i)) more)%list)
        as (lines & ->).
      eexists. rewrite <- app_assoc. reflexivity.
    + exists n2. intros fuel Hf out. cbn [writeKeywords]. rewrite E.
      apply H2, Hf.
Qed.

(** [Export] returns on every model that [Validate] accepts and whose
    keywords leave room on a keyword line. *)
Lemma Export_returns (order : list string) (i : IES F) :
  fst (Validate i true) = true ->
  7 < maxKeywordLineLength i ->
  (forall k, is_Some (entries (Keywords i) !! k) ->
             len k + 3 < maxKeywordLineLength i) ->
  exists n : nat, forall fuel : nat, (n < fuel)%nat ->
    exists lines,
      Export FormatFloat SprintFloat fuel order i
      = Some (([convertFormatToString i +:+ crlf] ++ lines
               ++ writeData FormatFloat SprintFloat i)%list, Done tt).
Proof.
  intros Hv HL Hk.
  destruct (writeKeywords_returns i (maxKeywordLineLength i) order HL Hk)
    as (n & Hn).
  exists n. intros fuel Hf. unfold Export.
  destruct (Validate i true) as [ok msg]. cbn in Hv. subst ok. cbn [negb].
  destruct (Hn fuel Hf [convertFormatToString i +:+ crlf]) as (lines & ->).
  exists lines. rewrite <- app_assoc. reflexivity.
Qed.

Lemma keywordAllowedFor_len (format keyword : string) :
  keywordAllowedFor format keyword = true -> len keyword <= 18.
Proof.
  unfold keywordAllowedFor.
  destruct (String.eqb keyword ""); [discriminate|].
  destruct (Z.ltb_spec 18 (len keyword)); [discriminate|]. lia.
Qed.


(** X15. A keyword that fills the keyword line but for three bytes leaves the
    chunk size 0: when the range of [Export] comes to it first and the
    first line of its value is not blank, the chunk loop never ends and
    [Export] does not return, whatever the fuel. [Validate] does not look
    at the length of the keywords, so it does not stand in the way. *)
Theorem Export_runs_on_for_long_keyword (i : IES F) (keyword value : string)
    (first : string) (more rest : list string) :
  fst (Validate i true) = true ->
  entries (Keywords i) !! keyword = Some value ->
  len keyword = maxKeywordLineLength i - 3 ->
  splitLines (replaceCRLF value) = first :: more ->
  Bytes.TrimSpace first <> "" ->
  forall fuel : nat,
    Export FormatFloat SprintFloat fuel (keyword :: rest) i = None.
Proof.
  intros Hv Hk Hlen Hsplit Hne fuel. unfold Export.
  destruct (Validate i true) as [ok msg]. cbn in Hv. subst ok. cbn [negb].
  cbn [writeKeywords]. rewrite Hk.
  unfold cleanKeywordLinesOf. rewrite Hsplit. cbn [cleanLines].
  unfold cleanPiece.
  replace (maxKeywordLineLength i - len keyword - 3) with 0 by lia.
  assert (0 < len (Bytes.TrimSpace first)).
  { pose proof (len_nonneg (Bytes.TrimSpace first)).
    destruct (Z.eq_dec (len (Bytes.TrimSpace first)) 0) as [E|]; [|lia].
    apply len_empty in E. done. }
  replace (0 <? len (Bytes.TrimSpace first)) with true
    by (symmetry; apply Z.ltb_lt; lia).
  rewrite chunkLoop_runs_on by lia. reflexivity.
Qed.

(** X16. A longer keyword makes the chunk size negative: when the range comes
    to it first and the first line of its value is not blank, [Export]
    panics on the first slice, with the identifier line written. *)
Theorem Export_panics_for_longer_keyword (i : IES F)
    (keyword value : string) (first : string) (more rest : list string)
    (fuel : nat) :
  fst (Validate i true) = true ->
  entries (Keywords i) !! keyword = Some value ->
  maxKeywordLineLength i - 3 < len keyword ->
  splitLines (replaceCRLF value) = first :: more ->
  Bytes.TrimSpace first <> "" ->
  Export FormatFloat SprintFloat (S fuel) (keyword :: rest) i
  = Some ([convertFormatToString i +:+ crlf],
          SliceOutOfRange 0 (maxKeywordLineLength i - len keyword - 3)).
Proof.
  intros Hv Hk Hlen Hsplit Hne. unfold Export.
  destruct (Validate i true) as [ok msg]. cbn in Hv. subst ok. cbn [negb].
  cbn [writeKeywords]. rewrite Hk.
  unfold cleanKeywordLinesOf. rewrite Hsplit. cbn [cleanLines].
  unfold cleanPiece.
  assert (0 < len (Bytes.TrimSpace first)).
  { pose proof (len_nonneg (Bytes.TrimSpace first)).
    destruct (Z.eq_dec (len (Bytes.TrimSpace first)) 0) as [E|]; [|lia].
    apply len_empty in E. done. }
  replace (maxKeywordLineLength i - len keyword - 3
           <? len (Bytes.TrimSpace first)) with true
    by (symmetry; apply Z.ltb_lt; lia).
  rewrite chunkLoop_panics by lia. reflexivity.
Qed.

End ExportRuns.

(** ** [Export]: the keyword lines *)

(** *** Byte strings: what trimming and slicing keep *)

Lemma length_append (a b : string) :
  String.length (a +:+ b) = (String.length a + String.length b)%nat.
Proof.
  induction a as [|c a IH]; [reflexivity|].
  rewrite append_String. cbn [String.length]. lia.
Qed.

Lemma dropBytes_suffix (n : nat) :
  forall s, exists pre, s = pre +:+ Bytes.dropBytes n s.
Proof.
  induction n as [|n IH]; intros s; [by exists ""|].
  destruct s as [|c r]; [by exists ""|]. cbn [Bytes.dropBytes].
  destruct (IH r) as (pre & E). exists (String c pre).
  rewrite append_String. by f_equal.
Qed.

Lemma dropBytes_length (n : nat) :
  forall s, String.length (Bytes.dropBytes n s) = (String.length s - n)%nat.
Proof.
  induction n as [|n IH]; intros s; cbn [Bytes.dropBytes]; [lia|].
  destruct s as [|c r]; [reflexivity|]. cbn [String.length]. apply IH.
Qed.

Lemma trimLeftFuel_suffix (fuel : nat) :
  forall s, exists pre, s = pre +:+ Bytes.trimLeftFuel fuel s.
Proof.
  induction fuel as [|fuel IH]; intros s; [by exists ""|].
  cbn [Bytes.trimLeftFuel].
  destruct (Bytes.spaceWidth s) as [|w]; [by exists ""|].
  destruct (dropBytes_suffix (S w) s) as (p1 & E1).
  destruct (IH (Bytes.dropBytes (S w) s)) as (p2 & E2).
  exists (p1 +:+ p2). rewrite append_assoc, <- E2. exact E1.
Qed.

Lemma spaceWidth_empty : Bytes.spaceWidth "" = 0%nat.
Proof. reflexivity. Qed.

Lemma trimLeftFuel_head (fuel : nat) :
  forall s, (String.length s <= fuel)%nat ->
            Bytes.spaceWidth (Bytes.trimLeftFuel fuel s) = 0%nat.
Proof.
  induction fuel as [|fuel IH]; intros s Hs.
  - destruct s; [reflexivity|cbn [String.length] in Hs; lia].
  - cbn [Bytes.trimLeftFuel].
    destruct (Bytes.spaceWidth s) as [|w] eqn:E; [exact E|].
    apply IH. rewrite dropBytes_length.
    destruct s; [discriminate E|]. cbn [String.length] in *. lia.
Qed.

Lemma trimRevFuel_suffix (fuel : nat) :
  forall r, exists pre, r = pre +:+ Bytes.trimRevFuel fuel r.
Proof.
  induction fuel as [|fuel IH]; intros r; [by exists ""|].
  cbn [Bytes.trimRevFuel].
  destruct (Bytes.spaceWidthRev r) as [|w]; [by exists ""|].
  destruct (dropBytes_suffix (S w) r) as (p1 & E1).
  destruct (IH (Bytes.dropBytes (S w) r)) as (p2 & E2).
  exists (p1 +:+ p2). rewrite append_assoc, <- E2. exact E1.
Qed.

Lemma rev_onto_append (a : string) :
  forall b acc,
    Bytes.rev_onto (a +:+ b) acc = Bytes.rev_onto b (Bytes.rev_onto a acc).
Proof.
  induction a as [|c a IH]; intros b acc; [reflexivity|].
  rewrite append_String. cbn [Bytes.rev_onto]. apply IH.
Qed.

Lemma rev_onto_acc (s : string) :
  forall acc, Bytes.rev_onto s acc = Bytes.rev_onto s "" +:+ acc.
Proof.
  induction s as [|c s IH]; intros acc; [reflexivity|].
  cbn [Bytes.rev_onto]. rewrite (IH (String c acc)), (IH (String c "")).
  rewrite append_assoc. reflexivity.
Qed.

Lemma rev_append (a b : string) :
  Bytes.rev (a +:+ b) = Bytes.rev b +:+ Bytes.rev a.
Proof.
  unfold Bytes.rev. rewrite rev_onto_append. apply rev_onto_acc.
Qed.

Lemma rev_rev (s : string) : Bytes.rev (Bytes.rev s) = s.
Proof.
  induction s as [|c s IH]; [reflexivity|].
  change (String c s) with (String c "" +:+ s) at 1.
  rewrite rev_append, rev_append, IH. reflexivity.
Qed.

(** [TrimSpace] cuts a piece out of its argument. *)
Lemma TrimSpace_within (s : string) :
  exists pre post, s = pre +:+ Bytes.TrimSpace s +:+ post.
Proof.
  unfold Bytes.TrimSpace, Bytes.trimRight, Bytes.trimLeft.
  destruct (trimLeftFuel_suffix (String.length s) s) as (pre & E1).
  set (t := Bytes.trimLeftFuel (String.length s) s) in *.
  destruct (trimRevFuel_suffix (String.length t) (Bytes.rev t)) as (p & E2).
  exists pre, (Bytes.rev p).
  rewrite <- rev_append, <- E2, rev_rev. exact E1.
Qed.

Lemma TrimSpace_length (s : string) : len (Bytes.TrimSpace s) <= len s.
Proof.
  destruct (TrimSpace_within s) as (pre & post & E).
  rewrite E at 2. rewrite !len_append.
  pose proof (len_nonneg pre). pose proof (len_nonneg post). lia.
Qed.

Lemma isRegexpSpace_isAsciiSpace (c : ascii) :
  Bytes.isRegexpSpace c = true -> Bytes.isAsciiSpace c = true.
Proof.
  unfold Bytes.isRegexpSpace, Bytes.isAsciiSpace.
  destruct (N.eqb_spec (Bytes.code c) 9) as [->|_]; [reflexivity|].
  destruct (N.eqb_spec (Bytes.code c) 10) as [->|_]; [reflexivity|].
  destruct (N.eqb_spec (Bytes.code c) 12) as [->|_]; [reflexivity|].
  destruct (N.eqb_spec (Bytes.code c) 13) as [->|_]; [reflexivity|].
  destruct (N.eqb_spec (Bytes.code c) 32) as [->|_]; [reflexivity|].
  discriminate.
Qed.

(** A trimmed string does not start with white space. *)
Lemma TrimSpace_head (s : string) (c : ascii) (r : string) :
  Bytes.TrimSpace s = String c r -> Bytes.isRegexpSpace c = false.
Proof.
  intros E.
  pose proof (trimLeftFuel_head (String.length s) s (Nat.le_refl _)) as H0.
  fold (Bytes.trimLeft s) in H0.
  unfold Bytes.TrimSpace, Bytes.trimRight in E.
  set (t := Bytes.trimLeft s) in *.
  destruct (trimRevFuel_suffix (String.length t) (Bytes.rev t)) as (p & E2).
  apply (f_equal Bytes.rev) in E2. rewrite rev_rev, rev_append, E in E2.
  rewrite append_String in E2. rewrite E2 in H0.
  cbn [Bytes.spaceWidth] in H0.
  destruct (Bytes.isRegexpSpace c) eqn:Hc; [|reflexivity].
  apply isRegexpSpace_isAsciiSpace in Hc. rewrite Hc in H0. discriminate H0.
Qed.

Lemma contains_append (c : ascii) (a b : string) :
  Bytes.contains c (a +:+ b) = Bytes.contains c a || Bytes.contains c b.
Proof.
  induction a as [|d a IH]; [reflexivity|].
  rewrite append_String. cbn [Bytes.contains]. rewrite IH.
  apply orb_assoc.
Qed.

Lemma TrimSpace_contains (c : ascii) (s : string) :
  Bytes.contains c s = false -> Bytes.contains c (Bytes.TrimSpace s) = false.
Proof.
  destruct (TrimSpace_within s) as (pre & post & E). rewrite E at 1.
  rewrite !contains_append. intros H.
  apply orb_false_iff in H as [_ H]. by apply orb_false_iff in H as [H _].
Qed.

Lemma substring_contains (c : ascii) (s : string) :
  Bytes.contains c s = false ->
  forall n m, Bytes.contains c (substring n m s) = false.
Proof.
  induction s as [|d s IH]; intros H n m.
  - destruct n, m; reflexivity.
  - cbn [Bytes.contains] in H. apply orb_false_iff in H as [Hd Hs].
    destruct n as [|n]; cbn [substring].
    + destruct m as [|m]; [reflexivity|].
      cbn [Bytes.contains]. rewrite Hd. apply (IH Hs 0%nat).
    + apply (IH Hs).
Qed.

Lemma substring_length (s : string) :
  forall n m, (String.length (substring n m s) <= m)%nat.
Proof.
  induction s as [|d s IH]; intros n m.
  - destruct n, m; cbn; lia.
  - destruct n as [|n]; cbn [substring].
    + destruct m as [|m]; [cbn; lia|].
      cbn [String.length]. specialize (IH 0%nat m). lia.
    + apply IH.
Qed.

Lemma splitLines_contains (s : string) :
  Forall (fun piece => Bytes.contains Bytes.newline piece = false)
         (splitLines s).
Proof.
  induction s as [|c r IH]; cbn [splitLines].
  - by apply Forall_singleton.
  - destruct (Ascii.eqb Bytes.newline c) eqn:E.
    + rewrite Ascii.eqb_sym, E. by apply Forall_cons.
    + rewrite Ascii.eqb_sym, E.
      destruct (splitLines r) as [|piece rest].
      * apply Forall_singleton. cbn [Bytes.contains]. rewrite E. reflexivity.
      * apply Forall_cons in IH as [Hp Hr]. apply Forall_cons. split; [|done].
        cbn [Bytes.contains]. rewrite E. exact Hp.
Qed.

(** *** The lines of a keyword *)

Lemma TrimSpace_trimmedLine (s : string) :
  Bytes.contains Bytes.newline s = false -> trimmedLine (Bytes.TrimSpace s).
Proof.
  intros H. split; [by apply TrimSpace_contains|].
  intros c r E. by apply TrimSpace_head in E.
Qed.

Lemma slice_inv (s piece : string) (lo hi : Z) :
  slice s lo hi = Done piece ->
  0 <= lo <= hi /\ hi <= len s
  /\ piece = substring (Z.to_nat lo) (Z.to_nat (hi - lo)) s.
Proof.
  unfold slice.
  destruct (Z.leb_spec 0 lo) as [H1|]; [|discriminate].
  destruct (Z.leb_spec lo hi) as [H2|]; [|discriminate].
  destruct (Z.leb_spec hi (len s)) as [H3|]; [|discriminate].
  cbn [andb]. intros E. injection E as <-. repeat split; lia.
Qed.

(** The lines a terminating chunk loop adds: trimmed, and none longer
    than the chunk size. *)
Lemma chunkLoop_lines (val : string) (chunkSize : Z) :
  Bytes.contains Bytes.newline val = false ->
  forall (fuel : nat) (j : Z) (lines result : list string),
    chunkLoop fuel val chunkSize j lines = Some (Done result) ->
    exists more,
      result = (lines ++ more)%list
      /\ Forall (fun l => trimmedLine l /\ len l <= chunkSize) more
      /\ (j < len val -> more <> []).
Proof.
  intros Hn. induction fuel as [|fuel IH]; intros j lines result H;
    [discriminate H|].
  cbn [chunkLoop] in H.
  destruct (Z.ltb_spec j (len val)) as [Hlt|Hge].
  - destruct (slice val j _) as [piece| |] eqn:Es; try discriminate H.
    apply slice_inv in Es as (Hj & Hend & ->).
    apply IH in H as (more & -> & Hall & _).
    eexists (_ :: more). rewrite <- app_assoc. split; [reflexivity|].
    split; [|done]. apply Forall_cons. split; [|exact Hall]. split.
    + apply TrimSpace_trimmedLine. by apply substring_contains.
    + etransitivity; [apply TrimSpace_length|].
      pose proof (substring_length val (Z.to_nat j)
                    (Z.to_nat
                       ((if len val <? j + chunkSize
                         then len val else j + chunkSize) - j))) as Hs.
      unfold len at 1.
      destruct (Z.ltb_spec (len val) (j + chunkSize)); lia.
  - injection H as <-. exists []. rewrite app_nil_r.
    split; [reflexivity|]. split; [apply Forall_nil_2|lia].
Qed.

Lemma cleanPiece_lines (fuel : nat) (val : string) (maxLineLength : Z)
    (lines result : list string) :
  Bytes.contains Bytes.newline val = false ->
  cleanPiece fuel val maxLineLength lines = Some (Done result) ->
  exists more,
    result = (lines ++ more)%list
    /\ Forall (fun l => trimmedLine l /\ len l <= maxLineLength) more
    /\ (0 <= maxLineLength -> more <> []).
Proof.
  intros Hn. unfold cleanPiece.
  destruct (Z.ltb_spec maxLineLength (len (Bytes.TrimSpace val)))
    as [Hlt|Hge]; intros H.
  - apply chunkLoop_lines in H as (more & -> & Hall & Hne);
      [|by apply TrimSpace_contains].
    exists more. split; [reflexivity|]. split; [exact Hall|].
    intros H0. apply Hne. lia.
  - injection H as <-. eexists [_]. split; [reflexivity|]. split; [|done].
    apply Forall_singleton. split.
    + apply TrimSpace_trimmedLine. by apply TrimSpace_contains.
    + etransitivity; [apply TrimSpace_length|exact Hge].
Qed.

Lemma cleanLines_lines (fuel : nat) (format : string) (lineLength : Z)
    (bound : Z) (splitValue : list string) :
  Forall (fun piece => Bytes.contains Bytes.newline piece = false)
         splitValue ->
  (if String.eqb format IESFormatLM_63_2002 then lineLength - 7
   else lineLength - 1) <= bound ->
  forall (maxLineLength : Z) (lines result : list string),
    maxLineLength <= bound ->
    cleanLines fuel format lineLength splitValue maxLineLength lines
    = Some (Done result) ->
    exists more,
      result = (lines ++ more)%list
      /\ Forall (fun l => trimmedLine l /\ len l <= bound) more.
Proof.
  intros Hn Hb. induction splitValue as [|val rest IH];
    intros maxLineLength lines result Hm H; cbn [cleanLines] in H.
  - injection H as <-. exists []. rewrite app_nil_r. by split.
  - apply Forall_cons in Hn as [Hv Hrest].
    destruct (cleanPiece fuel val maxLineLength lines) as [[r1| |]|] eqn:E1;
      try discriminate H.
    apply cleanPiece_lines in E1 as (more1 & -> & Hall1 & _); [|exact Hv].
    apply (IH Hrest) in H as (more2 & -> & Hall2); [|exact Hb].
    exists (more1 ++ more2)%list. rewrite app_assoc.
    split; [reflexivity|]. apply Forall_app. split; [|exact Hall2].
    eapply Forall_impl; [exact Hall1|]. intros l [Ht Hl]. split; [done|lia].
Qed.

(** The lines of a keyword that leaves room on its line: the first comes
    from the first line of the value and fits behind the keyword; each of
    the others fits behind the keyword or in a continuation line; all
    are trimmed. *)
Lemma cleanKeywordLinesOf_lines (fuel : nat) (format : string)
    (lineLength : Z) (keyword value first : string) (more : list string) :
  cleanKeywordLinesOf fuel format lineLength keyword value
  = Some (Done (first :: more)) ->
  (trimmedLine first /\ Forall trimmedLine more)
  /\ (len keyword + 3 <= lineLength ->
      len first <= lineLength - len keyword - 3
      /\ Forall (fun l =>
                   len l <= lineLength - len keyword - 3
                   \/ len l <= if String.eqb format IESFormatLM_63_2002
                               then lineLength - 7 else lineLength - 1)
                more).
Proof.
  unfold cleanKeywordLinesOf. intros H.
  pose proof (splitLines_contains (replaceCRLF value)) as Hn.
  destruct (splitLines_cons (replaceCRLF value)) as (p & rest & E).
  rewrite E in *. apply Forall_cons in Hn as [Hp Hrest].
  cbn [cleanLines] in H.
  destruct (cleanPiece fuel p (lineLength - len keyword - 3) [])
    as [[r1| |]|] eqn:E1; try discriminate H.
  apply cleanPiece_lines in E1 as (more1 & -> & Hall1 & Hne1); [|exact Hp].
  apply (cleanLines_lines fuel format lineLength
           (if String.eqb format IESFormatLM_63_2002
            then lineLength - 7 else lineLength - 1) rest Hrest
           (Z.le_refl _)) in H as (more2 & Hr & Hall2); [|lia].
  cbn [app] in Hr. split.
  - assert (Hall : Forall trimmedLine (first :: more)).
    { rewrite Hr. apply Forall_app. split.
      - eapply Forall_impl; [exact Hall1|]. by intros l [? _].
      - eapply Forall_impl; [exact Hall2|]. by intros l [? _]. }
    by apply Forall_cons in Hall.
  - intros Hroom. destruct more1 as [|l1 more1]; [destruct Hne1; [lia|done]|].
    cbn [app] in Hr. injection Hr as -> ->.
    apply Forall_cons in Hall1 as [[_ Hl1] Hall1]. split; [exact Hl1|].
    apply Forall_app. split.
    + eapply Forall_impl; [exact Hall1|]. intros l [_ Hl]. by left.
    + eapply Forall_impl; [exact Hall2|]. intros l [_ Hl]. by right.
Qed.

Lemma span_word_run (keyword rest : string) (c : ascii) :
  Bytes.span Bytes.isWord keyword = (keyword, "") ->
  Bytes.isWord c = false ->
  Bytes.span Bytes.isWord (keyword +:+ String c rest)
  = (keyword, String c rest).
Proof.
  intros Hk Hc. induction keyword as [|d keyword IH].
  - rewrite append_nil_l. cbn [Bytes.span]. rewrite Hc. reflexivity.
  - rewrite append_String. cbn [Bytes.span] in *.
    destruct (Bytes.isWord d); [|discriminate Hk].
    destruct (Bytes.span Bytes.isWord keyword) as [a b] eqn:E.
    injection Hk as -> ->. rewrite IH by reflexivity. reflexivity.
Qed.

Lemma span_space_trimmed (line : string) :
  trimmedLine line ->
  Bytes.span Bytes.isRegexpSpace (String " " line) = (" ", line).
Proof.
  intros [_ Hh]. cbn [Bytes.span].
  change (Bytes.isRegexpSpace " ") with true. cbn iota.
  destruct line as [|c r]; [reflexivity|].
  cbn [Bytes.span]. rewrite (Hh c r eq_refl). reflexivity.
Qed.

Lemma keywordRegex_written (keyword line : string) :
  Bytes.span Bytes.isWord keyword = (keyword, "") ->
  trimmedLine line ->
  Regexp.keywordRegex ("[" +:+ keyword +:+ "] " +:+ line)
  = Some (keyword, line).
Proof.
  intros Hk Hl. unfold Regexp.keywordRegex.
  change ("[" +:+ keyword +:+ "] " +:+ line)
    with (String "[" (keyword +:+ String "]" (String " " line))).
  change (Ascii.eqb "[" "[") with true. cbn iota.
  rewrite (span_word_run keyword _ "]" Hk eq_refl).
  change (Ascii.eqb "]" "]") with true. cbn iota.
  rewrite (span_space_trimmed line Hl).
  change (String.eqb " " "") with false. cbn iota.
  destruct Hl as [-> _]. reflexivity.
Qed.

Lemma keywordExtraRegex_written (line : string) :
  trimmedLine line -> Regexp.keywordExtraRegex (" " +:+ line) = Some line.
Proof.
  intros Hl. unfold Regexp.keywordExtraRegex.
  change (" " +:+ line) with (String " " line).
  rewrite (span_space_trimmed line Hl).
  change (String.eqb " " "") with false. cbn iota.
  destruct Hl as [-> _]. reflexivity.
Qed.

(** X17. What [Export] writes for a keyword is what the parser reads. For a
    keyword made of word bytes, the first line written, without its line
    end, matches the keyword pattern with the keyword and the first line of
    the value; each further line matches the keyword pattern as a [MORE]
    line under the 2002 revision, and the continuation pattern under the
    others, with its text. *)
Theorem Export_keyword_lines_read_back (fuel : nat) (format : string)
    (lineLength : Z) (keyword value first : string) (more : list string) :
  Bytes.span Bytes.isWord keyword = (keyword, "") ->
  cleanKeywordLinesOf fuel format lineLength keyword value
  = Some (Done (first :: more)) ->
  Regexp.keywordRegex ("[" +:+ keyword +:+ "] " +:+ first)
  = Some (keyword, first)
  /\ Forall (fun l =>
               if String.eqb format IESFormatLM_63_2002 then
                 continuationLine format l = "[MORE] " +:+ l +:+ crlf
                 /\ Regexp.keywordRegex ("[MORE] " +:+ l) = Some ("MORE", l)
               else
                 continuationLine format l = " " +:+ l +:+ crlf
                 /\ Regexp.keywordExtraRegex (" " +:+ l) = Some l)
            more.
Proof.
  intros Hk H.
  apply cleanKeywordLinesOf_lines in H as [[Hf Hm] _].
  split; [by apply keywordRegex_written|].
  eapply Forall_impl; [exact Hm|]. intros l Hl. unfold continuationLine.
  destruct (String.eqb format IESFormatLM_63_2002).
  - split; [reflexivity|].
    apply (keywordRegex_written "MORE" l); [reflexivity|exact Hl].
  - split; [reflexivity|]. by apply keywordExtraRegex_written.
Qed.

(** X18. The keyword lines fit. For a keyword that leaves room on its line
    and, under the 2002 revision, has at least four bytes, no line written
    for it is longer than the keyword line length plus its line end. *)
Theorem Export_keyword_lines_fit (fuel : nat) (format : string)
    (lineLength : Z) (keyword value first : string) (more : list string) :
  len keyword + 3 <= lineLength ->
  (format = IESFormatLM_63_2002 -> 4 <= len keyword) ->
  cleanKeywordLinesOf fuel format lineLength keyword value
  = Some (Done (first :: more)) ->
  len ("[" +:+ keyword +:+ "] " +:+ first +:+ crlf) <= lineLength + 2
  /\ Forall (fun l => len (continuationLine format l) <= lineLength + 2)
            more.
Proof.
  intros Hroom Hfour H.
  apply cleanKeywordLinesOf_lines in H as [_ H].
  destruct (H Hroom) as [Hf Hm]. split.
  - rewrite !len_append. change (len "[") with 1. change (len "] ") with 2.
    change (len crlf) with 2. lia.
  - eapply Forall_impl; [exact Hm|]. intros l Hl. unfold continuationLine.
    pose proof (len_nonneg keyword).
    destruct (String.eqb_spec format IESFormatLM_63_2002) as [E|_];
      rewrite !len_append; change (len crlf) with 2.
    + specialize (Hfour E). change (len "[MORE] ") with 7. lia.
    + change (len " ") with 1. lia.
Qed.

(** A keyword of fewer than four bytes under the 2002 revision: the
    second chunk of a long first line is cut for the keyword and written
    behind [MORE], four bytes over the line length with its line end. *)
Example Export_short_keyword_overflows :
  exists first second more,
    cleanKeywordLinesOf 10 IESFormatLM_63_2002 254 "_A" (xs 500)
    = Some (Done (first :: second :: more))
    /\ len (continuationLine IESFormatLM_63_2002 second) = 258.
Proof. do 3 eexists. split; vm_compute; reflexivity. Qed.

(** ** Read, upgrade, convert, write *)

Lemma keywordAllowedFor_revision (format keyword : string) :
  parsedFormat format ->
  keywordAllowedFor format keyword
  = if String.eqb keyword "" then false
    else if 18 <? len keyword then false
    else if startsWithUnderscore keyword then true
    else if String.eqb format IESFormatLM_63_1991 then
      keywordAllowedByIesna91 keyword
    else if String.eqb format IESFormatLM_63_1995 then
      keywordAllowedByIesna95 keyword
    else keywordAllowedByIesna02 keyword.
Proof. intros [->|[->| ->]]; reflexivity. Qed.

(** Among the keywords the 1991 and 1995 revisions list, the 2002 revision
    refuses three. *)
Lemma refused_by_2002 (format keyword : string) :
  parsedFormat format ->
  keywordAllowedFor format keyword = true ->
  allowed02 keyword = false ->
  format <> IESFormatLM_63_2002
  /\ keyword ∈ ["DATE"; "BLOCK"; "ENDBLOCK"].
Proof.
  intros Hf Ha H02. unfold allowed02 in H02.
  rewrite (keywordAllowedFor_revision _ _ Hf) in Ha.
  rewrite (keywordAllowedFor_revision IESFormatLM_63_2002 keyword) in H02
    by (right; right; reflexivity).
  destruct (String.eqb keyword ""); [discriminate Ha|].
  destruct (18 <? len keyword); [discriminate Ha|].
  destruct (startsWithUnderscore keyword); [discriminate H02|].
  change (keywordAllowedByIesna02 keyword = false) in H02.
  assert (Hlist : format <> IESFormatLM_63_2002
                  /\ (keywordAllowedByIesna91 keyword = true
                      \/ keywordAllowedByIesna95 keyword = true)).
  { destruct Hf as [->|[->| ->]].
    - split; [discriminate|]. left. exact Ha.
    - split; [discriminate|]. right. exact Ha.
    - change (keywordAllowedByIesna02 keyword = true) in Ha. congruence. }
  destruct Hlist as [Hne Hlist]. split; [exact Hne|].
  unfold keywordAllowedByIesna02 in H02.
  unfold keywordAllowedByIesna91, keywordAllowedByIesna95 in Hlist.
  destruct Hlist as [Hl|Hl]; apply existsb_exists in Hl as (x & Hin & Hx);
    apply String.eqb_eq in Hx; subst x; cbn [In] in Hin;
    repeat (destruct Hin as [<-|Hin];
            [try discriminate H02; apply list_elem_of_In; cbn; tauto|]);
    destruct Hin.
Qed.

Section ParsedUpgrade.

Context {F : Type}.
Variable ParseFloat : string -> option F.
Variable zero : F.

Lemma NewIES_parsedFormat (lines : list string) (strict : bool)
    (warnings : list warning) (i : IES F) :
  NewIES ParseFloat zero lines strict = (warnings, Ok i) ->
  parsedFormat (Format i).
Proof.
  unfold NewIES.
  destruct (validateStringFromLine _ 16 strict) as [w first].
  intros H. injection H as _ H.
  step_call H. split_pairs. step_call H.
  match goal with
  | E : parseFormatVersion _ _ = Ok _ |- _ =>
      apply parseFormatVersion_Ok in E as (format & -> & Hpf)
  end.
  step_call H. split_pairs. step_call H. split_pairs.
  apply parseData_keeps in H as (_ & Hf & _).
  match goal with
  | E : headerLoop _ _ _ = Ok _ |- _ =>
      apply headerLoop_checked in E as [_ Hf']
  end.
  2:{ exists ∅. split; [reflexivity|]. split; [|left; reflexivity].
      intros k [v Hv']. rewrite lookup_empty in Hv'. discriminate. }
  rewrite Hf, Hf'. exact Hpf.
Qed.

(** X19. What [Upgrade] does to a file that was read. The only keywords of a
    parsed model that the 2002 revision refuses are [DATE], [BLOCK] and
    [ENDBLOCK], and only in a model of an older revision; every other
    keyword, unless it is one of the names these three move to, has the
    same value after [Upgrade]. *)
Theorem parsed_Upgrade_moves_three (lines : list string) (strict : bool)
    (warnings : list warning) (i i' : IES F) (order : list string) :
  NewIES ParseFloat zero lines strict = (warnings, Ok i) ->
  Upgrade order i = Ok i' ->
  (forall k, is_Some (entries (Keywords i) !! k) -> allowed02 k = false ->
             Format i <> IESFormatLM_63_2002
             /\ k ∈ ["DATE"; "BLOCK"; "ENDBLOCK"])
  /\ forall k v,
       entries (Keywords i) !! k = Some v ->
       k ∉ ["DATE"; "BLOCK"; "ENDBLOCK"] ->
       k ∉ ["ISSUEDATE"; "_BLOCK"; "_ENDBLOCK"] ->
       entries (Keywords i') !! k = Some v.
Proof.
  intros Hparse Hup.
  pose proof (NewIES_parsedFormat _ _ _ _ Hparse) as Hpf.
  pose proof (NewIES_allowed _ _ _ _ _ _ Hparse) as Hall.
  destruct (NewIES_keywords _ _ _ _ _ _ Hparse) as (table & Ht & Hshort).
  assert (Hthree : forall k, is_Some (entries (Keywords i) !! k) ->
                             allowed02 k = false ->
                             Format i <> IESFormatLM_63_2002
                             /\ k ∈ ["DATE"; "BLOCK"; "ENDBLOCK"]).
  { intros k Hk Ak. apply (refused_by_2002 (Format i) k Hpf); [|exact Ak].
    by apply Hall. }
  split; [exact Hthree|].
  intros k v Hk Hn1 Hn2.
  assert (Ak : allowed02 k = true).
  { destruct (allowed02 k) eqn:Ak; [reflexivity|].
    destruct (Hthree k) as [_ Hin]; [eauto|exact Ak|]. done. }
  rewrite Ht in Hk. cbn in Hk.
  apply (Upgrade_kept order i i' table Ht Hshort Hup k v Hk Ak).
  intros k0 Hk0 Ak0 E.
  destruct (Hthree k0) as [_ Hin]; [by rewrite Ht|exact Ak0|].
  apply Hn2. subst k.
  repeat (apply elem_of_cons in Hin as [->|Hin];
          [apply list_elem_of_In; cbn; tauto|]).
  by apply elem_of_nil in Hin.
Qed.

End ParsedUpgrade.

Section Flows.

Context {F : Type}.
Variable ParseFloat : string -> option F.
Variables zero one : F.
Variable FormatFloat : F -> string.
Variable SprintFloat : F -> string.

(** X20. Read, upgrade, write. For a model the parser returned and a range of
    [Upgrade] that reaches the keywords the 2002 revision refuses,
    [Export] of the upgraded model returns without an error, a panic or an
    endless loop, for every order of its own range; the file starts with
    the identifier line of the 2002 revision. *)
Theorem Export_after_Upgrade (lines : list string) (strict : bool)
    (warnings : list warning) (i i' : IES F) (order order' : list string) :
  NewIES ParseFloat zero lines strict = (warnings, Ok i) ->
  (forall k, is_Some (entries (Keywords i) !! k) -> allowed02 k = false ->
             k ∈ order) ->
  Upgrade order i = Ok i' ->
  exists n : nat, forall fuel : nat, (n < fuel)%nat ->
    exists keywordLines,
      Export FormatFloat SprintFloat fuel order' i'
      = Some ((["IESNA:LM-63-2002" +:+ crlf] ++ keywordLines
               ++ writeData FormatFloat SprintFloat i')%list, Done tt).
Proof.
  intros Hparse Horder Hup.
  destruct (NewIES_keywords _ _ _ _ _ _ Hparse) as (table & Ht & Hshort).
  destruct (Upgrade_result order i i' table Ht) as (Hf & Hv & t' & Ht' & Hall);
    [|exact Hup|].
  { intros k Hk Ak. split; [by apply Hshort|].
    apply Horder; [by rewrite Ht|exact Ak]. }
  assert (HL : maxKeywordLineLength i' = 254).
  { unfold maxKeywordLineLength. rewrite Hf. reflexivity. }
  destruct (Export_returns FormatFloat SprintFloat order' i' Hv)
    as (n & Hn).
  - rewrite HL. lia.
  - intros k Hk. rewrite Ht' in Hk. apply Hall in Hk.
    apply keywordAllowedFor_len in Hk. rewrite HL. lia.
  - exists n. intros fuel Hfuel. destruct (Hn fuel Hfuel) as (kw & ->).
    exists kw. unfold convertFormatToString. rewrite Hf. reflexivity.
Qed.

(** X21. Convert, write. [Export] of a converted model returns without an
    error when the intensity table of the EULUMDAT structure has one row
    with one value per G angle; for every other table it writes nothing
    and returns the message of [Validate]. *)
Theorem Export_of_converted (eulumdat : Ldt.Eulumdat F) (ies : IES F)
    (order : list string) :
  ConvertEulumdatToIES zero one (Some eulumdat) = Ok ies ->
  ((exists row,
       Ldt.LuminousIntensityDistribution eulumdat = [row]
       /\ length row = length (Ldt.AnglesG eulumdat)) ->
   exists n : nat, forall fuel : nat, (n < fuel)%nat ->
     exists keywordLines,
       Export FormatFloat SprintFloat fuel order ies
       = Some ((["IESNA:LM-63-2002" +:+ crlf] ++ keywordLines
                ++ writeData FormatFloat SprintFloat ies)%list, Done tt))
  /\ (~ (exists row,
           Ldt.LuminousIntensityDistribution eulumdat = [row]
           /\ length row = length (Ldt.AnglesG eulumdat)) ->
      forall fuel : nat, exists msg,
        Export FormatFloat SprintFloat fuel order ies
        = Some ([], Failed (ErrExportValidate msg))).
Proof.
  intros H.
  destruct (ConvertEulumdatToIES_keywords _ _ _ _ H) as (Hf & _ & Hall).
  pose proof (ConvertEulumdatToIES_Validate _ _ _ _ true H) as Hv.
  assert (HL : maxKeywordLineLength ies = 254).
  { unfold maxKeywordLineLength. rewrite Hf. reflexivity. }
  split.
  - intros Hone. apply Hv in Hone.
    destruct (Export_returns FormatFloat SprintFloat order ies Hone)
      as (n & Hn).
    + rewrite HL. lia.
    + intros k Hk. apply Hall in Hk. apply keywordAllowedFor_len in Hk.
      rewrite HL. lia.
    + exists n. intros fuel Hfuel. destruct (Hn fuel Hfuel) as (kw & ->).
      exists kw. unfold convertFormatToString. rewrite Hf. reflexivity.
  - intros Hnot fuel. unfold Export.
    destruct (Validate ies true) as [ok msg]. cbn [fst] in Hv.
    destruct ok; [by destruct Hnot; apply Hv|].
    cbn [negb]. eauto.
Qed.

End Flows.

Section IdentifierLine.

Context {F : Type}.

(** X22. The identifier line [Export] writes is one the parser accepts, with
    the same format, exactly for the three revisions that have an
    identifier line; for any other format nothing but the line end is
    written, and the parser refuses the empty line. *)
Theorem convertFormatToString_parseFormatVersion (i j : IES F) :
  parseFormatVersion j (convertFormatToString i)
  = if String.eqb (Format i) IESFormatLM_63_1991
       || String.eqb (Format i) IESFormatLM_63_1995
       || String.eqb (Format i) IESFormatLM_63_2002
    then Ok (setFormat (Format i) j)
    else Err (ErrInvalidFormat "").
Proof.
  unfold convertFormatToString.
  destruct (String.eqb_spec (Format i) IESFormatLM_63_1986) as [->|_];
    [reflexivity|].
  destruct (String.eqb_spec (Format i) IESFormatLM_63_1991) as [->|_];
    [reflexivity|].
  destruct (String.eqb_spec (Format i) IESFormatLM_63_1995) as [->|_];
    [reflexivity|].
  destruct (String.eqb_spec (Format i) IESFormatLM_63_2002) as [->|_];
    reflexivity.
Qed.

End IdentifierLine.

(** ** The number readers *)

(** *** Lines of digits *)

Lemma isDigit_code (c : ascii) :
  Bytes.isDigit c = true -> (48 <= Bytes.code c <= 57)%N.
Proof.
  unfold Bytes.isDigit. intros H. apply andb_true_iff in H as [H1 H2].
  apply N.leb_le in H1, H2. lia.
Qed.

Ltac digit_tests c H :=
  repeat match goal with
    | |- context [(Bytes.code c =? ?k)%N] =>
        replace (Bytes.code c =? k)%N with false
          by (symmetry; apply N.eqb_neq; lia)
    | |- context [(?k <=? Bytes.code c)%N] =>
        replace (k <=? Bytes.code c)%N with false
          by (symmetry; apply N.leb_gt; lia)
    end.

Lemma isAsciiSpace_digit (c : ascii) :
  Bytes.isDigit c = true -> Bytes.isAsciiSpace c = false.
Proof.
  intros H. apply isDigit_code in H. unfold Bytes.isAsciiSpace.
  replace (Bytes.code c <=? 13)%N with false
    by (symmetry; apply N.leb_gt; lia).
  replace (Bytes.code c =? 32)%N with false
    by (symmetry; apply N.eqb_neq; lia).
  rewrite andb_false_r. reflexivity.
Qed.

Lemma spaceWidth_digit (c : ascii) (r : string) :
  Bytes.isDigit c = true -> Bytes.spaceWidth (String c r) = 0%nat.
Proof.
  intros H. cbn [Bytes.spaceWidth]. rewrite (isAsciiSpace_digit c H).
  apply isDigit_code in H. unfold Bytes.wideSpaceWidth.
  destruct r as [|b r]; [reflexivity|]. cbv zeta.
  digit_tests c H. cbn [andb].
  destruct r as [|c3 r]; reflexivity.
Qed.

Lemma trimLeft_digit (c : ascii) (r : string) :
  Bytes.isDigit c = true -> Bytes.trimLeft (String c r) = String c r.
Proof.
  intros H. unfold Bytes.trimLeft. cbn [String.length Bytes.trimLeftFuel].
  rewrite (spaceWidth_digit c r H). reflexivity.
Qed.

Lemma spaceWidthRev_digit (d : ascii) (y : string) :
  Bytes.isDigit d = true -> Bytes.spaceWidthRev (String d y) = 0%nat.
Proof.
  intros H. unfold Bytes.spaceWidthRev. rewrite (isAsciiSpace_digit d H).
  apply isDigit_code in H.
  destruct y as [|a y]; [reflexivity|].
  unfold Bytes.wideSpaceWidth. cbv zeta. digit_tests d H.
  rewrite !andb_false_r. cbn [orb andb Nat.eqb].
  destruct y as [|a2 y]; [reflexivity|].
  destruct ((Bytes.code a2 =? 194)%N
            && ((Bytes.code a =? 133)%N || (Bytes.code a =? 160)%N));
    rewrite ?andb_false_r; reflexivity.
Qed.

Lemma trimRevFuel_id (fuel : nat) (r : string) :
  Bytes.spaceWidthRev r = 0%nat -> Bytes.trimRevFuel fuel r = r.
Proof. intros H. destruct fuel; cbn [Bytes.trimRevFuel]; by rewrite ?H. Qed.

Lemma trimRight_digit (x : string) (d : ascii) :
  Bytes.isDigit d = true ->
  Bytes.trimRight (x +:+ String d "") = x +:+ String d "".
Proof.
  intros H. unfold Bytes.trimRight. rewrite rev_append.
  change (Bytes.rev (String d "")) with (String d "").
  rewrite append_String, append_nil_l.
  rewrite trimRevFuel_id by (by apply spaceWidthRev_digit).
  change (String d (Bytes.rev x)) with (String d "" +:+ Bytes.rev x).
  change (String d "") with (Bytes.rev (String d "")) at 1.
  rewrite <- rev_append. apply rev_rev.
Qed.

(** A string that starts and ends with a digit is left as it is by
    [TrimSpace]. *)
Lemma TrimSpace_digits (c d : ascii) (x : string) :
  Bytes.isDigit c = true -> Bytes.isDigit d = true ->
  Bytes.TrimSpace (String c (x +:+ String d ""))
  = String c (x +:+ String d "").
Proof.
  intros Hc Hd. unfold Bytes.TrimSpace. rewrite (trimLeft_digit c _ Hc).
  change (String c (x +:+ String d "")) with (String c x +:+ String d "").
  by apply trimRight_digit.
Qed.

Lemma digits_head (s : string) :
  forall acc n, Strconv.digits acc s = Some n ->
    match s with
    | String c _ => Bytes.isDigit c = true
    | EmptyString => True
    end.
Proof.
  destruct s as [|c r]; intros acc n H; [exact I|].
  cbn [Strconv.digits] in H. by destruct (Bytes.isDigit c).
Qed.

Lemma digits_last (s : string) :
  forall acc n, s <> "" -> Strconv.digits acc s = Some n ->
    exists x d, s = x +:+ String d "" /\ Bytes.isDigit d = true.
Proof.
  induction s as [|c r IH]; intros acc n Hne H; [done|].
  cbn [Strconv.digits] in H.
  destruct (Bytes.isDigit c) eqn:Hc; [|discriminate H].
  destruct r as [|c2 r].
  - exists "", c. by split.
  - apply IH in H as (x & d & -> & Hd); [|discriminate].
    exists (String c x), d. by split.
Qed.

Lemma digits_removeByte (b : ascii) (s : string) :
  Bytes.isDigit b = false ->
  forall acc n, Strconv.digits acc s = Some n -> Bytes.removeByte b s = s.
Proof.
  intros Hb. induction s as [|c r IH]; intros acc n H; [reflexivity|].
  cbn [Strconv.digits] in H.
  destruct (Bytes.isDigit c) eqn:Hc; [|discriminate H].
  cbn [Bytes.removeByte].
  destruct (Ascii.eqb_spec b c) as [->|_]; [congruence|].
  f_equal. by eapply IH.
Qed.

Lemma digits_commasToDots (s : string) :
  forall acc n, Strconv.digits acc s = Some n -> commasToDots s = s.
Proof.
  induction s as [|c r IH]; intros acc n H; [reflexivity|].
  cbn [Strconv.digits] in H.
  destruct (Bytes.isDigit c) eqn:Hc; [|discriminate H].
  cbn [commasToDots].
  destruct (Ascii.eqb_spec c ",") as [->|_]; [discriminate Hc|].
  f_equal. by eapply IH.
Qed.

Lemma removeByte_append (b : ascii) (x y : string) :
  Bytes.removeByte b (x +:+ y)
  = Bytes.removeByte b x +:+ Bytes.removeByte b y.
Proof.
  induction x as [|c x IH]; [reflexivity|].
  rewrite append_String. cbn [Bytes.removeByte].
  destruct (Ascii.eqb b c); [exact IH|].
  rewrite append_String. by f_equal.
Qed.

Lemma commasToDots_append (x y : string) :
  commasToDots (x +:+ y) = commasToDots x +:+ commasToDots y.
Proof.
  induction x as [|c x IH]; [reflexivity|].
  rewrite !append_String. cbn [commasToDots]. rewrite append_String.
  by f_equal.
Qed.

(** Two groups of digits with one byte between them: trimming changes
    nothing. *)
Lemma TrimSpace_groups (a b : string) (sep : ascii) (na nb : Z) :
  a <> "" -> b <> "" ->
  Strconv.digits 0 a = Some na -> Strconv.digits 0 b = Some nb ->
  Bytes.TrimSpace (a +:+ String sep b) = a +:+ String sep b
  /\ Bytes.TrimSpace (a +:+ b) = a +:+ b.
Proof.
  intros Ha Hb Da Db.
  pose proof (digits_head a 0 na Da) as Hh.
  destruct a as [|c a]; [done|].
  destruct (digits_last b 0 nb Hb Db) as (x & d & -> & Hd).
  split.
  - rewrite append_String.
    change (String sep (x +:+ String d "")) with (String sep x +:+ String d "").
    rewrite <- append_assoc. by apply TrimSpace_digits.
  - rewrite append_String. rewrite <- append_assoc.
    by apply TrimSpace_digits.
Qed.

Section Grouping.

Context {F : Type}.
Variable ParseFloat : string -> option F.

(** X23. Digit grouping. A line of two groups of digits separated by a blank or
    an underscore is read by [getIntFromLine] and [validateIntFromLine] as
    the one number the two groups spell together, not as two numbers and
    not as an error; [validateFloatFromLine] reads a comma between the
    groups as the decimal point. *)
Theorem validateIntFromLine_grouping (a b text : string)
    (rest : list string) (na nb : Z) :
  a <> "" -> b <> "" ->
  Strconv.digits 0 a = Some na -> Strconv.digits 0 b = Some nb ->
  getIntFromLine (a +:+ " " +:+ b) = getIntFromLine (a +:+ b)
  /\ getIntFromLine (a +:+ "_" +:+ b) = getIntFromLine (a +:+ b)
  /\ validateIntFromLine (mkScanner text ((a +:+ " " +:+ b) :: rest))
     = (n ← getIntFromLine (a +:+ b);
        Ok (n, mkScanner (a +:+ " " +:+ b) rest))
  /\ validateIntFromLine (mkScanner text ((a +:+ "_" +:+ b) :: rest))
     = (n ← getIntFromLine (a +:+ b);
        Ok (n, mkScanner (a +:+ "_" +:+ b) rest))
  /\ validateFloatFromLine ParseFloat
       (mkScanner text ((a +:+ "," +:+ b) :: rest))
     = match ParseFloat (a +:+ "." +:+ b) with
       | Some x => FloatOk (x, mkScanner (a +:+ "," +:+ b) rest)
       | None => FloatErr (ErrParseFloat (a +:+ "." +:+ b))
       end.
Proof.
  intros Ha Hb Da Db.
  destruct (TrimSpace_groups a b " " na nb Ha Hb Da Db) as [Es E0].
  destruct (TrimSpace_groups a b "_" na nb Ha Hb Da Db) as [Eu _].
  destruct (TrimSpace_groups a b "," na nb Ha Hb Da Db) as [Ec _].
  assert (Ra : forall c, Bytes.isDigit c = false -> Bytes.removeByte c a = a)
    by (intros c Hc; by eapply digits_removeByte).
  assert (Rb : forall c, Bytes.isDigit c = false -> Bytes.removeByte c b = b)
    by (intros c Hc; by eapply digits_removeByte).
  assert (Cs : Bytes.removeByte "_" (Bytes.removeByte " " (a +:+ " " +:+ b))
               = a +:+ b).
  { rewrite removeByte_append, (Ra " "%char eq_refl).
    change (" " +:+ b) with (String " " b). cbn [Bytes.removeByte].
    change (Ascii.eqb " " " ") with true. cbn iota.
    rewrite (Rb " "%char eq_refl).
    rewrite removeByte_append, (Ra "_"%char eq_refl), (Rb "_"%char eq_refl).
    reflexivity. }
  assert (Cu : Bytes.removeByte "_" (Bytes.removeByte " " (a +:+ "_" +:+ b))
               = a +:+ b).
  { rewrite removeByte_append, (Ra " "%char eq_refl).
    change ("_" +:+ b) with (String "_" b). cbn [Bytes.removeByte].
    change (Ascii.eqb " " "_") with false. cbn iota.
    rewrite (Rb " "%char eq_refl).
    rewrite removeByte_append, (Ra "_"%char eq_refl).
    cbn [Bytes.removeByte].
    change (Ascii.eqb "_" "_") with true. cbn iota.
    rewrite (Rb "_"%char eq_refl). reflexivity. }
  assert (C0 : Bytes.removeByte "_" (Bytes.removeByte " " (a +:+ b))
               = a +:+ b).
  { rewrite removeByte_append, (Ra " "%char eq_refl), (Rb " "%char eq_refl).
    rewrite removeByte_append, (Ra "_"%char eq_refl), (Rb "_"%char eq_refl).
    reflexivity. }
  assert (Gs : getIntFromLine (a +:+ " " +:+ b) = getIntFromLine (a +:+ b)).
  { unfold getIntFromLine. cbv zeta.
    change (a +:+ " " +:+ b) with (a +:+ String " " b). rewrite Es, E0.
    change (a +:+ String " " b) with (a +:+ " " +:+ b).
    rewrite Cs, C0. reflexivity. }
  assert (Gu : getIntFromLine (a +:+ "_" +:+ b) = getIntFromLine (a +:+ b)).
  { unfold getIntFromLine. cbv zeta.
    change (a +:+ "_" +:+ b) with (a +:+ String "_" b). rewrite Eu, E0.
    change (a +:+ String "_" b) with (a +:+ "_" +:+ b).
    rewrite Cu, C0. reflexivity. }
  split; [exact Gs|]. split; [exact Gu|]. split; [|split].
  - rewrite <- Gs. unfold validateIntFromLine, getIntFromLine, Scan.
    cbn [pending Text]. cbv zeta.
    destruct (len _ =? 0); [reflexivity|].
    destruct (Strconv.Atoi _); reflexivity.
  - rewrite <- Gu. unfold validateIntFromLine, getIntFromLine, Scan.
    cbn [pending Text]. cbv zeta.
    destruct (len _ =? 0); [reflexivity|].
    destruct (Strconv.Atoi _); reflexivity.
  - unfold validateFloatFromLine, Scan. cbn [pending Text]. cbv zeta.
    change (a +:+ "," +:+ b) with (a +:+ String "," b). rewrite Ec.
    rewrite commasToDots_append, (digits_commasToDots a 0 na Da).
    cbn [commasToDots]. change (Ascii.eqb "," ",") with true. cbn iota.
    rewrite (digits_commasToDots b 0 nb Db).
    rewrite removeByte_append, (Ra " "%char eq_refl).
    cbn [Bytes.removeByte]. change (Ascii.eqb " " ".") with false. cbn iota.
    rewrite (Rb " "%char eq_refl).
    rewrite removeByte_append, (Ra "_"%char eq_refl).
    cbn [Bytes.removeByte]. change (Ascii.eqb "_" ".") with false. cbn iota.
    rewrite (Rb "_"%char eq_refl).
    change (a +:+ String "." b) with (a +:+ "." +:+ b).
    destruct a as [|c a]; [done|].
    replace (len (String c a +:+ "." +:+ b) =? 0) with false; [reflexivity|].
    symmetry. apply Z.eqb_neq. rewrite append_String. unfold len.
    cbn [String.length]. lia.
Qed.

End Grouping.

(** ** Runs of the statements on the parser, [Upgrade] and the converter *)

Lemma NewIES_passes_Validate_witness :
  (forall s, Validate sampleModel s = (true, ""))
  /\ Z.of_nat (length (VerticalAngles sampleModel))
     = NumberVerticalAngles sampleModel
  /\ Z.of_nat (length (HorizontalAngles sampleModel))
     = NumberHorizontalAngles sampleModel
  /\ Z.of_nat (length (CandelaValues sampleModel))
     = NumberHorizontalAngles sampleModel
  /\ Forall (fun row => Z.of_nat (length row)
                        = NumberVerticalAngles sampleModel)
            (CandelaValues sampleModel).
Proof.
  apply (NewIES_passes_Validate tokenFloat "0" sampleDocument true []
           sampleModel).
  vm_compute. reflexivity.
Defined.

Lemma NewIES_model_witness :
  parsedFormat (Format sampleModel)
  /\ (Tilt sampleModel = IESTiltInclude \/ Tilt sampleModel = IESTiltNone)
  /\ (exists l, l ∈ drop 1 sampleDocument /\ isTiltLine l = true)
  /\ strictParsing sampleModel = true
  /\ exists table,
      Keywords sampleModel = Some table
      /\ forall k, is_Some (table !! k) ->
                   isKeywordAllowed sampleModel k = true.
Proof.
  apply (NewIES_model tokenFloat "0" sampleDocument true [] sampleModel).
  vm_compute. reflexivity.
Defined.

Lemma NewIES_strict_lenient_witness :
  @nil warning = []
  /\ NewIES tokenFloat "0" sampleDocument false
     = ([], Ok (setStrictParsing false sampleModel)).
Proof.
  apply (NewIES_strict_lenient tokenFloat "0" sampleDocument [] sampleModel).
  vm_compute. reflexivity.
Defined.

Lemma NewIES_format_line_witness :
  exists first rest,
    sampleDocument = first :: rest
    /\ convertFormatToString sampleModel = Bytes.TrimSpace first.
Proof.
  apply (NewIES_format_line tokenFloat "0" sampleDocument true []
           sampleModel).
  vm_compute. reflexivity.
Defined.

Lemma parseData_tilt_include_panics_witness :
  parseData tokenFloat tiltState "1" tiltScanner
  = Panic (IndexOutOfRange 3 3).
Proof.
  apply (parseData_tilt_include_panics tokenFloat tiltState "1" tiltScanner
           "3" "0 45 90" ["1 1 1"] 1 3);
    vm_compute; reflexivity.
Defined.

Lemma getWordListFromInput_content_witness :
  exists more rest',
    pending (mkScanner "1 2" ["3 4"; "5"; "6"]) = (more ++ rest')%list
    /\ ["1"; "2"; "3"; "4"]
       = concat (map lineWords ("1 2" :: more))
    /\ Z.of_nat (length ["1"; "2"; "3"; "4"]) = 4
    /\ exists l rest'',
        rest' = l :: rest'' /\ mkScanner "5" ["6"] = mkScanner l rest''.
Proof.
  apply (getWordListFromInput_content (mkScanner "1 2" ["3 4"; "5"; "6"])
           (mkScanner "5" ["6"]) 4 false ["1"; "2"; "3"; "4"]).
  - lia.
  - vm_compute. reflexivity.
Defined.

Lemma legacyModel_refused (k : string) :
  is_Some ((<["DATE" := "2020"]> (<["BLOCK" := "b"]> ∅)
            : gmap string string) !! k) ->
  k = "DATE" \/ k = "BLOCK".
Proof.
  intros [v H].
  apply lookup_insert_Some in H as [[<- _]|[_ H]]; [by left|].
  apply lookup_insert_Some in H as [[<- _]|[_ H]]; [by right|].
  rewrite lookup_empty in H. discriminate H.
Qed.

Lemma Upgrade_idempotent_witness :
  exists i',
    Upgrade ["BLOCK"; "DATE"] legacyModel = Ok i'
    /\ Upgrade ["TEST"; "_BLOCK"] i' = Ok i'.
Proof.
  eexists. split; [vm_compute; reflexivity|].
  apply (Upgrade_idempotent ["BLOCK"; "DATE"] ["TEST"; "_BLOCK"]
           legacyModel _ (<["DATE" := "2020"]> (<["BLOCK" := "b"]> ∅))).
  - reflexivity.
  - intros k Hk _. apply legacyModel_refused in Hk as [->| ->].
    + split; [vm_compute; reflexivity|set_solver].
    + split; [vm_compute; reflexivity|set_solver].
  - vm_compute. reflexivity.
Defined.

Lemma Upgrade_keeps_allowed_keywords_witness :
  exists i',
    Upgrade ["DATE"] (setKeywords
                        (Some (<["DATE" := "2020"]> (<["LAMP" := "led"]> ∅)))
                        legacyModel) = Ok i'
    /\ entries (Keywords i') !! "LAMP" = Some "led".
Proof.
  eexists. split; [vm_compute; reflexivity|].
  eapply (Upgrade_keeps_allowed_keywords ["DATE"]
            (setKeywords
               (Some (<["DATE" := "2020"]> (<["LAMP" := "led"]> ∅)))
               legacyModel)
            _ (<["DATE" := "2020"]> (<["LAMP" := "led"]> ∅))).
  - reflexivity.
  - intros k [v H] Ak.
    apply lookup_insert_Some in H as [[<- _]|[_ H]]; [vm_compute; reflexivity|].
    apply lookup_insert_Some in H as [[<- _]|[_ H]]; [vm_compute; reflexivity|].
    rewrite lookup_empty in H. discriminate H.
  - vm_compute. reflexivity.
  - vm_compute. reflexivity.
  - reflexivity.
  - intros k [v H] Ak.
    apply lookup_insert_Some in H as [[<- _]|[_ H]]; [discriminate|].
    apply lookup_insert_Some in H as [[<- _]|[_ H]]; [discriminate|].
    rewrite lookup_empty in H. discriminate H.
Defined.

Lemma ConvertEulumdatToIES_valid_iff_one_plane_witness :
  exists ies,
    ConvertEulumdatToIES "0" "1" (Some sampleLdt) = Ok ies
    /\ Format ies = IESFormatLM_63_2002
    /\ ContainsRequiredKeywords ies = true
    /\ (forall k, is_Some (entries (Keywords ies) !! k) ->
                  isKeywordAllowed ies k = true)
    /\ (fst (Validate ies true) = true
        <-> exists row,
              Ldt.LuminousIntensityDistribution sampleLdt = [row]
              /\ length row = length (Ldt.AnglesG sampleLdt)).
Proof.
  eexists. split; [vm_compute; reflexivity|].
  apply (ConvertEulumdatToIES_valid_iff_one_plane "0" "1" sampleLdt _ true).
  vm_compute. reflexivity.
Defined.

(** ** Runs of the statements on [Export] *)

Lemma convertFloatSliceToStringSlice_fits_witness :
  Forall (fun line => 0 < len line <= 10)
         (convertFloatSliceToStringSlice textFloat 10
            ["1.00"; "2.00"; "3.00"])
  /\ Forall (fun line => 0 < len line <= 10)
            (convertValuesToStringSlice textFloat 10
               [IntValue 12; FloatValue "0.5"]).
Proof.
  apply (convertFloatSliceToStringSlice_fits textFloat textFloat 10
           ["1.00"; "2.00"; "3.00"] [IntValue 12; FloatValue "0.5"]).
  - discriminate.
  - discriminate.
  - intros x Hx.
    repeat (apply elem_of_cons in Hx as [->|Hx];
            [vm_compute; split; reflexivity|]).
    by apply elem_of_nil in Hx.
  - intros v Hv.
    repeat (apply elem_of_cons in Hv as [->|Hv];
            [vm_compute; split; reflexivity|]).
    by apply elem_of_nil in Hv.
Defined.


Lemma Export_runs_on_for_long_keyword_witness :
  Export textFloat textFloat 1000 [xs 77; "TEST"] (wideKeywordModel 77)
  = None.
Proof.
  apply (Export_runs_on_for_long_keyword textFloat textFloat
           (wideKeywordModel 77) (xs 77) "v" "v" [] ["TEST"]).
  - vm_compute. reflexivity.
  - vm_compute. reflexivity.
  - vm_compute. reflexivity.
  - vm_compute. reflexivity.
  - vm_compute. discriminate.
Defined.

Lemma Export_panics_for_longer_keyword_witness :
  Export textFloat textFloat 1 [xs 78; "TEST"] (wideKeywordModel 78)
  = Some ([convertFormatToString (wideKeywordModel 78) +:+ crlf],
          SliceOutOfRange 0
            (maxKeywordLineLength (wideKeywordModel 78) - len (xs 78) - 3)).
Proof.
  apply (Export_panics_for_longer_keyword textFloat textFloat
           (wideKeywordModel 78) (xs 78) "v" "v" [] ["TEST"] 0).
  - vm_compute. reflexivity.
  - vm_compute. reflexivity.
  - vm_compute. reflexivity.
  - vm_compute. reflexivity.
  - vm_compute. discriminate.
Defined.

Lemma Export_keyword_lines_read_back_witness :
  Regexp.keywordRegex ("[" +:+ "TEST" +:+ "] " +:+ "abc")
  = Some ("TEST", "abc")
  /\ Forall (fun l =>
               if String.eqb IESFormatLM_63_2002 IESFormatLM_63_2002 then
                 continuationLine IESFormatLM_63_2002 l
                 = "[MORE] " +:+ l +:+ crlf
                 /\ Regexp.keywordRegex ("[MORE] " +:+ l) = Some ("MORE", l)
               else
                 continuationLine IESFormatLM_63_2002 l = " " +:+ l +:+ crlf
                 /\ Regexp.keywordExtraRegex (" " +:+ l) = Some l)
            ["def"].
Proof.
  apply (Export_keyword_lines_read_back 10 IESFormatLM_63_2002 254 "TEST"
           (String.append "abc" (String Bytes.newline "def")) "abc" ["def"]).
  - vm_compute. reflexivity.
  - vm_compute. reflexivity.
Defined.

Lemma Export_keyword_lines_fit_witness :
  len ("[" +:+ "TEST" +:+ "] " +:+ "abc" +:+ crlf) <= 254 + 2
  /\ Forall (fun l => len (continuationLine IESFormatLM_63_2002 l)
                      <= 254 + 2)
            ["def"].
Proof.
  apply (Export_keyword_lines_fit 10 IESFormatLM_63_2002 254 "TEST"
           (String.append "abc" (String Bytes.newline "def")) "abc" ["def"]).
  - vm_compute. discriminate.
  - intros _. vm_compute. discriminate.
  - vm_compute. reflexivity.
Defined.

(** ** Runs of the statements on the flows and the number readers *)

Lemma parsed_Upgrade_moves_three_witness :
  exists i',
    Upgrade ["DATE"] datedModel = Ok i'
    /\ (forall k, is_Some (entries (Keywords datedModel) !! k) ->
                  allowed02 k = false ->
                  Format datedModel <> IESFormatLM_63_2002
                  /\ k ∈ ["DATE"; "BLOCK"; "ENDBLOCK"])
    /\ forall k v,
         entries (Keywords datedModel) !! k = Some v ->
         k ∉ ["DATE"; "BLOCK"; "ENDBLOCK"] ->
         k ∉ ["ISSUEDATE"; "_BLOCK"; "_ENDBLOCK"] ->
         entries (Keywords i') !! k = Some v.
Proof.
  eexists. split; [vm_compute; reflexivity|].
  eapply (parsed_Upgrade_moves_three tokenFloat "0" datedDocument false []
            datedModel _ ["DATE"]).
  - vm_compute. reflexivity.
  - vm_compute. reflexivity.
Defined.

Lemma datedModel_refused (k : string) :
  is_Some (entries (Keywords datedModel) !! k) -> allowed02 k = false ->
  k ∈ ["DATE"].
Proof.
  intros Hk Ak.
  destruct (refused_by_2002 (Format datedModel) k) as [_ Hin];
    [right; left; reflexivity| |exact Ak|].
  { apply (NewIES_allowed tokenFloat "0" datedDocument false [] datedModel);
      [vm_compute; reflexivity|exact Hk]. }
  apply elem_of_cons in Hin as [->|Hin]; [apply list_elem_of_here|].
  exfalso.
  apply elem_of_cons in Hin as [->|Hin];
    [destruct Hk as [v Hv]; vm_compute in Hv; discriminate Hv|].
  apply elem_of_cons in Hin as [->|Hin];
    [destruct Hk as [v Hv]; vm_compute in Hv; discriminate Hv|].
  by apply elem_of_nil in Hin.
Qed.

Lemma Upgrade_of_parsed_witness :
  exists i',
    Upgrade ["DATE"] datedModel = Ok i'
    /\ Format i' = IESFormatLM_63_2002
    /\ (forall k, is_Some (entries (Keywords i') !! k) ->
                  isKeywordAllowed i' k = true)
    /\ ContainsRequiredKeywords i' = true.
Proof.
  apply (Upgrade_of_parsed tokenFloat "0" datedDocument false []
           datedModel ["DATE"]).
  - vm_compute. reflexivity.
  - exact datedModel_refused.
Defined.

(** The run behind it: the date of the 1995 file is under the name the
    2002 revision has for it, and the two required keywords the file did
    not have hold the placeholder. *)
Example Upgrade_datedModel :
  exists i',
    Upgrade ["DATE"] datedModel = Ok i'
    /\ entries (Keywords i') !! "DATE" = None
    /\ entries (Keywords i') !! "ISSUEDATE" = Some "2020"
    /\ entries (Keywords i') !! "TESTLAB" = Some "unknown".
Proof. eexists. vm_compute. repeat split. Qed.

Lemma Export_after_Upgrade_witness :
  exists i',
    Upgrade ["DATE"] datedModel = Ok i'
    /\ exists n : nat, forall fuel : nat, (n < fuel)%nat ->
         exists keywordLines,
           Export textFloat textFloat fuel ["TEST"; "ISSUEDATE"] i'
           = Some ((["IESNA:LM-63-2002" +:+ crlf] ++ keywordLines
                    ++ writeData textFloat textFloat i')%list, Done tt).
Proof.
  eexists. split; [vm_compute; reflexivity|].
  eapply (Export_after_Upgrade tokenFloat "0" textFloat textFloat
            datedDocument false [] datedModel _ ["DATE"]
            ["TEST"; "ISSUEDATE"]).
  - vm_compute. reflexivity.
  - exact datedModel_refused.
  - vm_compute. reflexivity.
Defined.

Lemma Export_of_converted_witness :
  exists ies,
    ConvertEulumdatToIES "0" "1" (Some sampleLdt) = Ok ies
    /\ ((exists row,
            Ldt.LuminousIntensityDistribution sampleLdt = [row]
            /\ length row = length (Ldt.AnglesG sampleLdt)) ->
        exists n : nat, forall fuel : nat, (n < fuel)%nat ->
          exists keywordLines,
            Export textFloat textFloat fuel ["TEST"] ies
            = Some ((["IESNA:LM-63-2002" +:+ crlf] ++ keywordLines
                     ++ writeData textFloat textFloat ies)%list, Done tt))
    /\ (~ (exists row,
              Ldt.LuminousIntensityDistribution sampleLdt = [row]
              /\ length row = length (Ldt.AnglesG sampleLdt)) ->
        forall fuel : nat, exists msg,
          Export textFloat textFloat fuel ["TEST"] ies
          = Some ([], Failed (ErrExportValidate msg))).
Proof.
  eexists. split; [vm_compute; reflexivity|].
  apply (Export_of_converted "0" "1" textFloat textFloat sampleLdt _
           ["TEST"]).
  vm_compute. reflexivity.
Defined.

Lemma validateIntFromLine_grouping_witness :
  getIntFromLine ("12" +:+ " " +:+ "000") = getIntFromLine ("12" +:+ "000")
  /\ getIntFromLine ("12" +:+ "_" +:+ "000")
     = getIntFromLine ("12" +:+ "000")
  /\ validateIntFromLine (mkScanner "" (("12" +:+ " " +:+ "000") :: ["7"]))
     = (n ← getIntFromLine ("12" +:+ "000");
        Ok (n, mkScanner ("12" +:+ " " +:+ "000") ["7"]))
  /\ validateIntFromLine (mkScanner "" (("12" +:+ "_" +:+ "000") :: ["7"]))
     = (n ← getIntFromLine ("12" +:+ "000");
        Ok (n, mkScanner ("12" +:+ "_" +:+ "000") ["7"]))
  /\ validateFloatFromLine tokenFloat
       (mkScanner "" (("12" +:+ "," +:+ "000") :: ["7"]))
     = match tokenFloat ("12" +:+ "." +:+ "000") with
       | Some x => FloatOk (x, mkScanner ("12" +:+ "," +:+ "000") ["7"])
       | None => FloatErr (ErrParseFloat ("12" +:+ "." +:+ "000"))
       end.
Proof.
  apply (validateIntFromLine_grouping tokenFloat "12" "000" "" ["7"] 12 0).
  - discriminate.
  - discriminate.
  - vm_compute. reflexivity.
  - vm_compute. reflexivity.
Defined.

(** The run behind the witness: the two groups are read as twelve
    thousand. *)
Example validateIntFromLine_12_000 :
  validateIntFromLine (mkScanner "" ["12 000"; "7"])
  = Ok (12000, mkScanner "12 000" ["7"]).
Proof. vm_compute. reflexivity. Qed.
